(** * add_skeleton.py: the GLB container codec, the accessor view, the
    humanoid skeleton builder, the skin-weight solver, the animation
    synthesizer and the pipeline that ties them together.

    The development is a shallow embedding of [tools/add_skeleton.py].
    Python objects are modelled as they are at run time:
    - the glTF document is the tree [json.loads] returns (dicts keep their
      insertion order, so an object is an association list);
    - Python floats are IEEE-754 binary64 numbers, i.e. Rocq's primitive
      floats; 32-bit floats are handled through [SpecFloat] at precision 24;
    - exceptions are values of [PyErr], carried by the [result] monad;
    - the file system is a finite map from paths to file contents.

    What the script takes from its platform and cannot be replayed bit for
    bit (the JSON text codec, libm's sine and cosine, the order numpy's
    argsort gives to equal keys) is a field of the [Platform] class. *)

From Stdlib Require Import ZArith List String Ascii Floats Lia Bool DecimalString.
From Stdlib.Strings Require Import Byte.
From stdpp Require Import base option list gmap strings.

Set Warnings "-inexact-float,-register-all".
Local Open Scope Z_scope.

(** ** Exceptions and the exception monad *)

Inductive PyErr : Type :=
| ValueError (msg : string)
| KeyError
| IndexError
| TypeError
| AttributeError
| StructError
| OverflowError
| FileNotFoundError
| JSONDecodeError
| UnicodeDecodeError.

Inductive result (A : Type) : Type :=
| Ok (a : A)
| Raise (e : PyErr).
Arguments Ok {A} a.
Arguments Raise {A} e.

#[export] Instance result_ret : MRet result := @Ok.
#[export] Instance result_bind : MBind result :=
  fun A B f m => match m with Ok a => f a | Raise e => Raise e end.
#[export] Instance result_fmap : FMap result :=
  fun A B f m => match m with Ok a => Ok (f a) | Raise e => Raise e end.

Definition is_ok {A} (r : result A) : bool :=
  match r with Ok _ => true | Raise _ => false end.

(** [mapM] for [result], left to right, stopping at the first exception. *)
Fixpoint traverse {A B} (f : A -> result B) (l : list A) : result (list B) :=
  match l with
  | [] => Ok []
  | x :: l' => y ← f x; ys ← traverse f l'; Ok (y :: ys)
  end.

(** A left fold whose step may raise. *)
Fixpoint foldM {A S} (f : S -> A -> result S) (l : list A) (s : S) : result S :=
  match l with
  | [] => Ok s
  | x :: l' => s' ← f s x; foldM f l' s'
  end.

(** ** Bytes and [struct]'s little-endian unsigned integers *)

Definition len {A} (l : list A) : Z := Z.of_nat (length l).

Definition byte_of_Z (z : Z) : byte :=
  default x00 (Byte.of_N (Z.to_N (z mod 256))).

Definition Z_of_byte (b : byte) : Z := Z.of_N (Byte.to_N b).

(** The [n] low bytes of [z], least significant first. *)
Fixpoint le_bytes (n : nat) (z : Z) : list byte :=
  match n with
  | O => []
  | S n' => byte_of_Z (Z.land z 255) :: le_bytes n' (Z.shiftr z 8)
  end.

Fixpoint le_value (bs : list byte) : Z :=
  match bs with
  | [] => 0
  | b :: bs' => Z.lor (Z_of_byte b) (Z.shiftl (le_value bs') 8)
  end.

(** [struct.pack('<I', n)]: [struct.error] outside [0, 2^32). *)
Definition pack_I (n : Z) : result (list byte) :=
  if (0 <=? n) && (n <? 2 ^ 32) then Ok (le_bytes 4 n) else Raise StructError.

(** [struct.unpack('<III', b)] and [struct.unpack('<II', b)]: the buffer must
    have exactly the size of the format. *)
Definition unpack_III (b : list byte) : result (Z * Z * Z) :=
  if len b =? 12
  then Ok (le_value (take 4 b), le_value (take 4 (drop 4 b)), le_value (take 4 (drop 8 b)))
  else Raise StructError.

Definition unpack_II (b : list byte) : result (Z * Z) :=
  if len b =? 8
  then Ok (le_value (take 4 b), le_value (take 4 (drop 4 b)))
  else Raise StructError.

(** [while len(b) % 4 != 0: b += fill].  The loop body runs at most three
    times; [fuel] bounds it. *)
Fixpoint pad_loop (fuel : nat) (fill : byte) (b : list byte) : list byte :=
  if len b mod 4 =? 0 then b
  else match fuel with
       | O => b
       | S fuel' => pad_loop fuel' fill (b ++ [fill])
       end.

Definition pad4 (fill : byte) (b : list byte) : list byte := pad_loop 3 fill b.

(** ** JSON documents, as [json.loads] builds them *)

Inductive json : Type :=
| JNull
| JBool (b : bool)
| JInt (n : Z)
| JFloat (f : float)
| JStr (s : string)
| JArr (l : list json)
| JObj (kvs : list (string * json)).

(** ** The platform: what the script imports and this file does not replay *)

Class Platform : Type := {
  (** [json.loads(b.decode('utf-8'))] *)
  json_loads : list byte -> result json;
  (** [json.dumps(doc, separators=(',', ':')).encode('utf-8')] *)
  json_dumps : json -> list byte;
  (** [numpy.sin], [numpy.cos] on a binary64 scalar *)
  np_sin : float -> float;
  np_cos : float -> float;
  (** [numpy.argsort] of a one-dimensional binary64 array *)
  np_argsort : list float -> list nat
}.

(** ** The file system and the GLB container codec *)

Abbreviation World := (gmap string (list byte)).

(** [f.read(n)] on the rest of an open file: the bytes read (fewer than [n]
    at the end of the file) and what is left. A negative [n] reads all. *)
Definition f_read (n : Z) (rest : list byte) : list byte * list byte :=
  if n <? 0 then (rest, []) else (take (Z.to_nat n) rest, drop (Z.to_nat n) rest).

Definition magic_glTF : Z := 0x46546C67.
Definition chunk_JSON : Z := 0x4E4F534A.
Definition chunk_BIN : Z := 0x004E4942.

Section Codec.
Context `{Platform}.

Definition read_glb (path : string) (w : World) : result (json * list byte) :=
  match w !! path with
  | None => Raise FileNotFoundError
  | Some contents =>
    let '(hdr, rest) := f_read 12 contents in
    '(magic, version, length) ← unpack_III hdr;
    if negb (magic =? magic_glTF) then Raise (ValueError "Not a valid GLB file") else
    let '(chdr, rest) := f_read 8 rest in
    '(chunk_len, chunk_type) ← unpack_II chdr;
    let '(text, rest) := f_read chunk_len rest in
    json_data ← json_loads text;
    let tell := 12 + 8 + len text in
    if tell <? length then
      let '(bhdr, rest) := f_read 8 rest in
      '(chunk_len, chunk_type) ← unpack_II bhdr;
      let '(bin_data, rest) := f_read chunk_len rest in
      Ok (json_data, bin_data)
    else Ok (json_data, [])
  end.

(** [write_glb] opens the file for writing (which creates or empties it)
    and then writes five pieces; a [struct.error] while packing a length
    leaves what was written before it. The file system here is a map from
    paths to contents, in which every path can be opened for writing. *)
Definition write_glb (path : string) (gltf : json) (bin_data : list byte)
    (w : World) : World * result unit :=
  let json_str := pad4 x20 (json_dumps gltf) in
  let bin_data := pad4 x00 bin_data in
  let total_length := 12 + 8 + len json_str + 8 + len bin_data in
  let w0 := <[path := []]> w in
  match (m ← pack_I magic_glTF; v ← pack_I 2; t ← pack_I total_length; Ok (m ++ v ++ t)) with
  | Raise e => (w0, Raise e)
  | Ok header =>
    match (l ← pack_I (len json_str); t ← pack_I chunk_JSON; Ok (l ++ t)) with
    | Raise e => (<[path := header]> w, Raise e)
    | Ok jhdr =>
      match (l ← pack_I (len bin_data); t ← pack_I chunk_BIN; Ok (l ++ t)) with
      | Raise e => (<[path := header ++ jhdr ++ json_str]> w, Raise e)
      | Ok bhdr =>
        (<[path := header ++ jhdr ++ json_str ++ bhdr ++ bin_data]> w, Ok tt)
      end
    end
  end.
End Codec.

(** ** Python's dynamic operations on the document tree *)

(** A dict keeps insertion order: assigning to a present key keeps its
    place, a new key goes last. *)
Fixpoint dict_get (k : string) (kvs : list (string * json)) : option json :=
  match kvs with
  | [] => None
  | (k', v) :: kvs' => if String.eqb k k' then Some v else dict_get k kvs'
  end.

Fixpoint dict_set (k : string) (v : json) (kvs : list (string * json))
    : list (string * json) :=
  match kvs with
  | [] => [(k, v)]
  | (k', v') :: kvs' =>
    if String.eqb k k' then (k, v) :: kvs' else (k', v') :: dict_set k v kvs'
  end.

(** Strings hold UTF-8; Python counts and indexes code points. *)
Definition is_cont (c : ascii) : bool :=
  let n := Z.of_nat (nat_of_ascii c) in (128 <=? n) && (n <? 192).

Fixpoint utf8_split (s : string) : string * list string :=
  match s with
  | EmptyString => (EmptyString, [])
  | String c s' =>
    let '(conts, chars) := utf8_split s' in
    if is_cont c then (String c conts, chars)
    else (EmptyString, String c conts :: chars)
  end.

Definition utf8_chars (s : string) : list string := snd (utf8_split s).

Fixpoint is_substring (a b : string) : bool :=
  String.prefix a b ||
  match b with
  | EmptyString => false
  | String _ b' => is_substring a b'
  end.

(** [l[i]] for a Python int [i]: negative indices count from the end. *)
Definition py_index {A} (l : list A) (i : Z) : result A :=
  let j := if i <? 0 then i + len l else i in
  if j <? 0 then Raise IndexError
  else match l !! Z.to_nat j with
       | Some x => Ok x
       | None => Raise IndexError
       end.

(** What Python accepts as a list or string index: an int or a bool. *)
Definition as_index (k : json) : option Z :=
  match k with
  | JInt i => Some i
  | JBool b => Some (if b then 1 else 0)
  | _ => None
  end.

(** [c[k]] *)
Definition py_getitem (c k : json) : result json :=
  match c with
  | JObj kvs =>
    match k with
    | JStr s => match dict_get s kvs with Some v => Ok v | None => Raise KeyError end
    | JArr _ | JObj _ => Raise TypeError
    | _ => Raise KeyError
    end
  | JArr l =>
    match as_index k with
    | Some i => py_index l i
    | None => Raise TypeError
    end
  | JStr s =>
    match as_index k with
    | Some i => JStr <$> py_index (utf8_chars s) i
    | None => Raise TypeError
    end
  | _ => Raise TypeError
  end.

(** [c[k] = v] *)
Definition py_setitem (c k v : json) : result json :=
  match c with
  | JObj kvs =>
    match k with
    | JStr s => Ok (JObj (dict_set s v kvs))
    | _ => Raise TypeError
    end
  | JArr l =>
    match as_index k with
    | Some i =>
      let j := if i <? 0 then i + len l else i in
      if (0 <=? j) && (j <? len l) then Ok (JArr (<[Z.to_nat j := v]> l))
      else Raise IndexError
    | None => Raise TypeError
    end
  | _ => Raise TypeError
  end.

(** The object reached from [c] by the subscripts [path] is replaced by
    what [f] makes of it: an in-place mutation of an object inside the
    document, seen from the root. *)
Fixpoint update_at (path : list json) (f : json -> result json) (c : json)
    : result json :=
  match path with
  | [] => f c
  | k :: path' =>
    v ← py_getitem c k;
    v' ← update_at path' f v;
    py_setitem c k v'
  end.

Fixpoint get_at (path : list json) (c : json) : result json :=
  match path with
  | [] => Ok c
  | k :: path' => v ← py_getitem c k; get_at path' v
  end.

(** [x.append(v)]: only lists have the method. *)
Definition py_append (v : json) (x : json) : result json :=
  match x with
  | JArr l => Ok (JArr (l ++ [v]))
  | _ => Raise AttributeError
  end.

(** [x.append(e)] where evaluating the argument [e] may raise: the method
    is looked up first. *)
Definition py_append_with (e : result json) (x : json) : result json :=
  match x with
  | JArr l => v ← e; Ok (JArr (l ++ [v]))
  | _ => Raise AttributeError
  end.

(** [d.get(k, default)]: only dicts have the method. *)
Definition py_get (d : json) (k : string) (dflt : json) : result json :=
  match d with
  | JObj kvs => Ok (default dflt (dict_get k kvs))
  | _ => Raise AttributeError
  end.

(** [len(x)] *)
Definition py_len (x : json) : result Z :=
  match x with
  | JArr l => Ok (len l)
  | JObj kvs => Ok (len kvs)
  | JStr s => Ok (len (utf8_chars s))
  | _ => Raise TypeError
  end.

(** The items a [for] loop over [x] visits. *)
Definition py_iter (x : json) : result (list json) :=
  match x with
  | JArr l => Ok l
  | JObj kvs => Ok (map (fun kv => JStr (fst kv)) kvs)
  | JStr s => Ok (map JStr (utf8_chars s))
  | _ => Raise TypeError
  end.

(** [s in x] for a string [s] *)
Definition contains_str (s : string) (x : json) : result bool :=
  match x with
  | JObj kvs => Ok (bool_decide (is_Some (dict_get s kvs)))
  | JArr l => Ok (existsb (fun v => match v with JStr s' => String.eqb s s' | _ => false end) l)
  | JStr t => Ok (is_substring s t)
  | _ => Raise TypeError
  end.

(** ** Python numbers *)

(** A Python number is an [int] (unbounded) or a [float] (binary64). *)
Inductive pynum : Type :=
| PyInt (n : Z)
| PyFloat (f : float).

(** The binary64 number nearest to [n * 2^e] (ties to even); an infinity
    when it is out of range. *)
Definition float_of_Z_scaled (n e : Z) : float :=
  SF2Prim (binary_normalize prec emax n e false).

Definition float_of_Z (n : Z) : float := float_of_Z_scaled n 0.

(** [float(a)]: an int too large for a float raises [OverflowError]. *)
Definition py_float (a : pynum) : result float :=
  match a with
  | PyFloat f => Ok f
  | PyInt n =>
    let f := float_of_Z n in
    if is_infinity f then Raise OverflowError else Ok f
  end.

(** [a op b] for [+], [-], [*]: ints stay ints, anything else is done on
    floats. *)
Definition py_arith (zop : Z -> Z -> Z) (fop : float -> float -> float)
    (a b : pynum) : result pynum :=
  match a, b with
  | PyInt x, PyInt y => Ok (PyInt (zop x y))
  | _, _ => x ← py_float a; y ← py_float b; Ok (PyFloat (fop x y))
  end.

Definition py_add := py_arith Z.add PrimFloat.add.
Definition py_sub := py_arith Z.sub PrimFloat.sub.
Definition py_mul := py_arith Z.mul PrimFloat.mul.

(** [a / 2]: true division, correctly rounded also for an int. *)
Definition py_half (a : pynum) : result float :=
  match a with
  | PyFloat f => Ok (f / 2)%float
  | PyInt n =>
    let f := float_of_Z_scaled n (-1) in
    if is_infinity f then Raise OverflowError else Ok f
  end.

(** [-a] *)
Definition py_neg (a : pynum) : pynum :=
  match a with
  | PyInt n => PyInt (- n)
  | PyFloat f => PyFloat (- f)%float
  end.

Definition json_of_num (a : pynum) : json :=
  match a with
  | PyInt n => JInt n
  | PyFloat f => JFloat f
  end.

(** Whether the float [f] is the integer [n] (Python compares the two
    exactly). *)
Definition float_is_Z (f : float) (n : Z) : bool :=
  match Prim2SF f with
  | S754_zero _ => n =? 0
  | S754_finite s m e =>
    let a := if s then Z.neg m else Z.pos m in
    if 0 <=? e then a * 2 ^ e =? n
    else (a mod 2 ^ (- e) =? 0) && (a / 2 ^ (- e) =? n)
  | _ => false
  end.

(** [n == v] for an int [n] *)
Definition py_eq_int (n : Z) (v : json) : bool :=
  match v with
  | JInt m => n =? m
  | JBool b => n =? (if b then 1 else 0)
  | JFloat f => float_is_Z f n
  | _ => false
  end.

(** [n in x] for an int [n] *)
Definition contains_int (n : Z) (x : json) : result bool :=
  match x with
  | JArr l => Ok (existsb (py_eq_int n) l)
  | JObj _ => Ok false
  | _ => Raise TypeError
  end.

(** ** 32-bit floats *)

Definition prec32 : Z := 24.
Definition emax32 : Z := 128.

(** The binary32 number nearest to a double (ties to even), as C's
    [(float)x] gives it: out of range becomes an infinity. *)
Definition to_f32 (x : float) : spec_float :=
  match Prim2SF x with
  | S754_finite s m e => binary_round prec32 emax32 s m e
  | sf => sf
  end.

(** A binary32 number as a double: exact, since 24 bits fit in 53. *)
Definition of_f32 (y : spec_float) : float :=
  match y with
  | S754_finite s m e => SF2Prim (binary_round prec emax s m e)
  | _ => SF2Prim y
  end.

Definition sign_bit (s : bool) : Z := if s then 2 ^ 31 else 0.

(** The IEEE-754 binary32 encoding. All NaNs are one value here, encoded
    as the quiet NaN [0x7fc00000]. *)
Definition f32_bits (y : spec_float) : Z :=
  match y with
  | S754_zero s => sign_bit s
  | S754_infinity s => sign_bit s + 0x7f800000
  | S754_nan => 0x7fc00000
  | S754_finite s m e =>
    if Z.pos (digits2_pos m) =? prec32
    then sign_bit s + (e + 150) * 2 ^ 23 + (Z.pos m - 2 ^ 23)
    else sign_bit s + Z.pos m
  end.

Definition f32_of_bits (b : Z) : spec_float :=
  let s := Z.testbit b 31 in
  let ex := Z.land (Z.shiftr b 23) 255 in
  let fr := Z.land b (2 ^ 23 - 1) in
  if ex =? 255 then (if fr =? 0 then S754_infinity s else S754_nan)
  else if ex =? 0 then
    match fr with
    | Z.pos m => S754_finite s m (-149)
    | _ => S754_zero s
    end
  else
    match 2 ^ 23 + fr with
    | Z.pos m => S754_finite s m (ex - 150)
    | _ => S754_nan
    end.

(** Whether [struct.pack('f', x)] raises: the double is finite and its
    nearest binary32 is not. *)
Definition f32_overflow (x : float) : bool :=
  match Prim2SF x, to_f32 x with
  | S754_finite _ _ _, S754_infinity _ => true
  | _, _ => false
  end.

(** The four bytes [struct.pack('<f', x)] gives when it does not raise. *)
Definition f32_bytes (x : float) : list byte := le_bytes 4 (f32_bits (to_f32 x)).

(** ** [struct.pack] and [struct.unpack] of homogeneous arrays *)

(** [struct.pack('<f', a)]: a float beyond the binary32 range raises
    [OverflowError]; for an int argument [struct.pack] replaces that error
    by [struct.error], which is also what an int too large for a double
    gives. *)
Definition pack_f (a : pynum) : result (list byte) :=
  match a with
  | PyFloat x => if f32_overflow x then Raise OverflowError else Ok (f32_bytes x)
  | PyInt n =>
    let x := float_of_Z n in
    if is_infinity x || f32_overflow x then Raise StructError else Ok (f32_bytes x)
  end.

(** An unsigned integer format of [n] bytes takes ints in range only. *)
Definition pack_uint (n : nat) (a : pynum) : result (list byte) :=
  match a with
  | PyInt v =>
    if (0 <=? v) && (v <? 2 ^ (8 * Z.of_nat n)) then Ok (le_bytes n v)
    else Raise StructError
  | PyFloat _ => Raise StructError
  end.

Definition pack_array (pack1 : pynum -> result (list byte)) (data : list pynum)
    : result (list byte) :=
  @concat byte <$> traverse pack1 data.

(** Two's complement reading of a [w]-bit unsigned value. *)
Definition signed (w : Z) (v : Z) : Z := if v <? 2 ^ (w - 1) then v else v - 2 ^ w.

(** The format characters of [get_accessor_data]'s table. *)
Definition calcsize (dtype : string) : Z :=
  if String.eqb dtype "b" then 1 else if String.eqb dtype "B" then 1
  else if String.eqb dtype "h" then 2 else if String.eqb dtype "H" then 2
  else 4.

Definition unpack1 (dtype : string) (bs : list byte) : pynum :=
  let v := le_value bs in
  if String.eqb dtype "b" then PyInt (signed 8 v)
  else if String.eqb dtype "B" then PyInt v
  else if String.eqb dtype "h" then PyInt (signed 16 v)
  else if String.eqb dtype "H" then PyInt v
  else if String.eqb dtype "I" then PyInt v
  else PyFloat (of_f32 (f32_of_bits v)).

(** [l] cut into pieces of [n] items ([n > 0]); [fuel] bounds the number
    of pieces. *)
Fixpoint chunks {A} (fuel : nat) (n : nat) (l : list A) : list (list A) :=
  match fuel, l with
  | _, [] => []
  | O, _ => []
  | S fuel', _ => take n l :: chunks fuel' n (drop n l)
  end.

(** [struct.unpack(f'<{total}{dtype}', buf)] *)
Definition unpack_array (total : Z) (dtype : string) (buf : list byte)
    : result (list pynum) :=
  if total <? 0 then Raise StructError
  else if negb (len buf =? calcsize dtype * total) then Raise StructError
  else Ok (map (unpack1 dtype) (chunks (length buf) (Z.to_nat (calcsize dtype)) buf)).

(** [b[lo:hi]] *)
Definition py_slice {A} (l : list A) (lo hi : Z) : list A :=
  let clip i := if i <? 0 then Z.max (i + len l) 0 else Z.min i (len l) in
  let lo' := clip lo in
  let hi' := clip hi in
  take (Z.to_nat (hi' - lo')) (drop (Z.to_nat lo') l).

(** ** AccessorView: [get_accessor_data] and [add_to_buffer] *)

(** What [get_accessor_data] returns: a flat list for scalars, one tuple
    per element otherwise. *)
Inductive accessor_data : Type :=
| Flat (l : list pynum)
| Tuples (l : list (list pynum)).

(** [component_types[k]]: the dict has int keys; a float equal to a key
    finds it, a list or dict is unhashable. *)
Definition component_types (k : json) : result string :=
  let table := [(5120, "b"); (5121, "B"); (5122, "h"); (5123, "H");
                (5125, "I"); (5126, "f")]%string in
  match k with
  | JArr _ | JObj _ => Raise TypeError
  | _ =>
    match find (fun e => py_eq_int (fst e) k) table with
    | Some e => Ok (snd e)
    | None => Raise KeyError
    end
  end.

(** [type_counts[k]] *)
Definition type_counts (k : json) : result Z :=
  let table := [("SCALAR", 1); ("VEC2", 2); ("VEC3", 3); ("VEC4", 4);
                ("MAT4", 16)]%string in
  match k with
  | JArr _ | JObj _ => Raise TypeError
  | JStr s =>
    match find (fun e => String.eqb (fst e) s) table with
    | Some e => Ok (snd e)
    | None => Raise KeyError
    end
  | _ => Raise KeyError
  end.

(** The result of an arithmetic expression that is used as a slice bound
    later: [Some n] for an int, [None] for a value (a float, a string, a
    list) that raises [TypeError] only once it is used as a bound. *)
Definition py_plus (a b : json) : result (option Z) :=
  match a, b with
  | (JInt _ | JBool _ | JFloat _), (JInt _ | JBool _ | JFloat _) =>
    Ok (x ← as_index a; y ← as_index b; Some (x + y))
  | JStr _, JStr _ | JArr _, JArr _ => Ok None
  | _, _ => Raise TypeError
  end.

Definition py_times (a : json) (n : Z) : result (option Z) :=
  match a with
  | JInt _ | JBool _ => Ok (x ← as_index a; Some (x * n))
  | JFloat _ | JStr _ | JArr _ => Ok None
  | JNull | JObj _ => Raise TypeError
  end.

Definition get_accessor_data (gltf : json) (bin_data : list byte)
    (accessor_idx : json) : result accessor_data :=
  accessors ← py_getitem gltf (JStr "accessors");
  accessor ← py_getitem accessors accessor_idx;
  buffer_views ← py_getitem gltf (JStr "bufferViews");
  bv_idx ← py_getitem accessor (JStr "bufferView");
  buffer_view ← py_getitem buffer_views bv_idx;
  o1 ← py_get buffer_view "byteOffset" (JInt 0);
  o2 ← py_get accessor "byteOffset" (JInt 0);
  offset ← py_plus o1 o2;
  ct ← py_getitem accessor (JStr "componentType");
  dtype ← component_types ct;
  ty ← py_getitem accessor (JStr "type");
  count ← type_counts ty;
  n ← py_getitem accessor (JStr "count");
  total ← py_times n count;
  match offset, total with
  | Some offset, Some total =>
    let size := calcsize dtype * total in
    data ← unpack_array total dtype (py_slice bin_data offset (offset + size));
    if count =? 1 then Ok (Flat data)
    else Ok (Tuples (chunks (length data) (Z.to_nat count) data))
  | _, _ => Raise TypeError
  end.

(** The second argument of [add_to_buffer]: a list of numbers, or bytes. *)
Inductive pydata : Type :=
| Nums (l : list pynum)
| Bytes (b : list byte).

(** [add_to_buffer] grows the caller's bytearray in place; here the grown
    buffer is returned with the offset and the byte length. *)
Definition add_to_buffer (bin_data : list byte) (data : pydata) (dtype : string)
    : result (list byte * (Z * Z)) :=
  let bin_data := pad4 x00 bin_data in
  let offset := len bin_data in
  let args := match data with
              | Nums l => l
              | Bytes b => map (fun x => PyInt (Z_of_byte x)) b
              end in
  packed ←
    (if String.eqb dtype "f" then pack_array pack_f args
     else if String.eqb dtype "H" then pack_array (pack_uint 2) args
     else if String.eqb dtype "B" then pack_array (pack_uint 1) args
     else match data with
          | Bytes b => Ok b
          | Nums _ => Raise TypeError
          end);
  Ok (bin_data ++ packed, (offset, len packed)).

(** ** SkeletonBuilder: [create_humanoid_skeleton] *)

(** A bone is the tuple [(name, position, parent_index)]. *)
Record Bone : Type := mkBone {
  bone_name : string;
  bone_pos : list pynum;
  bone_parent : Z
}.

Definition create_humanoid_skeleton (mesh_bounds : list pynum * list pynum)
    : result (list Bone) :=
  let '(min_pt, max_pt) := mesh_bounds in
  max0 ← py_index max_pt 0; min0 ← py_index min_pt 0;
  width ← py_sub max0 min0;
  max1 ← py_index max_pt 1; min1 ← py_index min_pt 1;
  height ← py_sub max1 min1;
  max2 ← py_index max_pt 2; min2 ← py_index min_pt 2;
  depth ← py_sub max2 min2;
  center_x ← (s ← py_add min0 max0; PyFloat <$> py_half s);
  center_z ← (s ← py_add min2 max2; PyFloat <$> py_half s);
  (* [min_pt[1] + height * k], [center_x + width * k], [center_x - width * k] *)
  let up k := (h ← py_mul height (PyFloat k); py_add min1 h) in
  let plus k := (d ← py_mul width (PyFloat k); py_add center_x d) in
  let minus k := (d ← py_mul width (PyFloat k); py_sub center_x d) in
  let bone name (x y : result pynum) parent :=
    (x ← x; y ← y; Ok (mkBone name [x; y; center_z] parent)) in
  traverse id
    [ bone "Root" (Ok center_x) (Ok min1) (-1);
      bone "Hips" (Ok center_x) (up 0.45%float) 0;
      bone "Spine" (Ok center_x) (up 0.55%float) 1;
      bone "Chest" (Ok center_x) (up 0.65%float) 2;
      bone "Neck" (Ok center_x) (up 0.80%float) 3;
      bone "Head" (Ok center_x) (up 0.90%float) 4;
      (* left arm *)
      bone "LeftShoulder" (plus 0.25%float) (up 0.75%float) 3;
      bone "LeftArm" (plus 0.35%float) (up 0.65%float) 6;
      bone "LeftForearm" (plus 0.40%float) (up 0.50%float) 7;
      bone "LeftHand" (plus 0.45%float) (up 0.35%float) 8;
      (* right arm *)
      bone "RightShoulder" (minus 0.25%float) (up 0.75%float) 3;
      bone "RightArm" (minus 0.35%float) (up 0.65%float) 10;
      bone "RightForearm" (minus 0.40%float) (up 0.50%float) 11;
      bone "RightHand" (minus 0.45%float) (up 0.35%float) 12;
      (* left leg *)
      bone "LeftUpLeg" (plus 0.12%float) (up 0.45%float) 1;
      bone "LeftLeg" (plus 0.12%float) (up 0.25%float) 14;
      bone "LeftFoot" (plus 0.12%float) (up 0.05%float) 15;
      (* right leg *)
      bone "RightUpLeg" (minus 0.12%float) (up 0.45%float) 1;
      bone "RightLeg" (minus 0.12%float) (up 0.25%float) 17;
      bone "RightFoot" (minus 0.12%float) (up 0.05%float) 18 ].

(** ** SkinWeightSolver: [compute_skin_weights] *)

(** Assigning a one-dimensional array to a row of width [k]: same length,
    or a single item repeated. *)
Definition assign_row {A} (k : Z) (src : list A) : result (list A) :=
  if len src =? k then Ok src
  else match src with
       | [x] => Ok (replicate (Z.to_nat k) x)
       | _ => Raise (ValueError "could not broadcast input array")
       end.

Local Open Scope float_scope.

(** [numpy.linalg.norm(a, axis=1)] on one row: the square root of
    [add.reduce] of the squares, which starts from the identity [0] and adds
    the items in order (as numpy does for fewer than eight items; the rows
    here have three, and the selected weights are four). *)
Definition np_sum (l : list float) : float := fold_left PrimFloat.add l 0.

Definition np_norm (row : list float) : float :=
  PrimFloat.sqrt (np_sum (map (fun x => x * x) row)).

(** [distances = norm(bone_positions - pos, axis=1)] *)
Definition distances (bone_positions : list (list float)) (pos : list float)
    : list float :=
  map (fun b => np_norm (zip_with PrimFloat.sub b pos)) bone_positions.

(** [inv_dist = 1.0 / (distances + 0.001)] *)
Definition inv_dist (bone_positions : list (list float)) (pos : list float)
    : list float :=
  map (fun d => 1 / (d + 0.001)) (distances bone_positions pos).

(** [top_weights /= total], done only [if total > 0]. *)
Definition normalize (top_weights : list float) : list float :=
  let total := np_sum top_weights in
  if 0 <? total then map (fun w => w / total) top_weights else top_weights.

Section SkinWeights.
Context `{Platform}.

(** One turn of the loop: the row of [joints] and the row of [weights]
    for the vertex [pos], as [tolist()] gives them back (the joints cast
    to uint8, the weights to binary32). An array of three coordinates is
    subtracted from each bone; an array of one is broadcast. *)
Definition skin_row (bone_positions : list (list float)) (max_influences : Z)
    (pos : list pynum) : result (list Z * list float) :=
  pos ← traverse py_float pos;
  pos ← match pos, bone_positions with
        | [x; y; z], _ :: _ => Ok pos
        | [x], _ :: _ => Ok [x; x; x]
        | _, _ => Raise (ValueError "operands could not be broadcast together")
        end;
  let inv := inv_dist bone_positions pos in
  let order := np_argsort inv in
  let top_indices := rev (py_slice order (- max_influences) (len order)) in
  top_weights ← traverse (fun i => match inv !! i with
                                   | Some w => Ok w
                                   | None => Raise IndexError
                                   end) top_indices;
  let top_weights := normalize top_weights in
  js ← assign_row max_influences (map (fun i => Z.of_nat i mod 256)%Z top_indices);
  ws ← assign_row max_influences (map (fun w => of_f32 (to_f32 w)) top_weights);
  Ok (js, ws).

(** Bones are expected with three coordinates each, as the skeleton
    builder makes them; for other shapes numpy raises or broadcasts, which
    is taken as an error here. Ints beyond the range of a double raise. *)
Definition compute_skin_weights (positions : list (list pynum))
    (bones : list Bone) (max_influences : Z)
    : result (list Z * list float) :=
  if (max_influences <? 0)%Z then Raise (ValueError "negative dimensions are not allowed") else
  bone_positions ← traverse (fun b => traverse py_float (bone_pos b)) bones;
  if negb (forallb (fun p => (len p =? 3)%Z) bone_positions)
  then Raise (ValueError "inhomogeneous shape") else
  rows ← traverse (skin_row bone_positions max_influences) positions;
  Ok (concat (map fst rows), concat (map snd rows)).
End SkinWeights.

(** ** AnimationSynthesizer: [create_animations] *)

(** A channel is the tuple [(bone_index, path, times, values)]. *)
Record Channel : Type := mkChannel {
  ch_bone : Z;
  ch_path : string;
  ch_times : list float;
  ch_values : list pynum
}.

(** [int(x)] for a float: truncation toward zero. *)
Definition py_int (x : float) : result Z :=
  match Prim2SF x with
  | S754_zero _ => Ok 0%Z
  | S754_finite s m e =>
    let a := if (0 <=? e)%Z then (Z.pos m * 2 ^ e)%Z else (Z.pos m / 2 ^ (- e))%Z in
    Ok (if s then (- a)%Z else a)
  | S754_infinity _ => Raise OverflowError
  | S754_nan => Raise (ValueError "cannot convert float NaN to integer")
  end.

(** [i / fps] for two small ints: both are exact doubles, and so the
    quotient is the correctly rounded one. *)
Definition int_truediv (a b : Z) : float := float_of_Z a / float_of_Z b.

Definition np_pi : float := 0x1.921fb54442d18p+1.

Section Animations.
Context `{Platform}.

Definition fps : Z := 30.

(** [[i / fps for i in range(frames + 1)]] with [frames = int(duration * fps)] *)
Definition frame_times (duration : float) : result (list float) :=
  frames ← py_int (duration * float_of_Z fps);
  Ok (map (fun i => int_truediv i fps) (seqZ 0 (frames + 1))).

(** The callers pass floats or the int [0]; [0 / 2] is the float [0.0]
    either way. *)
Definition quat_from_euler (rx ry rz : float) : list float :=
  let cx := np_cos (rx / 2) in let sx := np_sin (rx / 2) in
  let cy := np_cos (ry / 2) in let sy := np_sin (ry / 2) in
  let cz := np_cos (rz / 2) in let sz := np_sin (rz / 2) in
  [ sx * cy * cz - cx * sy * sz;
    cx * sy * cz + sx * cy * sz;
    cx * cy * sz - sx * sy * cz;
    cx * cy * cz + sx * sy * sz ].

Definition floats (l : list float) : list pynum := map PyFloat l.

(** The three-phase angle of the attack clip, scaled by [amp] ([1.5] for
    the arm, [0.5] for the forearm, [0.3] for the chest). *)
Definition attack_angle (amp sweep : float) (progress : float) : float :=
  if progress <? 0.3 then - progress / 0.3 * amp
  else if progress <? 0.5 then
    let swing_progress := (progress - 0.3) / 0.2 in
    - amp + swing_progress * sweep
  else
    let return_progress := (progress - 0.5) / 0.5 in
    amp * (1 - return_progress).

Definition create_animations (bones : list Bone) (mesh_height : pynum)
    : result (list (string * list Channel)) :=
  let idle_duration := 2.0 in
  idle_times ← frame_times idle_duration;
  let walk_duration := 1.0 in
  walk_times ← frame_times walk_duration;
  let attack_duration := 0.5 in
  attack_times ← frame_times attack_duration;
  let HIPS := 1%Z in let SPINE := 2%Z in let CHEST := 3%Z in
  let LEFT_ARM := 7%Z in let RIGHT_ARM := 11%Z in let RIGHT_FOREARM := 12%Z in
  let LEFT_UPLEG := 14%Z in let RIGHT_UPLEG := 17%Z in
  (* idle *)
  let spine_rotations :=
    flat_map (fun t => quat_from_euler (np_sin (t * np_pi) * 0.02) 0 0) idle_times in
  let idle_channels := [mkChannel SPINE "rotation" idle_times (floats spine_rotations)] in
  (* walk *)
  hips ← py_index bones HIPS;
  base_hip_y ← py_index (bone_pos hips) 1;
  let phase t := t / walk_duration * 2 * np_pi in
  hip_translations ← @concat pynum <$> traverse (fun t =>
      h ← py_float mesh_height;
      let y_offset := abs (np_sin (phase t * 2)) * 0.02 * h in
      Ok [PyInt 0; PyFloat y_offset; PyInt 0]) walk_times;
  let left_leg_rotations :=
    flat_map (fun t => quat_from_euler (np_sin (phase t) * 0.5) 0 0) walk_times in
  let right_leg_rotations :=
    flat_map (fun t => quat_from_euler (np_sin (phase t + np_pi) * 0.5) 0 0) walk_times in
  let left_arm_rotations :=
    flat_map (fun t => quat_from_euler (np_sin (phase t + np_pi) * 0.3) 0 0) walk_times in
  let right_arm_rotations :=
    flat_map (fun t => quat_from_euler (np_sin (phase t) * 0.3) 0 0) walk_times in
  let walk_channels :=
    [ mkChannel HIPS "translation" walk_times hip_translations;
      mkChannel LEFT_UPLEG "rotation" walk_times (floats left_leg_rotations);
      mkChannel RIGHT_UPLEG "rotation" walk_times (floats right_leg_rotations);
      mkChannel LEFT_ARM "rotation" walk_times (floats left_arm_rotations);
      mkChannel RIGHT_ARM "rotation" walk_times (floats right_arm_rotations) ] in
  (* attack *)
  let right_arm_attack :=
    flat_map (fun t => quat_from_euler (attack_angle 1.5 3.0 (t / attack_duration)) 0 0)
             attack_times in
  let right_forearm_attack :=
    flat_map (fun t => quat_from_euler (attack_angle 0.5 1.0 (t / attack_duration)) 0 0)
             attack_times in
  let chest_attack :=
    flat_map (fun t => quat_from_euler 0 (attack_angle 0.3 0.6 (t / attack_duration)) 0)
             attack_times in
  let attack_channels :=
    [ mkChannel RIGHT_ARM "rotation" attack_times (floats right_arm_attack);
      mkChannel RIGHT_FOREARM "rotation" attack_times (floats right_forearm_attack);
      mkChannel CHEST "rotation" attack_times (floats chest_attack) ] in
  Ok [ ("Idle"%string, idle_channels);
       ("Walk"%string, walk_channels);
       ("Attack"%string, attack_channels) ].
End Animations.

Local Close Scope float_scope.

(** ** AssetMutator: [add_skeleton_to_glb] *)

(** [numpy.minimum] and [numpy.maximum] on two doubles: a NaN on the left
    wins, and so does one on the right (no comparison with it holds). Of
    two items that compare equal the right one is returned, as the
    vectorised loops do; this is seen for zeros of opposite sign only: the
    minimum of [0.0] and [-0.0], in this order, is [-0.0]. *)
Definition np_minimum (a b : float) : float :=
  if PrimFloat.ltb a b || is_nan a then a else b.
Definition np_maximum (a b : float) : float :=
  if PrimFloat.ltb b a || is_nan a then a else b.

(** The same on array items: an int array stays int. *)
Definition num_min (a b : pynum) : pynum :=
  match a, b with
  | PyInt x, PyInt y => PyInt (Z.min x y)
  | PyFloat x, PyFloat y => PyFloat (np_minimum x y)
  | PyInt x, PyFloat y => PyFloat (np_minimum (float_of_Z x) y)
  | PyFloat x, PyInt y => PyFloat (np_minimum x (float_of_Z y))
  end.
Definition num_max (a b : pynum) : pynum :=
  match a, b with
  | PyInt x, PyInt y => PyInt (Z.max x y)
  | PyFloat x, PyFloat y => PyFloat (np_maximum x y)
  | PyInt x, PyFloat y => PyFloat (np_maximum (float_of_Z x) y)
  | PyFloat x, PyInt y => PyFloat (np_maximum x (float_of_Z y))
  end.

(** [np.array(positions).min(axis=0).tolist()] and the same with [max]:
    the reduction starts from the first row. An empty array has no minimum;
    a one-dimensional array gives a scalar, which the caller then fails to
    subscript. *)
Definition bounds (positions : accessor_data)
    : result (list pynum * list pynum) :=
  match positions with
  | Flat [] | Tuples [] =>
    Raise (ValueError "zero-size array to reduction operation minimum which has no identity")
  | Flat (_ :: _) => Raise TypeError
  | Tuples (row :: rows) =>
    Ok (fold_left (zip_with num_min) rows row, fold_left (zip_with num_max) rows row)
  end.

Definition tuples_of (positions : accessor_data) : list (list pynum) :=
  match positions with
  | Flat l => map (fun x => [x]) l
  | Tuples l => l
  end.

Definition count_of (positions : accessor_data) : Z :=
  match positions with
  | Flat l => len l
  | Tuples l => len l
  end.

(** The loop that looks for the first node with a ['mesh'] entry. *)
Fixpoint find_mesh_node (i : Z) (nodes : list json) : result (option Z) :=
  match nodes with
  | [] => Ok None
  | node :: nodes' =>
    c ← contains_str "mesh" node;
    if (c : bool) then Ok (Some i) else find_mesh_node (i + 1) nodes'
  end.

(** [idx = len(gltf[key]); gltf[key].append(obj)] *)
Definition push (key : string) (obj : json) (gltf : json) : result (json * Z) :=
  arr ← py_getitem gltf (JStr key);
  idx ← py_len arr;
  gltf ← update_at [JStr key] (py_append obj) gltf;
  Ok (gltf, idx).

(** [if key not in d: d[key] = []] *)
Definition ensure_list (key : string) (d : json) : result json :=
  c ← contains_str key d;
  if (c : bool) then Ok d else py_setitem d (JStr key) (JArr []).

(** [min(l)] and [max(l)], Python's built-ins: the first item is kept
    until a later one compares strictly below (above) it. *)
Definition py_min (l : list float) : result float :=
  match l with
  | [] => Raise (ValueError "min() arg is an empty sequence")
  | x :: l' => Ok (fold_left (fun m y => if PrimFloat.ltb y m then y else m) l' x)
  end.
Definition py_max (l : list float) : result float :=
  match l with
  | [] => Raise (ValueError "max() arg is an empty sequence")
  | x :: l' => Ok (fold_left (fun m y => if PrimFloat.ltb m y then y else m) l' x)
  end.

Definition obj_buffer_view (offset size : Z) (stride : option Z) : json :=
  JObj ([("buffer", JInt 0); ("byteOffset", JInt offset);
         ("byteLength", JInt size)]%string
        ++ match stride with
           | Some s => [("byteStride"%string, JInt s)]
           | None => []
           end).

Definition obj_accessor (buffer_view component_type count : Z) (type : string) : json :=
  JObj [("bufferView", JInt buffer_view); ("componentType", JInt component_type);
        ("count", JInt count); ("type", JStr type)]%string.

(** The accessor of a channel's time array, with its declared bounds. *)
Definition obj_times_accessor (buffer_view : Z) (times : list float) : result json :=
  lo ← py_min times;
  hi ← py_max times;
  Ok (JObj [("bufferView", JInt buffer_view); ("componentType", JInt 5126);
            ("count", JInt (len times)); ("type", JStr "SCALAR");
            ("min", JArr [JFloat lo]); ("max", JArr [JFloat hi])]%string).

(** The joint node of a bone. *)
Definition obj_joint_node (b : Bone) : json :=
  JObj [("name", JStr (bone_name b));
        ("translation", JArr (map json_of_num (bone_pos b)));
        ("rotation", JArr [JInt 0; JInt 0; JInt 0; JInt 1]);
        ("scale", JArr [JInt 1; JInt 1; JInt 1])]%string.

(** The translation-only inverse bind matrix of a bone, column-major. *)
Definition inverse_bind_matrix (b : Bone) : result (list pynum) :=
  let pos := bone_pos b in
  x ← py_index pos 0; y ← py_index pos 1; z ← py_index pos 2;
  Ok [PyInt 1; PyInt 0; PyInt 0; PyInt 0;
      PyInt 0; PyInt 1; PyInt 0; PyInt 0;
      PyInt 0; PyInt 0; PyInt 1; PyInt 0;
      py_neg x; py_neg y; py_neg z; PyInt 1].

(** One turn of the parent-child loop, for the bone of index [i]. *)
Definition link_child (joint_node_indices : list Z) (gltf : json) (ib : Z * Bone)
    : result json :=
  let '(i, b) := ib in
  if 0 <=? bone_parent b then
    p ← py_index joint_node_indices (bone_parent b);
    c ← py_index joint_node_indices i;
    update_at [JStr "nodes"; JInt p]
      (fun parent_node =>
         parent_node ← ensure_list "children" parent_node;
         update_at [JStr "children"] (py_append (JInt c)) parent_node)
      gltf
  else Ok gltf.

(** The state of the inner loop over the channels of one clip. *)
Record ClipState : Type := mkClipState {
  cs_gltf : json;
  cs_bin : list byte;
  cs_samplers : list json;
  cs_channels : list json
}.

Definition add_channel (joint_node_indices : list Z) (st : ClipState) (ch : Channel)
    : result ClipState :=
  let '(mkClipState gltf bin_data samplers anim_channels) := st in
  '(bin_data, (times_offset, times_size)) ←
    add_to_buffer bin_data (Nums (map PyFloat (ch_times ch))) "f";
  '(gltf, times_bv_idx) ← push "bufferViews" (obj_buffer_view times_offset times_size None) gltf;
  accessors ← py_getitem gltf (JStr "accessors");
  times_acc_idx ← py_len accessors;
  gltf ← update_at [JStr "accessors"]
           (py_append_with (obj_times_accessor times_bv_idx (ch_times ch))) gltf;
  '(bin_data, (values_offset, values_size)) ←
    add_to_buffer bin_data (Nums (ch_values ch)) "f";
  '(gltf, values_bv_idx) ← push "bufferViews" (obj_buffer_view values_offset values_size None) gltf;
  let vec_type := if String.eqb (ch_path ch) "rotation" then "VEC4"%string else "VEC3"%string in
  '(gltf, values_acc_idx) ←
    push "accessors" (obj_accessor values_bv_idx 5126 (len (ch_times ch)) vec_type) gltf;
  let sampler_idx := len samplers in
  let samplers := samplers ++
    [JObj [("input", JInt times_acc_idx); ("output", JInt values_acc_idx);
           ("interpolation", JStr "LINEAR")]%string] in
  node ← py_index joint_node_indices (ch_bone ch);
  let anim_channels := anim_channels ++
    [JObj [("sampler", JInt sampler_idx);
           ("target", JObj [("node", JInt node); ("path", JStr (ch_path ch))])]%string] in
  Ok (mkClipState gltf bin_data samplers anim_channels).

Definition add_animation (joint_node_indices : list Z) (st : json * list byte)
    (anim : string * list Channel) : result (json * list byte) :=
  let '(gltf, bin_data) := st in
  let '(anim_name, channels) := anim in
  st ← foldM (add_channel joint_node_indices) channels (mkClipState gltf bin_data [] []);
  gltf ← update_at [JStr "animations"]
           (py_append (JObj [("name", JStr anim_name);
                             ("samplers", JArr (cs_samplers st));
                             ("channels", JArr (cs_channels st))]%string))
           (cs_gltf st);
  Ok (gltf, cs_bin st).

(** [if 'scenes' in gltf and len(gltf['scenes']) > 0: ...] *)
Definition add_root_to_scene (root_skeleton_node : Z) (gltf : json) : result json :=
  has ← contains_str "scenes" gltf;
  if negb has then Ok gltf else
  scenes ← py_getitem gltf (JStr "scenes");
  n ← py_len scenes;
  if negb (0 <? n) then Ok gltf else
  gltf ← update_at [JStr "scenes"; JInt 0] (ensure_list "nodes") gltf;
  nodes ← get_at [JStr "scenes"; JInt 0; JStr "nodes"] gltf;
  present ← contains_int root_skeleton_node nodes;
  if (present : bool) then Ok gltf
  else update_at [JStr "scenes"; JInt 0; JStr "nodes"]
         (py_append (JInt root_skeleton_node)) gltf.

(** Locate-Mesh: the index of the first node with a mesh. *)
Definition locate_mesh (gltf : json) : result Z :=
  nodes ← py_getitem gltf (JStr "nodes");
  items ← py_iter nodes;
  found ← find_mesh_node 0 items;
  match found with
  | None => Raise (ValueError "No mesh found in model")
  | Some mesh_node_idx => Ok mesh_node_idx
  end.

(** Extract-Positions: the subscripts that lead to the mesh's first
    primitive, and the vertex positions. *)
Definition extract_positions (gltf : json) (bin_data : list byte) (mesh_node_idx : Z)
    : result (list json * accessor_data) :=
  nodes ← py_getitem gltf (JStr "nodes");
  node ← py_getitem nodes (JInt mesh_node_idx);
  mesh_idx ← py_getitem node (JStr "mesh");
  let primitive := [JStr "meshes"; mesh_idx; JStr "primitives"; JInt 0] in
  attributes ← get_at (primitive ++ [JStr "attributes"]) gltf;
  pos_accessor_idx ← py_getitem attributes (JStr "POSITION");
  positions ← get_accessor_data gltf bin_data pos_accessor_idx;
  Ok (primitive, positions).

(** The part of [add_skeleton_to_glb] that modifies the glTF structure and
    grows the payload, from "Now modify the glTF structure" to "Add root
    skeleton node to scene". The script mutates the document and the
    bytearray in place; here both are threaded through. *)
Definition attach (gltf : json) (bin_data : list byte) (mesh_node_idx : Z)
    (primitive : list json) (num_positions : Z) (bones : list Bone)
    (joints_data : list Z) (weights_data : list float)
    (animations : list (string * list Channel)) : result (json * list byte) :=
  base_accessor_idx ← (a ← py_getitem gltf (JStr "accessors"); py_len a);
  base_buffer_view_idx ← (a ← py_getitem gltf (JStr "bufferViews"); py_len a);
  base_node_idx ← (a ← py_getitem gltf (JStr "nodes"); py_len a);
  (* Add joint nodes *)
  gltf ← foldM (fun g b => update_at [JStr "nodes"] (py_append (obj_joint_node b)) g)
               bones gltf;
  let joint_node_indices := map (fun i => base_node_idx + i) (seqZ 0 (len bones)) in
  (* Set up parent-child relationships *)
  gltf ← foldM (link_child joint_node_indices) (zip (seqZ 0 (len bones)) bones) gltf;
  (* Compute inverse bind matrices, add them to the buffer *)
  inverse_bind_matrices ← @concat pynum <$> traverse inverse_bind_matrix bones;
  '(bin_data, (ibm_offset, ibm_size)) ←
    add_to_buffer bin_data (Nums inverse_bind_matrices) "f";
  '(gltf, ibm_buffer_view_idx) ←
    push "bufferViews" (obj_buffer_view ibm_offset ibm_size None) gltf;
  '(gltf, ibm_accessor_idx) ←
    push "accessors" (obj_accessor ibm_buffer_view_idx 5126 (len bones) "MAT4") gltf;
  (* Add skin *)
  skin_idx ← (s ← py_get gltf "skins" (JArr []); py_len s);
  gltf ← ensure_list "skins" gltf;
  gltf ← update_at [JStr "skins"]
           (py_append_with
              (root ← py_index joint_node_indices 0;
               Ok (JObj [("inverseBindMatrices", JInt ibm_accessor_idx);
                         ("joints", JArr (map JInt joint_node_indices));
                         ("skeleton", JInt root);
                         ("name", JStr "Armature")]%string)))
           gltf;
  (* Add skin to mesh node *)
  gltf ← update_at [JStr "nodes"; JInt mesh_node_idx]
           (fun n => py_setitem n (JStr "skin") (JInt skin_idx)) gltf;
  (* Add JOINTS_0 attribute to mesh *)
  '(bin_data, (joints_offset, joints_size)) ←
    add_to_buffer bin_data (Nums (map PyInt joints_data)) "B";
  '(gltf, joints_bv_idx) ←
    push "bufferViews" (obj_buffer_view joints_offset joints_size (Some 4)) gltf;
  '(gltf, joints_acc_idx) ←
    push "accessors" (obj_accessor joints_bv_idx 5121 num_positions "VEC4") gltf;
  gltf ← update_at (primitive ++ [JStr "attributes"])
           (fun a => py_setitem a (JStr "JOINTS_0") (JInt joints_acc_idx)) gltf;
  (* Add WEIGHTS_0 attribute to mesh *)
  '(bin_data, (weights_offset, weights_size)) ←
    add_to_buffer bin_data (Nums (map PyFloat weights_data)) "f";
  '(gltf, weights_bv_idx) ←
    push "bufferViews" (obj_buffer_view weights_offset weights_size (Some 16)) gltf;
  '(gltf, weights_acc_idx) ←
    push "accessors" (obj_accessor weights_bv_idx 5126 num_positions "VEC4") gltf;
  gltf ← update_at (primitive ++ [JStr "attributes"])
           (fun a => py_setitem a (JStr "WEIGHTS_0") (JInt weights_acc_idx)) gltf;
  (* Add animations *)
  gltf ← ensure_list "animations" gltf;
  '(gltf, bin_data) ← foldM (add_animation joint_node_indices) animations (gltf, bin_data);
  (* Update buffer size *)
  gltf ← update_at [JStr "buffers"; JInt 0]
           (fun b => py_setitem b (JStr "byteLength") (JInt (len bin_data))) gltf;
  (* Add root skeleton node to scene *)
  root_skeleton_node ← py_index joint_node_indices 0;
  gltf ← add_root_to_scene root_skeleton_node gltf;
  Ok (gltf, bin_data).

Section Pipeline.
Context `{Platform}.

(** Everything between reading the input and writing the output. *)
Definition rig (gltf : json) (bin_data : list byte) : result (json * list byte) :=
  (* Find mesh and get positions *)
  mesh_node_idx ← locate_mesh gltf;
  '(primitive, positions) ← extract_positions gltf bin_data mesh_node_idx;
  (* Calculate bounds *)
  '(min_pt, max_pt) ← bounds positions;
  max1 ← py_index max_pt 1; min1 ← py_index min_pt 1;
  mesh_height ← py_sub max1 min1;
  (* Create skeleton, skin weights, animations *)
  bones ← create_humanoid_skeleton (min_pt, max_pt);
  '(joints_data, weights_data) ← compute_skin_weights (tuples_of positions) bones 4;
  animations ← create_animations bones mesh_height;
  attach gltf bin_data mesh_node_idx primitive (count_of positions) bones
         joints_data weights_data animations.

(** The script's entry point on the file system [w]. Nothing is written
    before [write_glb] is reached. *)
Definition add_skeleton_to_glb (input_path output_path : string) (w : World)
    : World * result unit :=
  match read_glb input_path w with
  | Raise e => (w, Raise e)
  | Ok (gltf, bin_data) =>
    match rig gltf bin_data with
    | Raise e => (w, Raise e)
    | Ok (gltf, bin_data) => write_glb output_path gltf bin_data w
    end
  end.
End Pipeline.

(** ** A reference platform

    One concrete [Platform], used to run the model on examples: a JSON
    codec for the fragment without floats, escapes and inner white space, an
    insertion-sort [argsort] (stable; NaNs last, as numpy places them), and
    polynomial stand-ins for sine and cosine. Theorems below hold for every
    platform unless they name this one. *)
Module Demo.
Definition quote : byte := x22.

Definition bytes_of (s : string) : list byte := list_byte_of_string s.

Definition dumps_int (n : Z) : list byte :=
  bytes_of (NilZero.string_of_int (Z.to_int n)).

Definition dumps_str (s : string) : list byte := quote :: bytes_of s ++ [quote].

Definition join (sep : list byte) (parts : list (list byte)) : list byte :=
  match parts with
  | [] => []
  | p :: ps => p ++ flat_map (fun q => sep ++ q) ps
  end.

(** Floats are written as [null]: their shortest decimal form is not
    modelled. *)
Fixpoint dumps (d : json) : list byte :=
  match d with
  | JNull | JFloat _ => bytes_of "null"
  | JBool true => bytes_of "true"
  | JBool false => bytes_of "false"
  | JInt n => dumps_int n
  | JStr s => dumps_str s
  | JArr l => bytes_of "[" ++ join (bytes_of ",") (map dumps l) ++ bytes_of "]"
  | JObj kvs =>
    bytes_of "{"
    ++ join (bytes_of ",")
            (map (fun kv => dumps_str (fst kv) ++ bytes_of ":" ++ dumps (snd kv)) kvs)
    ++ bytes_of "}"
  end.

(** The bytes up to the closing quote, and what follows it. *)
Fixpoint read_string (s : list byte) : option (list byte * list byte) :=
  match s with
  | [] => None
  | c :: s' =>
    if Byte.eqb c quote then Some ([], s')
    else '(str, rest) ← read_string s'; Some (c :: str, rest)
  end.

Definition is_digit (c : byte) : bool :=
  Byte.eqb c "-" || ((48 <=? Z_of_byte c) && (Z_of_byte c <=? 57)).

Fixpoint span (p : byte -> bool) (s : list byte) : list byte * list byte :=
  match s with
  | c :: s' => if p c then let '(a, b) := span p s' in (c :: a, b) else ([], s)
  | [] => ([], [])
  end.

Definition read_int (s : list byte) : option (json * list byte) :=
  let '(ds, rest) := span is_digit s in
  n ← NilZero.int_of_string (string_of_list_byte ds);
  Some (JInt (Z.of_int n), rest).

Fixpoint parse_value (fuel : nat) (s : list byte) : option (json * list byte) :=
  match fuel with
  | O => None
  | S fuel' =>
    match s with
    | "n" :: "u" :: "l" :: "l" :: rest => Some (JNull, rest)
    | "t" :: "r" :: "u" :: "e" :: rest => Some (JBool true, rest)
    | "f" :: "a" :: "l" :: "s" :: "e" :: rest => Some (JBool false, rest)
    | x22 :: rest => '(str, rest) ← read_string rest; Some (JStr (string_of_list_byte str), rest)
    | "[" :: "]" :: rest => Some (JArr [], rest)
    | "[" :: rest => '(l, rest) ← parse_items fuel' rest; Some (JArr l, rest)
    | "{" :: "}" :: rest => Some (JObj [], rest)
    | "{" :: rest => '(kvs, rest) ← parse_members fuel' rest; Some (JObj kvs, rest)
    | _ => read_int s
    end
  end%byte
with parse_items (fuel : nat) (s : list byte) : option (list json * list byte) :=
  match fuel with
  | O => None
  | S fuel' =>
    '(v, rest) ← parse_value fuel' s;
    match rest with
    | "," :: rest => '(l, rest) ← parse_items fuel' rest; Some (v :: l, rest)
    | "]" :: rest => Some ([v], rest)
    | _ => None
    end
  end%byte
with parse_members (fuel : nat) (s : list byte)
    : option (list (string * json) * list byte) :=
  match fuel with
  | O => None
  | S fuel' =>
    match s with
    | x22 :: s =>
      '(k, rest) ← read_string s;
      match rest with
      | ":" :: rest =>
        '(v, rest) ← parse_value fuel' rest;
        let k := string_of_list_byte k in
        match rest with
        | "," :: rest =>
          '(kvs, rest) ← parse_members fuel' rest;
          (* a repeated key keeps its first place and takes the last value *)
          Some (if bool_decide (is_Some (dict_get k kvs)) then (k, default v (dict_get k kvs))
                     :: filter (fun kv => negb (String.eqb (fst kv) k)) kvs
                else (k, v) :: kvs, rest)
        | "}" :: rest => Some ([(k, v)], rest)
        | _ => None
        end
      | _ => None
      end
    | _ => None
    end
  end%byte.

(** Trailing spaces are allowed, anything else after the value is not. *)
Definition loads (s : list byte) : result json :=
  match parse_value (S (length s)) s with
  | Some (d, rest) =>
    if forallb (Byte.eqb x20) rest then Ok d else Raise JSONDecodeError
  | None => Raise JSONDecodeError
  end.

(** numpy's order on doubles: NaNs come last. *)
Definition np_le (a b : float) : bool := is_nan b || PrimFloat.leb a b.

Fixpoint insert_sorted (key : nat -> float) (i : nat) (l : list nat) : list nat :=
  match l with
  | [] => [i]
  | j :: l' => if np_le (key j) (key i) then j :: insert_sorted key i l' else i :: l
  end.

Definition argsort (a : list float) : list nat :=
  fold_left (fun acc i => insert_sorted (fun j => default nan (a !! j)) i acc)
            (seq 0 (length a)) [].

(** Truncated Taylor series. *)
Definition sin_poly (x : float) : float :=
  (x - x * x * x / 6 + x * x * x * x * x / 120)%float.
Definition cos_poly (x : float) : float :=
  (1 - x * x / 2 + x * x * x * x / 24)%float.

Definition platform : Platform := {|
  json_loads := loads;
  json_dumps := dumps;
  np_sin := sin_poly;
  np_cos := cos_poly;
  np_argsort := argsort
|}.
End Demo.

(** ** Example inputs *)

(** A single triangle with positions (0,0,0), (1,0,0), (0,1,0). *)
Definition triangle_bin : list byte :=
  flat_map f32_bytes [0; 0; 0; 1; 0; 0; 0; 1; 0]%float.

Definition triangle_gltf : json :=
  JObj [("asset", JObj [("version", JStr "2.0")]);
        ("scene", JInt 0);
        ("scenes", JArr [JObj [("nodes", JArr [JInt 0])]]);
        ("nodes", JArr [JObj [("mesh", JInt 0)]]);
        ("meshes",
         JArr [JObj [("primitives",
                      JArr [JObj [("attributes", JObj [("POSITION", JInt 0)])]])]]);
        ("accessors",
         JArr [JObj [("bufferView", JInt 0); ("componentType", JInt 5126);
                     ("count", JInt 3); ("type", JStr "VEC3");
                     ("min", JArr [JInt 0; JInt 0; JInt 0]);
                     ("max", JArr [JInt 1; JInt 1; JInt 0])]]);
        ("bufferViews",
         JArr [JObj [("buffer", JInt 0); ("byteOffset", JInt 0);
                     ("byteLength", JInt 36)]]);
        ("buffers", JArr [JObj [("byteLength", JInt 36)]])]%string.

(** A GLB container, assembled by hand. *)
Definition glb_file (magic version total : Z) (text payload : list byte) : list byte :=
  le_bytes 4 magic ++ le_bytes 4 version ++ le_bytes 4 total
  ++ le_bytes 4 (len text) ++ le_bytes 4 chunk_JSON ++ text
  ++ le_bytes 4 (len payload) ++ le_bytes 4 chunk_BIN ++ payload.

(** ** Vocabulary of the properties *)

(** Each item is strictly below the next. *)
Fixpoint increasing (l : list float) : bool :=
  match l with
  | a :: (b :: _) as l' => PrimFloat.ltb a b && increasing l'
  | _ => true
  end.

(** The samples of a time array as the payload stores them: binary32. *)
Definition stored (times : list float) : list float :=
  map (fun t => of_f32 (to_f32 t)) times.

(** [[i / fps for i in range(frames + 1)]] *)
Definition times_of (frames : Z) : list float :=
  map (fun i => int_truediv i fps) (seqZ 0 (frames + 1)).

(** A well-formed container with an empty JSON object, no payload, and the
    version field set to 1. *)
Definition version1_file : list byte :=
  glb_file magic_glTF 1 32 (Demo.bytes_of "{}  ") [].

(** A container of 22 bytes whose JSON chunk declares 1000 bytes, far past
    the declared total length (and past the end of the file). *)
Definition overrun_file : list byte :=
  le_bytes 4 magic_glTF ++ le_bytes 4 2 ++ le_bytes 4 22
  ++ le_bytes 4 1000 ++ le_bytes 4 chunk_JSON ++ Demo.bytes_of "{}".

(** A well-formed container whose magic tag is not [glTF]. *)
Definition bad_magic_file : list byte :=
  glb_file 0x46546C68 2 32 (Demo.bytes_of "{}  ") [].

(** A container whose JSON chunk ends at byte 24 and whose header declares
    a total of 22 bytes, and one that declares 25 bytes and goes on for
    another sixteen. *)
Definition short_total_file : list byte :=
  glb_file magic_glTF 2 22 (Demo.bytes_of "{}  ") [x01; x02; x03; x04].

Definition long_payload_file : list byte :=
  glb_file magic_glTF 2 25 (Demo.bytes_of "{}  ") [x01; x02; x03; x04; x05; x06; x07; x08].

(** A document whose only node has no mesh, in a container. *)
Definition no_mesh_gltf : json :=
  JObj [("scenes", JArr [JObj [("nodes", JArr [JInt 0])]]);
        ("nodes", JArr [JObj [("name", JStr "empty")]])]%string.

Definition no_mesh_file : list byte :=
  glb_file magic_glTF 2 (12 + 8 + len (pad4 x20 (Demo.dumps no_mesh_gltf)) + 8)
           (pad4 x20 (Demo.dumps no_mesh_gltf)) [].

(** The bounds of the triangle and the skeleton built from them. *)
Definition triangle_bounds : list pynum * list pynum :=
  ([PyFloat 0; PyFloat 0; PyFloat 0], [PyFloat 1; PyFloat 1; PyFloat 0]).

Definition triangle_bones : list Bone :=
  match create_humanoid_skeleton triangle_bounds with
  | Ok bones => bones
  | Raise _ => []
  end.

(** The rest positions of the triangle's skeleton, as the array
    [bone_positions] holds them. *)
Definition triangle_bone_positions : list (list float) :=
  map (fun b => map (fun c => match c with
                              | PyFloat f => f
                              | PyInt n => float_of_Z n
                              end) (bone_pos b)) triangle_bones.

(** A vertex with finite coordinates, far away. *)
Definition far_vertex : list float := [1e200; 0; 0]%float.

(** A strictly positive double: finite or infinite, but not zero, not
    negative and not a NaN. *)
Definition positive_sf (f : spec_float) : Prop :=
  match f with
  | S754_finite false _ _ | S754_infinity false => True
  | _ => False
  end.

(** What a square root can be: never negative (the sign of a zero is
    kept). *)
Definition nonneg_sf (f : spec_float) : Prop :=
  match f with
  | S754_zero _ | S754_nan | S754_infinity false | S754_finite false _ _ => True
  | _ => False
  end.

(** A container laid out as a header and two chunks, with any header
    fields and any chunk type tags. *)
Definition glb_layout (magic version total json_type bin_type : Z)
    (text payload : list byte) : list byte :=
  le_bytes 4 magic ++ le_bytes 4 version ++ le_bytes 4 total
  ++ le_bytes 4 (len text) ++ le_bytes 4 json_type ++ text
  ++ le_bytes 4 (len payload) ++ le_bytes 4 bin_type ++ payload.

(** A container that ends after its JSON chunk. *)
Definition glb_json_only (version total json_type : Z) (text : list byte) : list byte :=
  le_bytes 4 magic_glTF ++ le_bytes 4 version ++ le_bytes 4 total
  ++ le_bytes 4 (len text) ++ le_bytes 4 json_type ++ text.

(** A document with one accessor over one buffer view, both as the
    pipeline writes them. *)
Definition view_doc (offset size component_type count : Z) (type : string) : json :=
  JObj [("accessors", JArr [obj_accessor 0 component_type count type]);
        ("bufferViews", JArr [obj_buffer_view offset size None])]%string.

(** The rows [get_accessor_data] returns for elements of [k] components. *)
Definition rows_of (k : Z) (data : list pynum) : accessor_data :=
  if k =? 1 then Flat data else Tuples (chunks (length data) (Z.to_nat k) data).

(** What [struct.pack] refuses for an unsigned format of [n] bytes. *)
Definition not_uint (n : nat) (a : pynum) : Prop :=
  match a with
  | PyInt v => ~ (0 <= v < 2 ^ (8 * Z.of_nat n))
  | PyFloat _ => True
  end.


(** The double that the format ['f'] packs for a number. *)
Definition as_double (a : pynum) : float :=
  match a with
  | PyFloat x => x
  | PyInt n => float_of_Z n
  end.

(** What the format ['f'] accepts: a float whose nearest binary32 is
    finite when the float is, or an int for which this holds after its
    conversion to a double. *)
Definition fits_f32 (a : pynum) : Prop :=
  match a with
  | PyFloat x => f32_overflow x = false
  | PyInt n => is_infinity (float_of_Z n) = false /\ f32_overflow (float_of_Z n) = false
  end.

(** The names of the bones, in the order of the skeleton. *)
Definition bone_names : list string :=
  [ "Root"; "Hips"; "Spine"; "Chest"; "Neck"; "Head";
    "LeftShoulder"; "LeftArm"; "LeftForearm"; "LeftHand";
    "RightShoulder"; "RightArm"; "RightForearm"; "RightHand";
    "LeftUpLeg"; "LeftLeg"; "LeftFoot";
    "RightUpLeg"; "RightLeg"; "RightFoot" ]%string.

(** The number of components of a channel's values per key frame. *)
Definition components_of (path : string) : Z :=
  if String.eqb path "rotation" then 4 else 3.

(** The clips made for the triangle's skeleton on the reference platform. *)
Definition triangle_animations : list (string * list Channel) :=
  match create_animations (H:=Demo.platform) triangle_bones (PyFloat 1) with
  | Ok animations => animations
  | Raise _ => []
  end.

(** What numpy documents of [argsort]: the indices of the array, each
    once. (The order among them is what the platform's sort makes it.) *)
Definition argsort_permutes `{Platform} : Prop :=
  forall a : list float, np_argsort a ≡ₚ seq 0 (length a).

(** A point given by three floats. *)
Definition float_triple (p : list pynum) : Prop :=
  exists x y z, p = [PyFloat x; PyFloat y; PyFloat z].

(** The three vertices of the triangle. *)
Definition triangle_positions : list (list pynum) :=
  [ [PyFloat 0; PyFloat 0; PyFloat 0];
    [PyFloat 1; PyFloat 0; PyFloat 0];
    [PyFloat 0; PyFloat 1; PyFloat 0] ].

(** The entry of a key in a document that is an object. *)
Definition field (k : string) (g : json) : option json :=
  match g with
  | JObj kvs => dict_get k kvs
  | _ => None
  end.

(** The payload [b'] is [b] with bytes added at its end. *)
Definition extends (b b' : list byte) : Prop := exists added, b' = b ++ added.

(** The triangle in a container, as the input file of the pipeline, and
    what the pipeline makes of it on the reference platform. *)
Definition triangle_file : list byte :=
  glb_file magic_glTF 2
           (28 + len (pad4 x20 (Demo.dumps triangle_gltf)) + len triangle_bin)
           (pad4 x20 (Demo.dumps triangle_gltf)) triangle_bin.

Definition triangle_world : World := {["in.glb"%string := triangle_file]}.

Definition triangle_rigged : json * list byte :=
  match rig (H:=Demo.platform) triangle_gltf triangle_bin return json * list byte with
  | Ok r => r
  | Raise _ => (JNull, [])
  end.

(** The list a document holds at a key; empty when the key is missing or
    holds something else. *)
Definition items (k : string) (g : json) : list json :=
  match field k g with
  | Some (JArr l) => l
  | _ => []
  end.

(** What a stage does to the lists of the document that the pipeline
    grows: [nodes] more nodes (the nodes that were there may be modified),
    and the given entries appended to the accessors, the buffer views, the
    skins and the animations. *)
Record doc_delta (g g' : json) (nodes : nat)
    (accessors buffer_views skins animations : list json) : Prop := mk_doc_delta {
  delta_nodes : length (items "nodes" g') = (length (items "nodes" g) + nodes)%nat;
  delta_accessors : items "accessors" g' = items "accessors" g ++ accessors;
  delta_buffer_views : items "bufferViews" g' = items "bufferViews" g ++ buffer_views;
  delta_skins : items "skins" g' = items "skins" g ++ skins;
  delta_animations : items "animations" g' = items "animations" g ++ animations
}.

(** The keys of the lists above. *)
Definition grown_keys : list string :=
  ["nodes"; "accessors"; "bufferViews"; "skins"; "animations"]%string.

(** The triangle's document with the vertex count set to zero, in a
    container. *)
Definition no_vertices_gltf : json :=
  JObj [("asset", JObj [("version", JStr "2.0")]);
        ("nodes", JArr [JObj [("mesh", JInt 0)]]);
        ("meshes",
         JArr [JObj [("primitives",
                      JArr [JObj [("attributes", JObj [("POSITION", JInt 0)])]])]]);
        ("accessors",
         JArr [JObj [("bufferView", JInt 0); ("componentType", JInt 5126);
                     ("count", JInt 0); ("type", JStr "VEC3")]]);
        ("bufferViews",
         JArr [JObj [("buffer", JInt 0); ("byteOffset", JInt 0);
                     ("byteLength", JInt 0)]]);
        ("buffers", JArr [JObj [("byteLength", JInt 0)]])]%string.

Definition container_of (gltf : json) : list byte :=
  glb_file magic_glTF 2 (20 + len (pad4 x20 (Demo.dumps gltf)))
           (pad4 x20 (Demo.dumps gltf)) [].

Definition no_vertices_world : World :=
  {["empty.glb"%string := container_of no_vertices_gltf]}.

(** Between [g] and [g'] only the entries of the keys [ks] changed. *)
Definition keeps (ks : list string) (g g' : json) : Prop :=
  forall k, k ∉ ks -> field k g' = field k g.

(** The keys of the document that the pipeline touches after it has set
    the skin of the mesh node, and after it has set both attributes of the
    primitive. *)
Definition late_keys : list string :=
  ["bufferViews"; "accessors"; "animations"; "buffers"; "scenes"]%string.

Definition after_skin_keys : list string := "meshes"%string :: late_keys.

(** * Properties *)

(** ** Basic facts: lengths, padding, little-endian integers *)

Lemma len_app {A} (l1 l2 : list A) : len (l1 ++ l2) = len l1 + len l2.
Proof. unfold len. rewrite length_app. lia. Qed.

Lemma len_nonneg {A} (l : list A) : 0 <= len l.
Proof. unfold len. lia. Qed.

Lemma len_replicate {A} n (x : A) : len (replicate n x) = Z.of_nat n.
Proof. unfold len. by rewrite length_replicate. Qed.

Lemma pad_loop_spec fuel fill b :
  (- len b) mod 4 <= Z.of_nat fuel ->
  pad_loop fuel fill b = b ++ replicate (Z.to_nat ((- len b) mod 4)) fill.
Proof.
  revert b. induction fuel as [|fuel IH]; intros b Hfuel; simpl.
  - destruct (len b mod 4 =? 0) eqn:E.
    + apply Z.eqb_eq in E.
      replace ((- len b) mod 4) with 0 by (Z.div_mod_to_equations; lia).
      by rewrite app_nil_r.
    + apply Z.eqb_neq in E. exfalso. Z.div_mod_to_equations. lia.
  - destruct (len b mod 4 =? 0) eqn:E.
    + apply Z.eqb_eq in E.
      replace ((- len b) mod 4) with 0 by (Z.div_mod_to_equations; lia).
      by rewrite app_nil_r.
    + apply Z.eqb_neq in E.
      rewrite IH; rewrite len_app; change (len [fill]) with 1.
      * rewrite <- app_assoc. f_equal.
        replace (Z.to_nat ((- len b) mod 4))
          with (S (Z.to_nat ((- (len b + 1)) mod 4)))
          by (Z.div_mod_to_equations; lia).
        reflexivity.
      * Z.div_mod_to_equations. lia.
Qed.

Lemma pad4_spec fill b :
  pad4 fill b = b ++ replicate (Z.to_nat ((- len b) mod 4)) fill.
Proof. apply pad_loop_spec. simpl. Z.div_mod_to_equations. lia. Qed.

Lemma pad4_aligned fill b : len (pad4 fill b) mod 4 = 0.
Proof.
  rewrite pad4_spec, len_app, len_replicate.
  pose proof (len_nonneg b). Z.div_mod_to_equations. lia.
Qed.

Lemma Z_of_byte_of_Z z : Z_of_byte (byte_of_Z z) = z mod 256.
Proof.
  unfold Z_of_byte, byte_of_Z.
  assert (Hb : 0 <= z mod 256 < 256) by (apply Z.mod_pos_bound; lia).
  pose proof (Byte.to_of_N_option_map (Z.to_N (z mod 256))) as E.
  destruct (N.leb_spec (Z.to_N (z mod 256)) 255); [|lia].
  destruct (Byte.of_N (Z.to_N (z mod 256))) as [b|]; [|discriminate].
  simpl in *. injection E as ->. lia.
Qed.

Lemma length_le_bytes n z : length (le_bytes n z) = n.
Proof. revert z. induction n; intros; simpl; auto. Qed.

Lemma len_le_bytes n z : len (le_bytes n z) = Z.of_nat n.
Proof. unfold len. by rewrite length_le_bytes. Qed.

Lemma split_low_byte z :
  Z.lor (Z.land z 255) (Z.shiftl (Z.shiftr z 8) 8) = z.
Proof.
  apply Z.bits_inj'. intros i Hi.
  rewrite Z.lor_spec, Z.land_spec, Z.shiftl_spec by lia.
  change 255 with (Z.ones 8).
  destruct (Z.ltb_spec i 8).
  - rewrite Z.ones_spec_low by lia.
    rewrite (Z.testbit_neg_r _ (i - 8)) by lia.
    by rewrite andb_true_r, orb_false_r.
  - rewrite Z.ones_spec_high by lia.
    rewrite Z.shiftr_spec by lia.
    rewrite andb_false_r. simpl. f_equal. lia.
Qed.

Lemma le_value_le_bytes n z :
  0 <= z < 2 ^ (8 * Z.of_nat n) -> le_value (le_bytes n z) = z.
Proof.
  revert z. induction n as [|n IH]; intros z Hz.
  - simpl in *. lia.
  - cbn [le_bytes le_value]. rewrite Z_of_byte_of_Z.
    assert (Hl : 0 <= Z.land z 255 < 256).
    { change 255 with (Z.ones 8). rewrite Z.land_ones by lia.
      apply Z.mod_pos_bound. lia. }
    rewrite Z.mod_small by lia.
    rewrite IH.
    + apply split_low_byte.
    + rewrite Z.shiftr_div_pow2 by lia.
      replace (8 * Z.of_nat (S n)) with (8 + 8 * Z.of_nat n) in Hz by lia.
      rewrite Z.pow_add_r in Hz by lia.
      split; [apply Z.div_pos; lia|].
      apply Z.div_lt_upper_bound; lia.
Qed.

Lemma pack_I_ok n : 0 <= n < 2 ^ 32 -> pack_I n = Ok (le_bytes 4 n).
Proof.
  intros Hn. unfold pack_I.
  destruct (Z.leb_spec 0 n); [|lia]. destruct (Z.ltb_spec n (2 ^ 32)); [|lia].
  reflexivity.
Qed.

Lemma f_read_app n (a b : list byte) :
  len a = n -> f_read n (a ++ b) = (a, b).
Proof.
  intros <-. unfold f_read, len.
  destruct (Z.ltb_spec (Z.of_nat (length a)) 0); [lia|].
  rewrite Nat2Z.id. by rewrite take_app_length, drop_app_length.
Qed.

Lemma f_read_all (a : list byte) : f_read (len a) a = (a, []).
Proof.
  pose proof (f_read_app (len a) a [] eq_refl) as E.
  by rewrite app_nil_r in E.
Qed.

Lemma unpack_III_app a b c :
  length a = 4%nat -> length b = 4%nat -> length c = 4%nat ->
  unpack_III (a ++ b ++ c) = Ok (le_value a, le_value b, le_value c).
Proof.
  intros Ha Hb Hc. unfold unpack_III, len.
  rewrite !length_app, Ha, Hb, Hc. simpl.
  do 5 (destruct a as [|? a]; try discriminate).
  do 5 (destruct b as [|? b]; try discriminate).
  do 5 (destruct c as [|? c]; try discriminate).
  reflexivity.
Qed.

Lemma unpack_II_app a b :
  length a = 4%nat -> length b = 4%nat ->
  unpack_II (a ++ b) = Ok (le_value a, le_value b).
Proof.
  intros Ha Hb. unfold unpack_II, len.
  rewrite !length_app, Ha, Hb. simpl.
  do 5 (destruct a as [|? a]; try discriminate).
  do 5 (destruct b as [|? b]; try discriminate).
  reflexivity.
Qed.

Section CodecFacts.
Context `{Platform}.

Lemma write_glb_ok path gltf bin_data w :
  12 + 8 + len (pad4 x20 (json_dumps gltf)) + 8 + len (pad4 x00 bin_data) < 2 ^ 32 ->
  write_glb path gltf bin_data w =
    (<[path := glb_file magic_glTF 2
                 (12 + 8 + len (pad4 x20 (json_dumps gltf)) + 8 + len (pad4 x00 bin_data))
                 (pad4 x20 (json_dumps gltf)) (pad4 x00 bin_data)]> w, Ok tt).
Proof.
  intros Hlt. unfold write_glb.
  pose proof (len_nonneg (pad4 x20 (json_dumps gltf))).
  pose proof (len_nonneg (pad4 x00 bin_data)).
  rewrite !pack_I_ok by (unfold magic_glTF, chunk_JSON, chunk_BIN; lia).
  cbn [mbind result_bind]. unfold glb_file.
  by rewrite <- !app_assoc.
Qed.

Lemma read_glb_file path w magic version total text payload :
  0 <= magic < 2 ^ 32 -> 0 <= total < 2 ^ 32 ->
  len text < 2 ^ 32 -> len payload < 2 ^ 32 ->
  w !! path = Some (glb_file magic version total text payload) ->
  read_glb path w =
    if negb (magic =? magic_glTF) then
      Raise (ValueError "Not a valid GLB file")
    else
      json_data ← json_loads text;
      if 20 + len text <? total then Ok (json_data, payload) else Ok (json_data, []).
Proof.
  intros Hm Ht Hx Hp Hw. unfold read_glb. rewrite Hw.
  replace (glb_file magic version total text payload)
    with ((le_bytes 4 magic ++ le_bytes 4 version ++ le_bytes 4 total) ++
          (le_bytes 4 (len text) ++ le_bytes 4 chunk_JSON) ++ text ++
          (le_bytes 4 (len payload) ++ le_bytes 4 chunk_BIN) ++ payload)
    by (unfold glb_file; by rewrite <- !app_assoc).
  rewrite f_read_app by (rewrite !len_app, !len_le_bytes; lia).
  rewrite unpack_III_app by apply length_le_bytes.
  cbn [mbind result_bind].
  rewrite (le_value_le_bytes 4 magic), (le_value_le_bytes 4 total) by (simpl; lia).
  destruct (negb (magic =? magic_glTF)); [reflexivity|].
  rewrite f_read_app by (rewrite !len_app, !len_le_bytes; lia).
  rewrite unpack_II_app by apply length_le_bytes.
  cbn [mbind result_bind].
  pose proof (len_nonneg text). pose proof (len_nonneg payload).
  rewrite (le_value_le_bytes 4 (len text)) by (simpl; lia).
  rewrite f_read_app by reflexivity.
  destruct (json_loads text) as [json_data|e]; [|reflexivity].
  cbn [mbind result_bind].
  replace (12 + 8 + len text) with (20 + len text) by lia.
  destruct (20 + len text <? total); [|reflexivity].
  rewrite f_read_app by (rewrite !len_app, !len_le_bytes; lia).
  rewrite unpack_II_app by apply length_le_bytes.
  cbn [mbind result_bind].
  rewrite (le_value_le_bytes 4 (len payload)) by (simpl; lia).
  by rewrite f_read_all.
Qed.

(** C3. Round trip of the container codec: for a document [D] that the
    JSON text codec reads back as written (with the pad spaces) and a
    payload [P], in a container that fits its 32-bit length fields, decoding
    what [write_glb] wrote gives [D] and [P] followed by the zero bytes that
    pad it to a multiple of four. *)
Theorem C3_roundtrip (path : string) (D : json) (P : list byte) (w : World) :
  json_loads (pad4 x20 (json_dumps D)) = Ok D ->
  12 + 8 + len (pad4 x20 (json_dumps D)) + 8 + len (pad4 x00 P) < 2 ^ 32 ->
  exists w',
    write_glb path D P w = (w', Ok tt) /\
    read_glb path w' = Ok (D, P ++ replicate (Z.to_nat ((- len P) mod 4)) x00).
Proof.
  intros Hvalid Hsize. eexists. split; [by apply write_glb_ok|].
  pose proof (len_nonneg (pad4 x20 (json_dumps D))).
  pose proof (len_nonneg (pad4 x00 P)).
  erewrite read_glb_file; [| | | | |apply lookup_insert_eq];
    try (unfold magic_glTF; lia).
  change (negb (magic_glTF =? magic_glTF)) with false. cbv iota.
  rewrite Hvalid. cbn [mbind result_bind].
  destruct (Z.ltb_spec (20 + len (pad4 x20 (json_dumps D)))
              (12 + 8 + len (pad4 x20 (json_dumps D)) + 8 + len (pad4 x00 P))); [|lia].
  by rewrite (pad4_spec x00 P).
Qed.
End CodecFacts.

Lemma C3_roundtrip_witness :
  exists w',
    write_glb (H:=Demo.platform) "out.glb" triangle_gltf [x01; x02; x03] ∅ = (w', Ok tt) /\
    read_glb (H:=Demo.platform) "out.glb" w' = Ok (triangle_gltf, [x01; x02; x03; x00]).
Proof.
  apply (C3_roundtrip (H:=Demo.platform) "out.glb" triangle_gltf [x01; x02; x03] ∅);
    vm_compute; reflexivity.
Defined.

(** Case analysis on the innermost computation a hypothesis is stuck on. *)
Ltac destruct_result H :=
  repeat match type of H with
    | context [match ?m with Ok _ => _ | Raise _ => _ end] =>
      lazymatch m with
      | context [match _ with Ok _ => _ | Raise _ => _ end] => fail
      | _ => let E := fresh "E" in destruct m eqn:E; try discriminate H
      end
    end.

Lemma skeleton_parents mesh_bounds bones :
  create_humanoid_skeleton mesh_bounds = Ok bones ->
  map bone_parent bones = [-1; 0; 1; 2; 3; 4; 3; 6; 7; 8; 3; 10; 11; 12; 1; 14; 15; 1; 17; 18].
Proof.
  intros Hs. destruct mesh_bounds as [min_pt max_pt].
  unfold create_humanoid_skeleton in Hs.
  cbv [mbind result_bind fmap result_fmap traverse id] in Hs.
  destruct_result Hs.
  injection Hs as <-. reflexivity.
Qed.

(** C7. In the generated skeleton the bone at index 0 is the only root
    (parent -1) and every other bone has a parent index that is
    non-negative and strictly below its own index. *)
Theorem C7_topological (mesh_bounds : list pynum * list pynum) (bones : list Bone) :
  create_humanoid_skeleton mesh_bounds = Ok bones ->
  forall (i : nat) (b : Bone), bones !! i = Some b ->
    (i = 0%nat /\ bone_parent b = -1) \/
    ((0 < i)%nat /\ 0 <= bone_parent b < Z.of_nat i).
Proof.
  intros Hs i b Hb.
  apply skeleton_parents in Hs.
  assert (Hp : map bone_parent bones !! i = Some (bone_parent b))
    by (by rewrite list_lookup_fmap, Hb).
  rewrite Hs in Hp. clear Hs Hb.
  do 20 (destruct i as [|i]; [injection Hp as <-; lia|]).
  discriminate Hp.
Qed.

Lemma C7_topological_witness :
  exists bones,
    create_humanoid_skeleton
      ([PyFloat 0; PyFloat 0; PyFloat 0], [PyFloat 1; PyFloat 1; PyFloat 0]) = Ok bones /\
    length bones = 20%nat /\
    forall (i : nat) (b : Bone), bones !! i = Some b ->
      (i = 0%nat /\ bone_parent b = -1) \/
      ((0 < i)%nat /\ 0 <= bone_parent b < Z.of_nat i).
Proof.
  eexists. split; [vm_compute; reflexivity|]. split; [reflexivity|].
  apply (C7_topological
           ([PyFloat 0; PyFloat 0; PyFloat 0], [PyFloat 1; PyFloat 1; PyFloat 0])).
  vm_compute. reflexivity.
Defined.

(** ** The payload stays aligned *)

(** C6. Every offset [add_to_buffer] returns is a multiple of four (and the
    new bytes start there, after the old ones); the payload [write_glb]
    writes into the container, and the length it declares for it, is a
    multiple of four. *)
Theorem C6_alignment `{Platform} :
  (forall bin_data data dtype bin_data' offset size,
     add_to_buffer bin_data data dtype = Ok (bin_data', (offset, size)) ->
     offset mod 4 = 0 /\ len bin_data <= offset /\ len bin_data' = offset + size) /\
  (forall path gltf bin_data w w',
     write_glb path gltf bin_data w = (w', Ok tt) ->
     exists head payload,
       w' !! path =
         Some (head ++ le_bytes 4 (len payload) ++ le_bytes 4 chunk_BIN ++ payload) /\
       payload = pad4 x00 bin_data /\
       len payload mod 4 = 0).
Proof.
  split.
  - intros bin_data data dtype bin_data' offset size Hadd.
    unfold add_to_buffer in Hadd.
    cbv [mbind result_bind] in Hadd.
    destruct_result Hadd.
    injection Hadd as <- <- <-.
    split; [apply pad4_aligned|]. split.
    + rewrite pad4_spec, len_app, len_replicate. lia.
    + apply len_app.
  - intros path gltf bin_data w w' Hw.
    set (total := 12 + 8 + len (pad4 x20 (json_dumps gltf)) + 8 + len (pad4 x00 bin_data)).
    destruct (Z.lt_ge_cases total (2 ^ 32)) as [Hlt|Hge].
    + rewrite write_glb_ok in Hw by exact Hlt. injection Hw as <-.
      exists (le_bytes 4 magic_glTF ++ le_bytes 4 2 ++ le_bytes 4 total ++
              le_bytes 4 (len (pad4 x20 (json_dumps gltf))) ++ le_bytes 4 chunk_JSON ++
              pad4 x20 (json_dumps gltf)), (pad4 x00 bin_data).
      split; [|split; [reflexivity|apply pad4_aligned]].
      rewrite lookup_insert_eq. unfold glb_file. by rewrite <- ?app_assoc.
    + unfold write_glb in Hw. fold total in Hw.
      assert (Hpack : pack_I total = Raise StructError).
      { unfold pack_I. destruct (Z.ltb_spec total (2 ^ 32)); [lia|].
        by rewrite andb_false_r. }
      rewrite Hpack in Hw.
      change (pack_I magic_glTF) with (Ok (le_bytes 4 magic_glTF)) in Hw.
      change (pack_I 2) with (Ok (le_bytes 4 2)) in Hw.
      cbn [mbind result_bind] in Hw. discriminate Hw.
Qed.

Lemma C6_alignment_witness :
  (exists bin_data' size,
     add_to_buffer [x01] (Nums [PyFloat 1]) "f" = Ok (bin_data', (4, size)) /\
     4 mod 4 = 0) /\
  (exists head payload,
     (write_glb (H:=Demo.platform) "out.glb" triangle_gltf [x01; x02; x03] ∅).1 !! "out.glb"%string =
       Some (head ++ le_bytes 4 (len payload) ++ le_bytes 4 chunk_BIN ++ payload) /\
     len payload mod 4 = 0).
Proof.
  destruct (C6_alignment (H:=Demo.platform)) as [Hadd Hwrite]. split.
  - eexists _, _. split; [vm_compute; reflexivity|].
    eapply (Hadd [x01] (Nums [PyFloat 1]) "f"%string). vm_compute. reflexivity.
  - destruct (Hwrite "out.glb"%string triangle_gltf [x01; x02; x03] ∅
                (write_glb (H:=Demo.platform) "out.glb" triangle_gltf [x01; x02; x03] ∅).1)
      as (head & payload & Hfile & _ & Hlen).
    + vm_compute. reflexivity.
    + by exists head, payload.
Defined.

(** ** Decoding *)

Section DecodeFacts.
Context `{Platform}.

Lemma read_glb_bad_magic path w contents :
  w !! path = Some contents ->
  le_value (take 4 contents) <> magic_glTF ->
  read_glb path w =
    if len contents <? 12 then Raise StructError
    else Raise (ValueError "Not a valid GLB file").
Proof.
  intros Hw Hm. unfold read_glb. rewrite Hw.
  unfold f_read. change (12 <? 0) with false. cbv iota.
  change (Z.to_nat 12) with 12%nat.
  unfold unpack_III, len. rewrite length_take.
  destruct (Z.ltb_spec (Z.of_nat (length contents)) 12) as [Hlt|Hge].
  - destruct (Z.eqb_spec (Z.of_nat (12 `min` length contents)) 12); [lia|reflexivity].
  - destruct (Z.eqb_spec (Z.of_nat (12 `min` length contents)) 12); [|lia].
    cbn [mbind result_bind]. rewrite take_take. change (4 `min` 12)%nat with 4%nat.
    destruct (Z.eqb_spec (le_value (take 4 contents)) magic_glTF); [contradiction|].
    reflexivity.
Qed.

Lemma read_glb_bad_json path w contents e :
  w !! path = Some contents ->
  20 <= len contents ->
  le_value (take 4 contents) = magic_glTF ->
  json_loads (f_read (le_value (take 4 (drop 12 contents))) (drop 20 contents)).1 = Raise e ->
  read_glb path w = Raise e.
Proof.
  intros Hw Hlen Hm Hj. unfold read_glb. rewrite Hw. unfold len in Hlen.
  unfold f_read at 1. change (12 <? 0) with false. cbv iota.
  change (Z.to_nat 12) with 12%nat.
  unfold unpack_III, len. rewrite length_take.
  destruct (Z.eqb_spec (Z.of_nat (12 `min` length contents)) 12); [|lia].
  cbn [mbind result_bind]. rewrite take_take. change (4 `min` 12)%nat with 4%nat.
  rewrite Hm. change (negb (magic_glTF =? magic_glTF)) with false. cbv iota.
  unfold f_read at 1. change (8 <? 0) with false. cbv iota.
  change (Z.to_nat 8) with 8%nat.
  unfold unpack_II, len. rewrite length_take, length_drop.
  destruct (Z.eqb_spec (Z.of_nat (8 `min` (length contents - 12))) 8); [|lia].
  cbn [mbind result_bind]. rewrite take_take. change (4 `min` 8)%nat with 4%nat.
  rewrite drop_drop. change (12 + 8)%nat with 20%nat.
  destruct (f_read (le_value (take 4 (drop 12 contents))) (drop 20 contents)) as [text rest].
  simpl in Hj. rewrite Hj. reflexivity.
Qed.

(** C2 (amended). [read_glb] checks the magic tag and nothing else of the
    header: the version is read and dropped, and the declared total length
    only decides whether a second chunk is read, which is the case exactly
    when the JSON chunk ends before it. A chunk is never refused for its
    declared length: a JSON chunk that ends at or beyond the declared total
    is decoded, with an empty payload, and a second chunk is returned whole
    even when it runs past the declared total. It raises whenever the magic tag differs
    from [glTF] (the [ValueError] "Not a valid GLB file" once twelve header
    bytes are there) and whenever [json.loads] raises on the JSON chunk; on
    a well-formed container the result is the same for every version field.
    When the magic tag is wrong, [add_skeleton_to_glb] raises with the file
    system unchanged: no output file is written. *)
Theorem C2_decode_validation (w : World) (path output : string) (contents : list byte) :
  w !! path = Some contents ->
  (le_value (take 4 contents) <> magic_glTF ->
     (exists e, read_glb path w = Raise e) /\
     (12 <= len contents -> read_glb path w = Raise (ValueError "Not a valid GLB file")) /\
     (exists e, add_skeleton_to_glb path output w = (w, Raise e))) /\
  (forall e,
     20 <= len contents -> le_value (take 4 contents) = magic_glTF ->
     json_loads (f_read (le_value (take 4 (drop 12 contents))) (drop 20 contents)).1
       = Raise e ->
     read_glb path w = Raise e) /\
  (forall version version' total text payload,
     0 <= total < 2 ^ 32 -> len text < 2 ^ 32 -> len payload < 2 ^ 32 ->
     contents = glb_file magic_glTF version total text payload ->
     read_glb path (<[path := glb_file magic_glTF version' total text payload]> w)
       = read_glb path w) /\
  (forall version total text payload,
     0 <= total < 2 ^ 32 -> len text < 2 ^ 32 -> len payload < 2 ^ 32 ->
     contents = glb_file magic_glTF version total text payload ->
     read_glb path w =
       (json_data ← json_loads text;
        if 20 + len text <? total then Ok (json_data, payload) else Ok (json_data, []))).
Proof.
  intros Hw. split; [|split; [|split] ].
  - intros Hm. pose proof (read_glb_bad_magic path w contents Hw Hm) as Hr.
    split; [|split].
    + rewrite Hr. destruct (len contents <? 12); eauto.
    + intros Hlen. rewrite Hr. destruct (Z.ltb_spec (len contents) 12); [lia|reflexivity].
    + unfold add_skeleton_to_glb. rewrite Hr. destruct (len contents <? 12); eauto.
  - intros e Hlen Hm Hj. by apply read_glb_bad_json with contents.
  - intros version version' total text payload Ht Hx Hp ->.
    rewrite (read_glb_file path w magic_glTF version total text payload)
      by (try assumption; unfold magic_glTF; lia).
    rewrite (read_glb_file path _ magic_glTF version' total text payload)
      by (try assumption; try apply lookup_insert_eq; unfold magic_glTF; lia).
    reflexivity.
  - intros version total text payload Ht Hx Hp ->.
    rewrite (read_glb_file path w magic_glTF version total text payload)
      by (try assumption; unfold magic_glTF; lia).
    reflexivity.
Qed.
End DecodeFacts.

Lemma C2_decode_validation_witness :
  (read_glb (H:=Demo.platform) "in.glb" {["in.glb"%string := bad_magic_file]}
     = Raise (ValueError "Not a valid GLB file") /\
   exists e,
     add_skeleton_to_glb (H:=Demo.platform) "in.glb" "out.glb"
                         {["in.glb"%string := bad_magic_file]}
       = ({["in.glb"%string := bad_magic_file]}, Raise e)) /\
  read_glb (H:=Demo.platform) "in.glb" {["in.glb"%string := short_total_file]}
    = Ok (JObj [], []) /\
  read_glb (H:=Demo.platform) "in.glb" {["in.glb"%string := long_payload_file]}
    = Ok (JObj [], [x01; x02; x03; x04; x05; x06; x07; x08]).
Proof.
  split; [|split].
  - destruct (C2_decode_validation (H:=Demo.platform)
                {["in.glb"%string := bad_magic_file]} "in.glb" "out.glb" bad_magic_file)
      as [Hmagic _].
    + vm_compute. reflexivity.
    + destruct Hmagic as (_ & Herr & Hout).
      * vm_compute. discriminate.
      * split; [apply Herr; vm_compute; discriminate|exact Hout].
  - destruct (C2_decode_validation (H:=Demo.platform)
                {["in.glb"%string := short_total_file]} "in.glb" "out.glb"
                short_total_file) as (_ & _ & _ & Hlen).
    + vm_compute. reflexivity.
    + rewrite (Hlen 2 22 (Demo.bytes_of "{}  ") [x01; x02; x03; x04]);
        [reflexivity|lia|vm_compute; reflexivity|vm_compute; reflexivity|reflexivity].
  - destruct (C2_decode_validation (H:=Demo.platform)
                {["in.glb"%string := long_payload_file]} "in.glb" "out.glb"
                long_payload_file) as (_ & _ & _ & Hlen).
    + vm_compute. reflexivity.
    + rewrite (Hlen 2 25 (Demo.bytes_of "{}  ")
                 [x01; x02; x03; x04; x05; x06; x07; x08]);
        [reflexivity|lia|vm_compute; reflexivity|vm_compute; reflexivity|reflexivity].
Defined.

(** C2 (as stated) fails: a container with version 1 is decoded, and so is
    one whose JSON chunk declares a length that runs past the declared total
    length. *)
Lemma C2_counterexample :
  le_value (take 4 (drop 4 version1_file)) = 1 /\
  read_glb (H:=Demo.platform) "in.glb" {["in.glb"%string := version1_file]}
    = Ok (JObj [], []) /\
  le_value (take 4 (drop 8 overrun_file)) = 22 /\
  le_value (take 4 (drop 12 overrun_file)) = 1000 /\
  read_glb (H:=Demo.platform) "in.glb" {["in.glb"%string := overrun_file]}
    = Ok (JObj [], []).
Proof. vm_compute. repeat split; reflexivity. Qed.

(** ** Locate-Mesh *)

Lemma find_mesh_node_none i nodes :
  Forall (fun node => exists kvs, node = JObj kvs /\ dict_get "mesh" kvs = None) nodes ->
  find_mesh_node i nodes = Ok None.
Proof.
  intros Hn. revert i. induction Hn as [|node nodes (kvs & -> & Hk) _ IH]; intros i.
  - reflexivity.
  - cbn [find_mesh_node contains_str mbind result_bind]. rewrite Hk.
    rewrite bool_decide_eq_false_2 by (intros [? ?]; discriminate).
    apply IH.
Qed.

Section PipelineFacts.
Context `{Platform}.

(** C8. When no node of the document's node list has a mesh, the pipeline
    raises the [ValueError] "No mesh found in model" in Locate-Mesh, its
    first stage after decoding; nothing later runs and the file system is
    left as it was. *)
Theorem C8_no_mesh (w : World) (input_path output_path : string)
    (gltf : json) (bin_data : list byte) (nodes : list json) :
  read_glb input_path w = Ok (gltf, bin_data) ->
  py_getitem gltf (JStr "nodes") = Ok (JArr nodes) ->
  Forall (fun node => exists kvs, node = JObj kvs /\ dict_get "mesh" kvs = None) nodes ->
  locate_mesh gltf = Raise (ValueError "No mesh found in model") /\
  rig gltf bin_data = Raise (ValueError "No mesh found in model") /\
  add_skeleton_to_glb input_path output_path w
    = (w, Raise (ValueError "No mesh found in model")).
Proof.
  intros Hread Hnodes Hmesh.
  assert (Hl : locate_mesh gltf = Raise (ValueError "No mesh found in model")).
  { unfold locate_mesh. rewrite Hnodes. cbn [mbind result_bind py_iter].
    by rewrite find_mesh_node_none. }
  assert (Hr : rig gltf bin_data = Raise (ValueError "No mesh found in model")).
  { unfold rig. by rewrite Hl. }
  repeat split; try assumption.
  unfold add_skeleton_to_glb. by rewrite Hread, Hr.
Qed.
End PipelineFacts.

Lemma C8_no_mesh_witness :
  add_skeleton_to_glb (H:=Demo.platform) "in.glb" "out.glb" {["in.glb"%string := no_mesh_file]}
    = ({["in.glb"%string := no_mesh_file]}, Raise (ValueError "No mesh found in model")).
Proof.
  apply (C8_no_mesh (H:=Demo.platform) {["in.glb"%string := no_mesh_file]}
           "in.glb" "out.glb" no_mesh_gltf [] [JObj [("name", JStr "empty")]%string]).
  - vm_compute. reflexivity.
  - reflexivity.
  - repeat constructor. eexists. split; reflexivity.
Defined.

(** ** Animation times *)

Lemma frame_times_idle : frame_times 2 = Ok (times_of 60).
Proof. vm_compute. reflexivity. Qed.
Lemma frame_times_walk : frame_times 1 = Ok (times_of 30).
Proof. vm_compute. reflexivity. Qed.
Lemma frame_times_attack : frame_times 0.5 = Ok (times_of 15).
Proof. vm_compute. reflexivity. Qed.

Lemma Ok_inj {A} (a b : A) : Ok a = Ok b -> a = b.
Proof. by intros [= ->]. Qed.

Section AnimationFacts.
Context `{Platform}.

Lemma create_animations_shape bones mesh_height animations :
  create_animations bones mesh_height = Ok animations ->
  exists v1 v2 v3 v4 v5 v6 v7 v8 v9,
    animations =
      [ ("Idle"%string, [mkChannel 2 "rotation" (times_of 60) v1]);
        ("Walk"%string, [mkChannel 1 "translation" (times_of 30) v2;
                  mkChannel 14 "rotation" (times_of 30) v3;
                  mkChannel 17 "rotation" (times_of 30) v4;
                  mkChannel 7 "rotation" (times_of 30) v5;
                  mkChannel 11 "rotation" (times_of 30) v6]);
        ("Attack"%string, [mkChannel 11 "rotation" (times_of 15) v7;
                    mkChannel 12 "rotation" (times_of 15) v8;
                    mkChannel 3 "rotation" (times_of 15) v9]) ].
Proof.
  intros Ha. unfold create_animations in Ha.
  rewrite frame_times_idle, frame_times_walk, frame_times_attack in Ha.
  cbv [mbind result_bind fmap result_fmap] in Ha.
  destruct_result Ha. apply Ok_inj in Ha. rewrite <- Ha.
  by eexists _, _, _, _, _, _, _, _, _.
Qed.

(** C5. Every channel the synthesizer produces has a time array that
    starts at 0 and is strictly increasing, and the accessor built for it
    declares the first sample as [min] and the last as [max]. The same holds
    of the samples as the payload stores them, in binary32: they are still
    strictly increasing, and the first and the last are stored exactly. *)
Theorem C5_times (bones : list Bone) (mesh_height : pynum)
    (animations : list (string * list Channel)) (name : string)
    (channels : list Channel) (ch : Channel) :
  create_animations bones mesh_height = Ok animations ->
  In (name, channels) animations -> In ch channels ->
  exists first final,
    head (ch_times ch) = Some first /\ last (ch_times ch) = Some final /\
    first = 0%float /\
    increasing (ch_times ch) = true /\
    (forall bv, obj_times_accessor bv (ch_times ch) =
       Ok (JObj [("bufferView", JInt bv); ("componentType", JInt 5126);
                 ("count", JInt (len (ch_times ch))); ("type", JStr "SCALAR");
                 ("min", JArr [JFloat first]); ("max", JArr [JFloat final])]%string)) /\
    increasing (stored (ch_times ch)) = true /\
    head (stored (ch_times ch)) = Some first /\
    last (stored (ch_times ch)) = Some final.
Proof.
  intros Ha Hin Hch.
  destruct (create_animations_shape _ _ _ Ha)
    as (v1 & v2 & v3 & v4 & v5 & v6 & v7 & v8 & v9 & ->).
  assert (Ht : ch_times ch = times_of 60 \/ ch_times ch = times_of 30 \/
               ch_times ch = times_of 15).
  { simpl in Hin. destruct Hin as [E | [E | [E | Hf] ] ]; [| | |destruct Hf];
      injection E as <- <-; simpl in Hch; intuition (subst; simpl; auto). }
  destruct Ht as [-> | [-> | ->] ].
  - exists 0%float, 2%float.
    repeat split; vm_compute; reflexivity.
  - exists 0%float, 1%float.
    repeat split; vm_compute; reflexivity.
  - exists 0%float, 0.5%float.
    repeat split; vm_compute; reflexivity.
Qed.
End AnimationFacts.

Lemma C5_times_witness :
  exists ch first final,
    head (ch_times ch) = Some first /\ last (ch_times ch) = Some final /\
    first = 0%float /\
    increasing (ch_times ch) = true /\
    (forall bv, obj_times_accessor bv (ch_times ch) =
       Ok (JObj [("bufferView", JInt bv); ("componentType", JInt 5126);
                 ("count", JInt (len (ch_times ch))); ("type", JStr "SCALAR");
                 ("min", JArr [JFloat first]); ("max", JArr [JFloat final])]%string)) /\
    increasing (stored (ch_times ch)) = true /\
    head (stored (ch_times ch)) = Some first /\
    last (stored (ch_times ch)) = Some final.
Proof.
  eexists.
  eapply (C5_times (H:=Demo.platform) triangle_bones (PyFloat 1) _ "Walk").
  - vm_compute. reflexivity.
  - right. left. reflexivity.
  - left. reflexivity.
Defined.

(** ** Binary floating point: shifting and rounding

    What is needed of [SpecFloat]'s rounding, proved from its definitions:
    the number of binary digits, the right shift that keeps a round and a
    sticky bit, and the two properties of [binary_round_aux] used below (a
    number above the smallest subnormal does not round to zero; a finite
    result has its exponent at or above [fexp]). *)

Lemma digits2_pos_bounds (m : positive) :
  2 ^ (Z.pos (digits2_pos m) - 1) <= Z.pos m < 2 ^ Z.pos (digits2_pos m).
Proof.
  induction m as [m IH|m IH|]; cbn [digits2_pos].
  - rewrite Pos2Z.inj_succ.
    replace (Z.succ (Z.pos (digits2_pos m)) - 1) with (Z.succ (Z.pos (digits2_pos m) - 1)) by lia.
    rewrite !Z.pow_succ_r by lia. lia.
  - rewrite Pos2Z.inj_succ.
    replace (Z.succ (Z.pos (digits2_pos m)) - 1) with (Z.succ (Z.pos (digits2_pos m) - 1)) by lia.
    rewrite !Z.pow_succ_r by lia. lia.
  - simpl. lia.
Qed.

Lemma digits2_pos_unique (m : positive) (d : Z) :
  2 ^ (d - 1) <= Z.pos m < 2 ^ d -> Z.pos (digits2_pos m) = d.
Proof.
  intros [Hlo Hhi]. pose proof (digits2_pos_bounds m) as [Hlo' Hhi'].
  assert (0 < d).
  { destruct (Z.ltb_spec 0 d); [assumption|].
    destruct (Z.eqb_spec d 0) as [->|]; [simpl in Hhi; lia|].
    rewrite (Z.pow_neg_r 2 d) in Hhi by lia. lia. }
  destruct (Z.lt_trichotomy (Z.pos (digits2_pos m)) d) as [Hlt|[Heq|Hgt]]; [|assumption|].
  - assert (2 ^ Z.pos (digits2_pos m) <= 2 ^ (d - 1)) by (apply Z.pow_le_mono_r; lia). lia.
  - assert (2 ^ d <= 2 ^ (Z.pos (digits2_pos m) - 1)) by (apply Z.pow_le_mono_r; lia). lia.
Qed.

(** Shifting left by [k] adds [k] digits. *)
Lemma iter_xO_value (m k : positive) : Z.pos (Pos.iter xO m k) = Z.pos m * 2 ^ Z.pos k.
Proof.
  rewrite <- Pos2Z.inj_pow, <- Pos2Z.inj_mul. f_equal.
  revert m. induction k as [|k IH] using Pos.peano_ind; intros m.
  - simpl. lia.
  - rewrite Pos.iter_succ, Pos.pow_succ_r, IH. lia.
Qed.

Lemma iter_xO_digits (m k : positive) :
  Z.pos (digits2_pos (Pos.iter xO m k)) = Z.pos (digits2_pos m) + Z.pos k.
Proof.
  apply digits2_pos_unique. rewrite iter_xO_value.
  pose proof (digits2_pos_bounds m) as [Hlo Hhi].
  replace (Z.pos (digits2_pos m) + Z.pos k - 1) with ((Z.pos (digits2_pos m) - 1) + Z.pos k) by lia.
  rewrite !Z.pow_add_r by lia.
  assert (0 < 2 ^ Z.pos k) by (apply Z.pow_pos_nonneg; lia).
  split; [apply Z.mul_le_mono_nonneg_r; lia|apply Z.mul_lt_mono_pos_r; lia].
Qed.

(** One step of the right shift, on a non-negative mantissa. *)
Lemma shr_1_spec (r : shr_record) :
  0 <= shr_m r ->
  shr_m (shr_1 r) = shr_m r / 2 /\
  shr_r (shr_1 r) = Z.odd (shr_m r) /\
  shr_s (shr_1 r) = shr_r r || shr_s r.
Proof.
  destruct r as [m r s]. cbn [shr_m shr_r shr_s]. intros Hm.
  rewrite <- Z.div2_div.
  destruct m as [|[m|m|]|m]; try lia; simpl; auto.
Qed.

(** [iter_pos f n] is [f] applied [n] times: an invariant indexed by the
    number of steps moves along. *)
Lemma iter_pos_steps {A} (f : A -> A) (Q : Z -> A -> Prop) :
  (forall k x, 0 <= k -> Q k x -> Q (k + 1) (f x)) ->
  forall n k x, 0 <= k -> Q k x -> Q (k + Z.pos n) (SpecFloat.iter_pos f n x).
Proof.
  intros Hstep. induction n as [n IH|n IH|]; intros k x Hk Hq; cbn [SpecFloat.iter_pos].
  - replace (k + Z.pos n~1) with (k + 1 + Z.pos n + Z.pos n) by lia.
    apply IH; [lia|]. apply IH; [lia|]. by apply Hstep.
  - replace (k + Z.pos n~0) with (k + Z.pos n + Z.pos n) by lia.
    apply IH; [lia|]. by apply IH.
  - by apply Hstep.
Qed.

(** After [n] steps the mantissa is divided by [2^n]. *)
Lemma shr_iter_m (r : shr_record) (n : positive) :
  0 <= shr_m r ->
  shr_m (SpecFloat.iter_pos shr_1 n r) = shr_m r / 2 ^ Z.pos n.
Proof.
  intros Hm.
  pose (Q := fun (k : Z) (x : shr_record) => shr_m x = shr_m r / 2 ^ k).
  assert (HQ : Q (0 + Z.pos n) (SpecFloat.iter_pos shr_1 n r)).
  { apply iter_pos_steps; [|lia|].
    - intros k x Hk Hx. unfold Q in *.
      assert (Hp : 0 < 2 ^ k) by (apply Z.pow_pos_nonneg; lia).
      assert (Hpos : 0 <= shr_m x) by (rewrite Hx; apply Z.div_pos; lia).
      destruct (shr_1_spec x Hpos) as (H1 & _).
      rewrite H1, Hx, Z.pow_add_r, Z.div_div by lia. reflexivity.
    - unfold Q. by rewrite Z.pow_0_r, Z.div_1_r. }
  exact HQ.
Qed.

(** From an exact record, the round and sticky bits tell whether anything
    was lost. *)
Lemma shr_iter_bits (m : Z) (n : positive) :
  0 <= m ->
  let r := SpecFloat.iter_pos shr_1 n (Build_shr_record m false false) in
  shr_r r || shr_s r = negb (m mod 2 ^ Z.pos n =? 0).
Proof.
  intros Hm.
  pose (Q := fun (k : Z) (r : shr_record) =>
               shr_m r = m / 2 ^ k /\ shr_r r || shr_s r = negb (m mod 2 ^ k =? 0)).
  assert (HQ : Q (0 + Z.pos n) (SpecFloat.iter_pos shr_1 n (Build_shr_record m false false))).
  { apply iter_pos_steps; [|lia|].
    - intros k x Hk [Hxm Hxs].
      assert (Hp : 0 < 2 ^ k) by (apply Z.pow_pos_nonneg; lia).
      assert (Hpos : 0 <= shr_m x) by (rewrite Hxm; apply Z.div_pos; lia).
      destruct (shr_1_spec x Hpos) as (H1 & H2 & H3).
      split.
      + rewrite H1, Hxm, Z.pow_add_r, Z.div_div by lia. reflexivity.
      + rewrite H2, H3, Hxs, Hxm.
        rewrite Z.pow_add_r by lia. change (2 ^ 1) with 2.
        rewrite Z.rem_mul_r by lia.
        rewrite (Zmod_odd (m / 2 ^ k)).
        pose proof (Z.mod_pos_bound m (2 ^ k) Hp).
        destruct (Z.odd (m / 2 ^ k)); destruct (Z.eqb_spec (m mod 2 ^ k) 0) as [E|E];
          cbn [orb negb].
        * destruct (Z.eqb_spec (m mod 2 ^ k + 2 ^ k * 1) 0); [lia|reflexivity].
        * destruct (Z.eqb_spec (m mod 2 ^ k + 2 ^ k * 1) 0); [lia|reflexivity].
        * destruct (Z.eqb_spec (m mod 2 ^ k + 2 ^ k * 0) 0); [reflexivity|lia].
        * destruct (Z.eqb_spec (m mod 2 ^ k + 2 ^ k * 0) 0); [lia|reflexivity].
    - split; [by rewrite Z.pow_0_r, Z.div_1_r|].
      by rewrite Z.pow_0_r, Z.mod_1_r. }
  apply HQ.
Qed.

Lemma Zdigits2_bounds (m : Z) :
  0 < m -> 2 ^ (Zdigits2 m - 1) <= m < 2 ^ Zdigits2 m.
Proof. destruct m; try lia. intros _. apply digits2_pos_bounds. Qed.

Lemma Zdigits2_unique (m d : Z) :
  0 < m -> 2 ^ (d - 1) <= m < 2 ^ d -> Zdigits2 m = d.
Proof. destruct m; try lia. intros _. apply digits2_pos_unique. Qed.

Lemma Zdigits2_pos (m : Z) : 0 < m -> 0 < Zdigits2 m.
Proof. destruct m; simpl; lia. Qed.

(** Dropping [n] low digits of a number that has more than [n]. *)
Lemma Zdigits2_div (m n : Z) :
  0 < m -> 0 <= n < Zdigits2 m ->
  0 < m / 2 ^ n /\ Zdigits2 (m / 2 ^ n) = Zdigits2 m - n.
Proof.
  intros Hm Hn. pose proof (Zdigits2_bounds m Hm) as [Hlo Hhi].
  assert (Hp : 0 < 2 ^ n) by (apply Z.pow_pos_nonneg; lia).
  assert (Hlo' : 2 ^ (Zdigits2 m - n - 1) <= m / 2 ^ n).
  { apply Z.div_le_lower_bound; [lia|].
    rewrite <- Z.pow_add_r by lia.
    replace (n + (Zdigits2 m - n - 1)) with (Zdigits2 m - 1) by lia. exact Hlo. }
  assert (Hhi' : m / 2 ^ n < 2 ^ (Zdigits2 m - n)).
  { apply Z.div_lt_upper_bound; [lia|].
    rewrite <- Z.pow_add_r by lia.
    replace (n + (Zdigits2 m - n)) with (Zdigits2 m) by lia. exact Hhi. }
  assert (0 < 2 ^ (Zdigits2 m - n - 1)) by (apply Z.pow_pos_nonneg; lia).
  split; [lia|]. apply Zdigits2_unique; [lia|]. split; assumption.
Qed.

(** Dropping all the digits leaves nothing. *)
Lemma Zdigits2_div_small (m n : Z) :
  0 < m -> Zdigits2 m <= n -> m / 2 ^ n = 0.
Proof.
  intros Hm Hn. pose proof (Zdigits2_bounds m Hm) as [_ Hhi].
  pose proof (Zdigits2_pos m Hm).
  apply Z.div_small. split; [lia|].
  assert (2 ^ Zdigits2 m <= 2 ^ n) by (apply Z.pow_le_mono_r; lia). lia.
Qed.

Section Rounding.
Variables prec emax : Z.
Hypothesis prec_pos : 0 < prec.

Lemma fexp_ge_emin e : SpecFloat.emin prec emax <= fexp prec emax e.
Proof. unfold fexp. lia. Qed.

(** [shr_fexp] on a positive mantissa: either nothing moves, or the
    mantissa loses [n] low digits and the exponent becomes [fexp]. *)
Lemma shr_fexp_spec (m e : Z) (l : location) :
  0 < m ->
  let n := fexp prec emax (Zdigits2 m + e) - e in
  (n <= 0 /\ shr_fexp prec emax m e l = (shr_record_of_loc m l, e)) \/
  (0 < n /\ exists r, shr_fexp prec emax m e l = (r, e + n) /\ shr_m r = m / 2 ^ n /\
            (l = loc_Exact -> shr_r r || shr_s r = negb (m mod 2 ^ n =? 0))).
Proof.
  intros Hm n. unfold shr_fexp, shr. fold n.
  destruct n as [|np|np] eqn:En.
  - left. split; [lia|reflexivity].
  - right. split; [lia|]. eexists. split; [reflexivity|]. split.
    + rewrite shr_iter_m; destruct l as [|[]]; cbn [shr_record_of_loc shr_m]; lia.
    + intros ->. cbn [shr_record_of_loc]. apply shr_iter_bits. lia.
  - left. split; [lia|reflexivity].
Qed.

(** The mantissa that comes out of [shr_fexp], when it is not zero,
    stands for a number of the same magnitude, and its exponent is at or
    above [fexp]. *)
Lemma shr_fexp_canonical (m e : Z) (l : location) r e' q :
  0 < m ->
  shr_fexp prec emax m e l = (r, e') -> shr_m r = Z.pos q ->
  Z.pos (digits2_pos q) + e' = Zdigits2 m + e /\
  fexp prec emax (Z.pos (digits2_pos q) + e') <= e'.
Proof.
  intros Hm Hs Hq.
  destruct (shr_fexp_spec m e l Hm) as [[Hn E]|[Hn (r' & E & Hr & _)]];
    rewrite E in Hs; injection Hs as <- <-.
  - assert (Z.pos q = m) by (rewrite <- Hq; destruct l as [|[]]; reflexivity). subst m.
    cbn [Zdigits2] in *. lia.
  - set (n := fexp prec emax (Zdigits2 m + e) - e) in *.
    destruct (Z.ltb_spec n (Zdigits2 m)) as [Hlt|Hge].
    + destruct (Zdigits2_div m n Hm ltac:(lia)) as [_ Hd].
      rewrite <- Hr, Hq in Hd. cbn [Zdigits2] in Hd. rewrite Hd.
      replace (Zdigits2 m - n + (e + n)) with (Zdigits2 m + e) by lia.
      unfold n. lia.
    + rewrite Zdigits2_div_small in Hr by lia. lia.
Qed.

(** A number above the smallest subnormal keeps a non-zero mantissa. *)
Lemma shr_fexp_pos (m e : Z) (l : location) r e' :
  0 < m -> SpecFloat.emin prec emax < Zdigits2 m + e ->
  shr_fexp prec emax m e l = (r, e') ->
  0 < shr_m r /\ SpecFloat.emin prec emax <= e'.
Proof.
  intros Hm Hmag Hs.
  pose proof (fexp_ge_emin (Zdigits2 m + e)) as Hf.
  destruct (shr_fexp_spec m e l Hm) as [[Hn E]|[Hn (r' & E & Hr & _)]];
    rewrite E in Hs; injection Hs as <- <-.
  - split; [destruct l as [|[]]; cbn [shr_record_of_loc shr_m]; lia|lia].
  - split; [|lia]. rewrite Hr.
    apply Zdigits2_div; [assumption|]. unfold fexp in *. lia.
Qed.

Lemma round_nearest_even_bounds (m : Z) (l : location) :
  m <= round_nearest_even m l <= m + 1.
Proof. destruct l as [|[]]; cbn [round_nearest_even]; try lia. destruct (Z.even m); lia. Qed.

(** A positive number above the smallest subnormal does not round to
    zero: the result is finite or infinite, with the sign given. *)
Lemma binary_round_aux_pos (s : bool) (m e : Z) (l : location) :
  0 < m -> SpecFloat.emin prec emax < Zdigits2 m + e ->
  (exists m' e', binary_round_aux prec emax s m e l = S754_finite s m' e') \/
  binary_round_aux prec emax s m e l = S754_infinity s.
Proof.
  intros Hm Hmag. unfold binary_round_aux.
  destruct (shr_fexp prec emax m e l) as [r1 e1] eqn:E1.
  destruct (shr_fexp_pos m e l r1 e1 Hm Hmag E1) as [Hr1 He1].
  pose proof (round_nearest_even_bounds (shr_m r1) (loc_of_shr_record r1)) as Hrne.
  set (m1 := round_nearest_even (shr_m r1) (loc_of_shr_record r1)) in *.
  destruct (shr_fexp prec emax m1 e1 loc_Exact) as [r2 e2] eqn:E2.
  assert (Hm1 : 0 < m1) by lia.
  pose proof (Zdigits2_pos m1 Hm1).
  destruct (shr_fexp_pos m1 e1 loc_Exact r2 e2 Hm1 ltac:(lia) E2) as [Hr2 _].
  destruct (shr_m r2) as [|q|q]; try lia.
  destruct (e2 <=? emax - prec); eauto.
Qed.

(** A finite result has the sign given, an exponent at or above [fexp]
    and at most [emax - prec]. *)
Lemma binary_round_aux_finite (s : bool) (m e : Z) (l : location) s' m' e' :
  0 < m ->
  binary_round_aux prec emax s m e l = S754_finite s' m' e' ->
  s' = s /\ fexp prec emax (Z.pos (digits2_pos m') + e') <= e' <= emax - prec.
Proof.
  intros Hm. unfold binary_round_aux.
  destruct (shr_fexp prec emax m e l) as [r1 e1] eqn:E1.
  set (m1 := round_nearest_even (shr_m r1) (loc_of_shr_record r1)) in *.
  destruct (shr_fexp prec emax m1 e1 loc_Exact) as [r2 e2] eqn:E2.
  destruct (shr_m r2) as [|q|q] eqn:Eq; try discriminate.
  destruct (Z.leb_spec e2 (emax - prec)); [|discriminate].
  intros [= <- <- <-]. split; [reflexivity|]. split; [|assumption].
  assert (Hm1 : 0 < m1).
  { destruct (Z.ltb_spec 0 m1); [assumption|exfalso].
    assert (Hr1 : 0 <= shr_m r1).
    { destruct (shr_fexp_spec m e l Hm) as [[_ E]|[Hn (r' & E & Hr & _)]];
        rewrite E in E1; injection E1 as <- <-.
      - destruct l as [|[]]; cbn [shr_record_of_loc shr_m]; lia.
      - rewrite Hr. apply Z.div_pos; [lia|apply Z.pow_pos_nonneg; lia]. }
    pose proof (round_nearest_even_bounds (shr_m r1) (loc_of_shr_record r1)) as Hb.
    fold m1 in Hb. assert (Hz : m1 = 0) by lia.
    rewrite Hz in E2. unfold shr_fexp, shr in E2. cbn [Zdigits2 shr_record_of_loc] in E2.
    destruct (fexp prec emax (0 + e1) - e1) as [|np|np]; injection E2 as <- <-;
      cbn [shr_m] in Eq; try discriminate.
    rewrite shr_iter_m in Eq by (cbn; lia). cbn [shr_m] in Eq.
    rewrite Z.div_0_l in Eq; [discriminate|].
    apply Z.pow_nonzero; lia. }
  apply (shr_fexp_canonical m1 e1 loc_Exact r2 e2 q Hm1 E2 Eq).
Qed.
Lemma Zdigits2_mul_pow2 (q n : Z) :
  0 < q -> 0 <= n -> Zdigits2 (q * 2 ^ n) = Zdigits2 q + n.
Proof.
  intros Hq Hn. pose proof (Zdigits2_bounds q Hq) as [Hlo Hhi].
  pose proof (Zdigits2_pos q Hq).
  assert (Hp : 0 < 2 ^ n) by (apply Z.pow_pos_nonneg; lia).
  apply Zdigits2_unique; [nia|].
  replace (Zdigits2 q + n - 1) with ((Zdigits2 q - 1) + n) by lia.
  rewrite !Z.pow_add_r by lia.
  split; [apply Z.mul_le_mono_nonneg_r; lia|apply Z.mul_lt_mono_pos_r; lia].
Qed.

Lemma shr_bits_false (r : shr_record) :
  shr_r r || shr_s r = false -> loc_of_shr_record r = loc_Exact.
Proof. destruct r as [m [] []]; cbn; intros; try discriminate; reflexivity. Qed.

(** Rounding a number that is representable gives that number: when the
    mantissa is [q * 2^n] and [fexp] asks for exactly [n] digits less, the
    result is [q] with the exponent raised by [n]. *)
Lemma binary_round_aux_exact (s : bool) (q : positive) (n e : Z) :
  0 <= n ->
  fexp prec emax (Zdigits2 (Z.pos q * 2 ^ n) + e) = e + n ->
  e + n <= emax - prec ->
  binary_round_aux prec emax s (Z.pos q * 2 ^ n) e loc_Exact = S754_finite s q (e + n).
Proof.
  intros Hn Hf He.
  assert (Hp : 0 < 2 ^ n) by (apply Z.pow_pos_nonneg; lia).
  assert (Hm : 0 < Z.pos q * 2 ^ n) by nia.
  unfold binary_round_aux.
  assert (E1 : exists r1, shr_fexp prec emax (Z.pos q * 2 ^ n) e loc_Exact = (r1, e + n) /\
                          shr_m r1 = Z.pos q /\ loc_of_shr_record r1 = loc_Exact).
  { destruct (shr_fexp_spec (Z.pos q * 2 ^ n) e loc_Exact Hm) as [[Hle E]|[Hlt (r & E & Hr & Hb)]];
      rewrite Hf in *.
    - assert (n = 0) by lia. subst n. rewrite Z.add_0_r, Z.pow_0_r, Z.mul_1_r in *.
      eexists. split; [exact E|]. split; reflexivity.
    - replace (e + n - e) with n in * by lia.
      exists r. split; [exact E|]. split.
      + rewrite Hr. apply Z.div_mul. lia.
      + apply shr_bits_false. rewrite (Hb eq_refl).
        rewrite Z.mod_mul by lia. reflexivity. }
  destruct E1 as (r1 & -> & Hr1 & Hl1). rewrite Hr1, Hl1.
  cbn [round_nearest_even].
  assert (Hd : Zdigits2 (Z.pos q) + (e + n) = Zdigits2 (Z.pos q * 2 ^ n) + e)
    by (rewrite Zdigits2_mul_pow2 by lia; lia).
  destruct (shr_fexp_spec (Z.pos q) (e + n) loc_Exact ltac:(lia)) as [[_ E]|[Hlt _]].
  - rewrite E. cbn [shr_record_of_loc shr_m].
    destruct (Z.leb_spec (e + n) (emax - prec)); [reflexivity|lia].
  - rewrite Hd, Hf in Hlt. lia.
Qed.

Lemma shl_align_spec (mx : positive) (ex ex' : Z) :
  let '(mz, ez) := shl_align mx ex ex' in
  ez <= ex /\ ez <= Z.max ex ex' /\ (ex' <= ex -> ez = ex') /\
  Z.pos mz = Z.pos mx * 2 ^ (ex - ez).
Proof.
  unfold shl_align. destruct (ex' - ex) as [|d|d] eqn:E.
  - rewrite Z.sub_diag, Z.pow_0_r. lia.
  - rewrite Z.sub_diag, Z.pow_0_r. lia.
  - rewrite iter_xO_value. replace (ex - ex') with (Z.pos d) by lia. lia.
Qed.

(** [binary_round] first widens the mantissa, then rounds. *)
Lemma binary_round_pos (s : bool) (mx : positive) (ex : Z) :
  SpecFloat.emin prec emax < Z.pos (digits2_pos mx) + ex ->
  (exists m' e', binary_round prec emax s mx ex = S754_finite s m' e') \/
  binary_round prec emax s mx ex = S754_infinity s.
Proof.
  intros Hmag. unfold binary_round.
  pose proof (shl_align_spec mx ex (fexp prec emax (Z.pos (digits2_pos mx) + ex))) as Hs.
  destruct (shl_align mx ex (fexp prec emax (Z.pos (digits2_pos mx) + ex))) as [mz ez].
  destruct Hs as (Hle & _ & _ & Hz).
  apply binary_round_aux_pos; [lia|].
  rewrite Hz, Zdigits2_mul_pow2 by lia. cbn [Zdigits2]. lia.
Qed.

Lemma binary_round_finite (s : bool) (mx : positive) (ex : Z) s' m' e' :
  binary_round prec emax s mx ex = S754_finite s' m' e' ->
  s' = s /\ fexp prec emax (Z.pos (digits2_pos m') + e') <= e' <= emax - prec.
Proof.
  unfold binary_round.
  destruct (shl_align mx ex (fexp prec emax (Z.pos (digits2_pos mx) + ex))) as [mz ez].
  apply binary_round_aux_finite. lia.
Qed.

(** A representable number is its own rounding: with room below, the
    mantissa is widened to the exponent [fexp] asks for; with digits to
    spare that are all zero, they are dropped. *)
Lemma binary_round_exact_up (s : bool) (mx q : positive) (e : Z) :
  let e0 := fexp prec emax (Z.pos (digits2_pos mx) + e) in
  e0 <= e -> e0 <= emax - prec ->
  Z.pos q = Z.pos mx * 2 ^ (e - e0) ->
  binary_round prec emax s mx e = S754_finite s q e0.
Proof.
  intros e0 He0 Hmax Hq. unfold binary_round. fold e0.
  pose proof (shl_align_spec mx e e0) as Hs.
  destruct (shl_align mx e e0) as [mz ez].
  destruct Hs as (_ & _ & Heq & Hz). rewrite (Heq He0) in *.
  assert (mz = q) by lia. subst mz.
  pose proof (binary_round_aux_exact s q 0 e0 ltac:(lia)) as Hx.
  rewrite Z.pow_0_r, Z.mul_1_r, Z.add_0_r in Hx. apply Hx; [|assumption].
  cbn [Zdigits2]. change (Z.pos (digits2_pos q)) with (Zdigits2 (Z.pos q)).
  rewrite Hq, Zdigits2_mul_pow2 by lia. cbn [Zdigits2].
  replace (Z.pos (digits2_pos mx) + (e - e0) + e0) with (Z.pos (digits2_pos mx) + e) by lia.
  reflexivity.
Qed.

Lemma binary_round_exact_down (s : bool) (mx q : positive) (e : Z) :
  let e0 := fexp prec emax (Z.pos (digits2_pos mx) + e) in
  e <= e0 -> e0 <= emax - prec ->
  Z.pos mx = Z.pos q * 2 ^ (e0 - e) ->
  binary_round prec emax s mx e = S754_finite s q e0.
Proof.
  intros e0 He0 Hmax Hq. unfold binary_round. fold e0.
  pose proof (shl_align_spec mx e e0) as Hs.
  destruct (shl_align mx e e0) as [mz ez] eqn:Es.
  assert (mz = mx /\ ez = e) as [-> ->].
  { unfold shl_align in Es. destruct (e0 - e) eqn:E; try lia; by injection Es as <- <-. }
  clear Hs. rewrite Hq.
  replace e0 with (e + (e0 - e)) at 2 by lia.
  apply binary_round_aux_exact; [lia| |lia].
  rewrite <- Hq. cbn [Zdigits2]. fold e0. lia.
Qed.
End Rounding.

(** ** Doubles that hold a binary32 number *)

Lemma Prim2SF_SF2Prim_special (y : spec_float) :
  match y with S754_finite _ _ _ => False | _ => True end ->
  Prim2SF (SF2Prim y) = y.
Proof. intros Hy. apply Prim2SF_SF2Prim. destruct y; try reflexivity. destruct Hy. Qed.

(** A double that was made from a binary32 number packs without
    overflow. This is why the weights, which come back from a float32
    array, can always be written to the payload. *)
Lemma f32_overflow_of_f32 (x : float) : f32_overflow (of_f32 (to_f32 x)) = false.
Proof.
  assert (Hspecial : forall y, match y with S754_finite _ _ _ => False | _ => True end ->
                               f32_overflow (SF2Prim y) = false).
  { intros y Hy. unfold f32_overflow. rewrite (Prim2SF_SF2Prim_special y Hy).
    destruct y; try reflexivity. destruct Hy. }
  unfold to_f32. destruct (Prim2SF x) as [s|s| |s m e] eqn:Ex;
    try (apply Hspecial; exact I).
  destruct (binary_round prec32 emax32 s m e) as [s'|s'| |s' m' e'] eqn:Ey;
    try (apply Hspecial; exact I).
  apply binary_round_finite in Ey. destruct Ey as (-> & Hlo & Hhi).
  unfold prec32, emax32, fexp, SpecFloat.emin in Hlo, Hhi.
  pose proof (Pos2Z.is_pos (digits2_pos m')) as Hd.
  set (d := Z.pos (digits2_pos m')) in *.
  cbn [of_f32].
  (* the double: the mantissa widened to 53 bits *)
  set (e0 := fexp prec emax (d + e')).
  assert (He0 : e0 = d + e' - 53) by (unfold e0, fexp, SpecFloat.emin, prec, emax; lia).
  assert (Hq : 0 < Z.pos m' * 2 ^ (e' - e0)).
  { assert (0 < 2 ^ (e' - e0)) by (apply Z.pow_pos_nonneg; lia). nia. }
  destruct (Z.pos m' * 2 ^ (e' - e0)) as [|q|] eqn:Eq; try lia.
  rewrite (binary_round_exact_up prec emax s m' q e');
    fold d; fold e0; [|unfold prec, emax; lia..|by rewrite Eq].
  assert (Hdq : Z.pos (digits2_pos q) = d + (e' - e0)).
  { change (Zdigits2 (Z.pos q) = d + (e' - e0)). rewrite <- Eq.
    rewrite Zdigits2_mul_pow2 by lia. reflexivity. }
  assert (Hvalid : valid_binary (S754_finite s q e0) = true).
  { cbn [valid_binary]. unfold bounded, canonical_mantissa. rewrite Hdq.
    replace (d + (e' - e0) + e0) with (d + e') by lia. fold e0.
    rewrite Z.eqb_refl. cbn [andb]. apply Z.leb_le. unfold prec, emax. lia. }
  unfold f32_overflow, to_f32. rewrite (Prim2SF_SF2Prim _ Hvalid).
  (* back to binary32: the zero digits are dropped *)
  set (e1 := fexp prec32 emax32 (d + e')).
  assert (He1 : e0 <= e1 <= e')
    by (unfold e1, fexp, SpecFloat.emin, prec32, emax32; lia).
  assert (Hq2 : 0 < Z.pos m' * 2 ^ (e' - e1)).
  { assert (0 < 2 ^ (e' - e1)) by (apply Z.pow_pos_nonneg; lia). nia. }
  destruct (Z.pos m' * 2 ^ (e' - e1)) as [|q2|] eqn:Eq2; try lia.
  rewrite (binary_round_exact_down prec32 emax32 s q q2 e0);
    rewrite ?Hdq; replace (d + (e' - e0) + e0) with (d + e') by lia; fold e1.
  - reflexivity.
  - lia.
  - unfold prec32, emax32. lia.
  - rewrite <- Eq2, <- Eq, <- Z.mul_assoc, <- Z.pow_add_r by lia.
    f_equal. f_equal. lia.
Qed.

(** ** Signs of sums, quotients and square roots of doubles *)

Lemma ltb_zero_positive (w : float) :
  PrimFloat.ltb 0 w = true <-> positive_sf (Prim2SF w).
Proof.
  rewrite ltb_spec. change (Prim2SF 0) with (S754_zero false).
  unfold SFltb, SFcompare, positive_sf.
  destruct (Prim2SF w) as [s|[]| |[] m e]; split; try easy.
Qed.

Lemma valid_exponent (x : float) s m e :
  Prim2SF x = S754_finite s m e ->
  SpecFloat.emin prec emax <= e <= emax - prec /\
  Z.pos (digits2_pos m) <= prec /\ Z.pos (digits2_pos m) + e <= emax.
Proof.
  intros Hx. pose proof (Prim2SF_valid x) as Hv. rewrite Hx in Hv.
  cbn [valid_binary] in Hv. unfold bounded, canonical_mantissa in Hv.
  apply andb_prop in Hv as [Hc Hb]. apply Z.eqb_eq in Hc. apply Z.leb_le in Hb.
  unfold fexp in Hc. unfold SpecFloat.emin, prec, emax in *. lia.
Qed.

Lemma binary_round_aux_nonneg p em m e l :
  nonneg_sf (binary_round_aux p em false m e l).
Proof.
  unfold binary_round_aux.
  destruct (shr_fexp p em m e l) as [r1 e1].
  destruct (shr_fexp p em _ e1 loc_Exact) as [r2 e2].
  destruct (shr_m r2); cbn; try exact I.
  destruct (e2 <=? em - p); exact I.
Qed.

Lemma sqrt_nonneg (v : float) : nonneg_sf (Prim2SF (PrimFloat.sqrt v)).
Proof.
  rewrite sqrt_spec. unfold SF64sqrt, SFsqrt.
  destruct (Prim2SF v) as [s|[]| |[] m e]; try exact I.
  destruct (SFsqrt_core_binary prec emax (Z.pos m) e) as [[mz ez] lz].
  apply binary_round_aux_nonneg.
Qed.

(** The sum of two positive finite doubles. *)
Lemma SFadd_finite_positive (x y : float) mx ex my ey :
  Prim2SF x = S754_finite false mx ex -> Prim2SF y = S754_finite false my ey ->
  positive_sf (Prim2SF (x + y)).
Proof.
  intros Hx Hy. rewrite add_spec, Hx, Hy. unfold SF64add, SFadd.
  destruct (valid_exponent x _ _ _ Hx) as (Hex & _).
  destruct (valid_exponent y _ _ _ Hy) as (Hey & _).
  cbn [cond_Zopp]. rewrite <- Pos2Z.inj_add. cbn [binary_normalize].
  set (mz := (_ + _)%positive).
  destruct (binary_round_pos prec emax ltac:(unfold prec; lia) false mz (Z.min ex ey))
    as [(m' & e' & ->)| ->]; try exact I.
  pose proof (Pos2Z.is_pos (digits2_pos mz)). lia.
Qed.

Lemma add_positive (x y : float) :
  positive_sf (Prim2SF x) -> positive_sf (Prim2SF y) -> positive_sf (Prim2SF (x + y)).
Proof.
  intros Hx Hy.
  destruct (Prim2SF x) as [s|[]| |[] mx ex] eqn:Ex; try destruct Hx;
    destruct (Prim2SF y) as [s'|[]| |[] my ey] eqn:Ey; try destruct Hy.
  - rewrite add_spec, Ex, Ey. exact I.
  - rewrite add_spec, Ex, Ey. exact I.
  - rewrite add_spec, Ex, Ey. exact I.
  - by eapply SFadd_finite_positive.
Qed.

Lemma zero_add_positive (y : float) :
  positive_sf (Prim2SF y) -> positive_sf (Prim2SF (0 + y)).
Proof.
  intros Hy. rewrite add_spec. change (Prim2SF 0) with (S754_zero false).
  destruct (Prim2SF y) as [s'|[]| |[] my ey] eqn:Ey; try destruct Hy; exact I.
Qed.

(** The sum [np_sum] makes of positive doubles is positive. *)
Lemma np_sum_positive (ws : list float) :
  ws <> [] -> Forall (fun w => PrimFloat.ltb 0 w = true) ws ->
  PrimFloat.ltb 0 (np_sum ws) = true.
Proof.
  intros Hne Hws. destruct ws as [|w ws]; [contradiction|].
  apply Forall_cons in Hws as [Hw Hws]. unfold np_sum. cbn [fold_left].
  assert (Hacc : positive_sf (Prim2SF (0 + w)))
    by (apply zero_add_positive; by apply ltb_zero_positive).
  clear Hne Hw. revert Hacc. generalize (0 + w)%float as acc.
  induction Hws as [|w' ws Hw' _ IH]; intros acc Hacc; cbn [fold_left].
  - by apply ltb_zero_positive.
  - apply IH. apply add_positive; [assumption|by apply ltb_zero_positive].
Qed.

Lemma is_finite_spec (y : float) :
  is_finite y = true ->
  match Prim2SF y with
  | S754_nan | S754_infinity _ => False
  | _ => True
  end.
Proof.
  unfold is_finite, is_nan, is_infinity.
  rewrite !FloatAxioms.eqb_spec, abs_spec. change (Prim2SF infinity) with (S754_infinity false).
  destruct (Prim2SF y) as [s|[]| |s m e]; cbn; try discriminate; auto.
Qed.

(** The distance plus epsilon, when it is finite, is a positive finite
    double. *)
Lemma distance_plus_epsilon (v : float) :
  is_finite (PrimFloat.sqrt v + 0.001) = true ->
  exists m e, Prim2SF (PrimFloat.sqrt v + 0.001) = S754_finite false m e.
Proof.
  intros Hfin. apply is_finite_spec in Hfin.
  pose proof (sqrt_nonneg v) as Hd.
  destruct (Prim2SF (PrimFloat.sqrt v)) as [s|[]| |[] m e] eqn:Ed; try destruct Hd.
  - rewrite add_spec, Ed in *. cbn. eauto.
  - rewrite add_spec, Ed in Hfin. destruct Hfin.
  - rewrite add_spec, Ed in Hfin. destruct Hfin.
  - assert (E0 : Prim2SF 0.001 = S754_finite false 4611686018427388 (-62)) by reflexivity.
    pose proof (SFadd_finite_positive _ _ _ _ _ _ Ed E0) as Hp.
    destruct (Prim2SF (PrimFloat.sqrt v + 0.001)) as [s'|[]| |[] m' e']; try destruct Hp;
      try destruct Hfin.
    eauto.
Qed.

(** One over a positive finite double is positive: the quotient is at
    least [2^-1024], above the smallest subnormal. *)
Lemma one_div_positive (y : float) my ey :
  Prim2SF y = S754_finite false my ey -> positive_sf (Prim2SF (1 / y)).
Proof.
  intros Hy. destruct (valid_exponent y _ _ _ Hy) as (Hey & Hd2 & Hmag).
  rewrite div_spec, Hy. change (Prim2SF 1) with (S754_finite false 4503599627370496 (-52)).
  unfold SF64div, SFdiv. cbn [xorb].
  destruct (SFdiv_core_binary prec emax 4503599627370496 (-52) (Z.pos my) ey)
    as [[q e'] l] eqn:Ediv.
  unfold SFdiv_core_binary in Ediv. cbn [Zdigits2] in Ediv.
  change (Z.pos (digits2_pos 4503599627370496)) with 53 in Ediv.
  pose proof (Pos2Z.is_pos (digits2_pos my)) as Hd2pos.
  pose proof (digits2_pos_bounds my) as [_ Hmy].
  set (d2 := Z.pos (digits2_pos my)) in *.
  unfold fexp, SpecFloat.emin, prec, emax in *.
  set (e0 := Z.min (Z.max (53 + -52 - (d2 + ey) - 53) (3 - 1024 - 53)) (-52 - ey)) in *.
  set (s := -52 - ey - e0) in *.
  assert (Hs : 1 <= s /\ d2 <= 52 + s /\ s <= d2) by (unfold s, e0; lia).
  destruct s as [|sp|sp] eqn:Es; try lia. rewrite <- Es in *.
  rewrite Z.shiftl_mul_pow2 in Ediv by lia.
  destruct (Z.div_eucl (4503599627370496 * 2 ^ s) (Z.pos my)) as [q' r] eqn:Eq.
  injection Ediv as -> <- _.
  assert (Hq : q = 4503599627370496 * 2 ^ s / Z.pos my) by (unfold Z.div; by rewrite Eq).
  (* q >= 2^(52 + s - d2) *)
  set (k := 52 + s - d2).
  assert (Hk : 2 ^ k <= q).
  { rewrite Hq. apply Z.div_le_lower_bound; [lia|].
    change 4503599627370496 with (2 ^ 52). rewrite <- Z.pow_add_r by lia.
    replace (52 + s) with (d2 + k) by (unfold k; lia).
    rewrite Z.pow_add_r by (unfold k; lia).
    assert (0 < 2 ^ k) by (apply Z.pow_pos_nonneg; unfold k; lia).
    nia. }
  assert (Hkpos : 0 < 2 ^ k) by (apply Z.pow_pos_nonneg; unfold k; lia).
  assert (Hdq : k < Zdigits2 q).
  { destruct (Z.ltb_spec k (Zdigits2 q)); [assumption|exfalso].
    pose proof (Zdigits2_bounds q ltac:(lia)) as [_ Hhi].
    pose proof (Zdigits2_pos q ltac:(lia)).
    assert (2 ^ Zdigits2 q <= 2 ^ k) by (apply Z.pow_le_mono_r; lia). lia. }
  destruct (binary_round_aux_pos 53 1024 ltac:(lia) false q e0 l) as [(m' & e'' & ->)| ->];
    try exact I; [lia|].
  unfold SpecFloat.emin. unfold k, s in *. lia.
Qed.

(** ** The skin weights *)

(** An unnormalized weight [1 / (d + 0.001)] is strictly positive whenever
    the distance [d] numpy computed, plus epsilon, is finite. *)
Theorem inv_dist_positive (bone_positions : list (list float)) (pos : list float)
    (i : nat) (d : float) :
  distances bone_positions pos !! i = Some d ->
  is_finite (d + 0.001) = true ->
  inv_dist bone_positions pos !! i = Some (1 / (d + 0.001))%float /\
  PrimFloat.ltb 0 (1 / (d + 0.001)) = true.
Proof.
  intros Hd Hfin. split.
  - unfold inv_dist. by rewrite list_lookup_fmap, Hd.
  - unfold distances in Hd. rewrite list_lookup_fmap in Hd.
    destruct (bone_positions !! i) as [b|]; [|discriminate].
    injection Hd as <-. unfold np_norm in *.
    destruct (distance_plus_epsilon _ Hfin) as (m & e & Hy).
    apply ltb_zero_positive. by eapply one_div_positive.
Qed.

Lemma inv_dist_positive_witness :
  inv_dist triangle_bone_positions [0; 0; 0]%float !! 0%nat
    = Some (1 / (0.5 + 0.001))%float /\
  PrimFloat.ltb 0 (1 / (0.5 + 0.001)) = true.
Proof.
  apply (inv_dist_positive triangle_bone_positions [0; 0; 0]%float 0%nat 0.5%float).
  - vm_compute. reflexivity.
  - vm_compute. reflexivity.
Defined.

(** When the selected weights are strictly positive (and there is at least
    one), their sum is strictly positive, so the normalization branch is
    taken: every weight is divided by the sum. *)
Theorem normalize_divides (top_weights : list float) :
  top_weights <> [] ->
  Forall (fun w => PrimFloat.ltb 0 w = true) top_weights ->
  PrimFloat.ltb 0 (np_sum top_weights) = true /\
  normalize top_weights = map (fun w => w / np_sum top_weights)%float top_weights.
Proof.
  intros Hne Hpos.
  pose proof (np_sum_positive top_weights Hne Hpos) as Hsum.
  split; [assumption|]. unfold normalize. by rewrite Hsum.
Qed.

Lemma normalize_divides_witness :
  PrimFloat.ltb 0 (np_sum [1; 2; 3; 4]%float) = true /\
  normalize [1; 2; 3; 4]%float = map (fun w => w / np_sum [1; 2; 3; 4])%float [1; 2; 3; 4]%float.
Proof.
  apply (normalize_divides [1; 2; 3; 4]%float).
  - discriminate.
  - repeat constructor.
Defined.

(** C9 (as stated) fails. Finite coordinates do not make the distance
    finite: for the vertex (1e200, 0, 0) the squares overflow, every
    unnormalized weight is exactly zero, the sum of the selected four is not
    positive, and the weights are emitted as they are, not normalized. *)
Lemma C9_counterexample :
  forallb is_finite far_vertex = true /\
  distances triangle_bone_positions far_vertex = replicate 20 infinity /\
  inv_dist triangle_bone_positions far_vertex = replicate 20 0%float /\
  PrimFloat.ltb 0 (np_sum [0; 0; 0; 0]%float) = false /\
  normalize [0; 0; 0; 0]%float = [0; 0; 0; 0]%float /\
  snd <$> compute_skin_weights (H:=Demo.platform) [map PyFloat far_vertex] triangle_bones 4
    = Ok [0; 0; 0; 0]%float.
Proof. vm_compute. repeat split; reflexivity. Qed.

(** ** The container codec at its edges *)

Lemma unpack_II_short (b : list byte) : len b <> 8 -> unpack_II b = Raise StructError.
Proof. intros Hb. unfold unpack_II. by destruct (Z.eqb_spec (len b) 8). Qed.

Lemma unpack_III_short (b : list byte) : len b <> 12 -> unpack_III b = Raise StructError.
Proof. intros Hb. unfold unpack_III. by destruct (Z.eqb_spec (len b) 12). Qed.

Section ContainerFacts.
Context `{Platform}.

(** What [read_glb] takes from a container: the JSON chunk and the payload
    of the second chunk, whatever the version field and the two chunk type
    tags say. The second chunk is read only when the declared total length
    lies beyond the end of the JSON chunk; otherwise the payload is empty,
    though its bytes are in the file. *)
Theorem read_glb_layout (path : string) (w : World)
    (version total json_type bin_type : Z) (text payload : list byte) :
  0 <= total < 2 ^ 32 -> len text < 2 ^ 32 -> len payload < 2 ^ 32 ->
  w !! path = Some (glb_layout magic_glTF version total json_type bin_type text payload) ->
  read_glb path w =
    json_data ← json_loads text;
    if 20 + len text <? total then Ok (json_data, payload) else Ok (json_data, []).
Proof.
  intros Ht Hx Hp Hw. unfold read_glb. rewrite Hw.
  replace (glb_layout magic_glTF version total json_type bin_type text payload)
    with ((le_bytes 4 magic_glTF ++ le_bytes 4 version ++ le_bytes 4 total) ++
          (le_bytes 4 (len text) ++ le_bytes 4 json_type) ++ text ++
          (le_bytes 4 (len payload) ++ le_bytes 4 bin_type) ++ payload)
    by (unfold glb_layout; by rewrite <- !app_assoc).
  rewrite f_read_app by (rewrite !len_app, !len_le_bytes; lia).
  rewrite unpack_III_app by apply length_le_bytes.
  cbn [mbind result_bind].
  rewrite (le_value_le_bytes 4 magic_glTF), (le_value_le_bytes 4 total)
    by (unfold magic_glTF; simpl; lia).
  change (negb (magic_glTF =? magic_glTF)) with false. cbv iota.
  rewrite f_read_app by (rewrite !len_app, !len_le_bytes; lia).
  rewrite unpack_II_app by apply length_le_bytes.
  cbn [mbind result_bind].
  pose proof (len_nonneg text). pose proof (len_nonneg payload).
  rewrite (le_value_le_bytes 4 (len text)) by (simpl; lia).
  rewrite f_read_app by reflexivity.
  destruct (json_loads text) as [json_data|e]; [|reflexivity].
  cbn [mbind result_bind].
  replace (12 + 8 + len text) with (20 + len text) by lia.
  destruct (20 + len text <? total); [|reflexivity].
  rewrite f_read_app by (rewrite !len_app, !len_le_bytes; lia).
  rewrite unpack_II_app by apply length_le_bytes.
  cbn [mbind result_bind].
  rewrite (le_value_le_bytes 4 (len payload)) by (simpl; lia).
  by rewrite f_read_all.
Qed.

(** Files that end too early. A missing file raises [FileNotFoundError];
    a file of fewer than twelve bytes raises [struct.error], before the
    magic tag is looked at; so does a file with the right magic tag and
    fewer than twenty bytes. A container that ends after its JSON chunk
    decodes to an empty payload when its declared total length says so, and
    raises [struct.error] when the declared total length promises more. *)
Theorem read_glb_truncated (path : string) (w : World) :
  (w !! path = None -> read_glb path w = Raise FileNotFoundError) /\
  (forall contents, w !! path = Some contents -> len contents < 12 ->
     read_glb path w = Raise StructError) /\
  (forall contents, w !! path = Some contents -> 12 <= len contents < 20 ->
     le_value (take 4 contents) = magic_glTF ->
     read_glb path w = Raise StructError) /\
  (forall version total json_type text,
     w !! path = Some (glb_json_only version total json_type text) ->
     0 <= total < 2 ^ 32 -> len text < 2 ^ 32 ->
     read_glb path w =
       json_data ← json_loads text;
       if 20 + len text <? total then Raise StructError else Ok (json_data, [])).
Proof.
  split; [|split; [|split] ].
  - intros Hw. unfold read_glb. by rewrite Hw.
  - intros contents Hw Hlen. unfold read_glb. rewrite Hw.
    unfold f_read. change (12 <? 0) with false. cbv iota.
    rewrite unpack_III_short; [reflexivity|].
    unfold len in *. rewrite length_take. lia.
  - intros contents Hw Hlen Hm. unfold read_glb. rewrite Hw.
    unfold f_read at 1. change (12 <? 0) with false. cbv iota.
    change (Z.to_nat 12) with 12%nat.
    unfold unpack_III. unfold len in *. rewrite length_take.
    destruct (Z.eqb_spec (Z.of_nat (12 `min` length contents)) 12); [|lia].
    cbn [mbind result_bind]. rewrite take_take. change (4 `min` 12)%nat with 4%nat.
    rewrite Hm. change (negb (magic_glTF =? magic_glTF)) with false. cbv iota.
    unfold f_read. change (8 <? 0) with false. cbv iota.
    rewrite unpack_II_short; [reflexivity|].
    unfold len. rewrite length_take, length_drop. lia.
  - intros version total json_type text Hw Ht Hx. unfold read_glb. rewrite Hw.
    replace (glb_json_only version total json_type text)
      with ((le_bytes 4 magic_glTF ++ le_bytes 4 version ++ le_bytes 4 total) ++
            (le_bytes 4 (len text) ++ le_bytes 4 json_type) ++ text ++ [])
      by (unfold glb_json_only; by rewrite <- !app_assoc, app_nil_r).
    rewrite f_read_app by (rewrite !len_app, !len_le_bytes; lia).
    rewrite unpack_III_app by apply length_le_bytes.
    cbn [mbind result_bind].
    rewrite (le_value_le_bytes 4 magic_glTF), (le_value_le_bytes 4 total)
      by (unfold magic_glTF; simpl; lia).
    change (negb (magic_glTF =? magic_glTF)) with false. cbv iota.
    rewrite f_read_app by (rewrite !len_app, !len_le_bytes; lia).
    rewrite unpack_II_app by apply length_le_bytes.
    cbn [mbind result_bind].
    pose proof (len_nonneg text).
    rewrite (le_value_le_bytes 4 (len text)) by (simpl; lia).
    rewrite f_read_app by reflexivity.
    destruct (json_loads text) as [json_data|e]; [|reflexivity].
    cbn [mbind result_bind].
    replace (12 + 8 + len text) with (20 + len text) by lia.
    destruct (20 + len text <? total); reflexivity.
Qed.

Lemma write_glb_fails path gltf bin_data w :
  2 ^ 32 <= 12 + 8 + len (pad4 x20 (json_dumps gltf)) + 8 + len (pad4 x00 bin_data) ->
  write_glb path gltf bin_data w = (<[path := []]> w, Raise StructError).
Proof.
  intros Hge. unfold write_glb.
  set (total := 12 + 8 + len (pad4 x20 (json_dumps gltf)) + 8 + len (pad4 x00 bin_data)) in *.
  assert (Hpack : pack_I total = Raise StructError).
  { unfold pack_I. destruct (Z.ltb_spec total (2 ^ 32)); [lia|].
    by rewrite andb_false_r. }
  rewrite Hpack.
  change (pack_I magic_glTF) with (Ok (le_bytes 4 magic_glTF)).
  change (pack_I 2) with (Ok (le_bytes 4 2)).
  reflexivity.
Qed.

(** [write_glb] returns only when the container is smaller than 4 GiB, and
    the file then holds the header and the two padded chunks. When the
    container would be 4 GiB or more, the total length does not fit the
    header and [write_glb] raises before a single byte is written: the path
    holds the empty file that was opened, or what it held before. No other
    file is touched in either case. *)
Theorem write_glb_cases (path : string) (gltf : json) (bin_data : list byte) (w : World) :
  let total := 28 + len (pad4 x20 (json_dumps gltf)) + len (pad4 x00 bin_data) in
  let out := write_glb path gltf bin_data w in
  (out.2 = Ok tt ->
     total < 2 ^ 32 /\
     out.1 = <[path := glb_file magic_glTF 2 total
                          (pad4 x20 (json_dumps gltf)) (pad4 x00 bin_data)]> w) /\
  (2 ^ 32 <= total ->
     (exists e, out.2 = Raise e) /\
     (out.1 !! path = Some [] \/ out.1 !! path = w !! path)) /\
  (forall other, other <> path -> out.1 !! other = w !! other).
Proof.
  intros total out. subst out.
  replace total
    with (12 + 8 + len (pad4 x20 (json_dumps gltf)) + 8 + len (pad4 x00 bin_data))
    by (subst total; lia).
  clear total.
  destruct (Z.lt_ge_cases (12 + 8 + len (pad4 x20 (json_dumps gltf)) + 8
                           + len (pad4 x00 bin_data)) (2 ^ 32)) as [Hlt|Hge].
  - rewrite write_glb_ok by exact Hlt. cbn [fst snd].
    split; [by intros _|]. split; [lia|].
    intros other Hne. by rewrite lookup_insert_ne.
  - rewrite write_glb_fails by exact Hge. cbn [fst snd].
    split; [discriminate|]. split.
    + intros _. split; [by eexists|]. left. apply lookup_insert_eq.
    + intros other Hne. by rewrite lookup_insert_ne.
Qed.

(** What a successful [write_glb] leaves at the path: a file that starts
    with the magic tag and version 2, whose third header field is its own
    size, a multiple of four; every other file is untouched. *)
Theorem write_glb_declares_its_size (path : string) (gltf : json)
    (bin_data : list byte) (w w' : World) :
  write_glb path gltf bin_data w = (w', Ok tt) ->
  exists contents,
    w' !! path = Some contents /\
    le_value (take 4 contents) = magic_glTF /\
    le_value (take 4 (drop 4 contents)) = 2 /\
    le_value (take 4 (drop 8 contents)) = len contents /\
    len contents mod 4 = 0 /\
    forall other, other <> path -> w' !! other = w !! other.
Proof.
  intros Hw.
  destruct (Z.lt_ge_cases (12 + 8 + len (pad4 x20 (json_dumps gltf)) + 8
                           + len (pad4 x00 bin_data)) (2 ^ 32)) as [Hlt|Hge];
    [|rewrite write_glb_fails in Hw by exact Hge; discriminate Hw].
  rewrite write_glb_ok in Hw by exact Hlt.
  replace (12 + 8 + len (pad4 x20 (json_dumps gltf)) + 8 + len (pad4 x00 bin_data))
    with (28 + len (pad4 x20 (json_dumps gltf)) + len (pad4 x00 bin_data)) in * by lia.
  set (js := pad4 x20 (json_dumps gltf)) in *.
  set (bs := pad4 x00 bin_data) in *.
  injection Hw as <-.
  pose proof (len_nonneg js). pose proof (len_nonneg bs).
  exists (glb_file magic_glTF 2 (28 + len js + len bs) js bs).
  split; [apply lookup_insert_eq|].
  assert (Hlen : len (glb_file magic_glTF 2 (28 + len js + len bs) js bs)
                 = 28 + len js + len bs).
  { unfold glb_file. rewrite !len_app, !len_le_bytes. lia. }
  split; [|split; [|split; [|split] ] ].
  - unfold glb_file. rewrite take_app_length' by (by rewrite length_le_bytes).
    apply le_value_le_bytes. unfold magic_glTF. simpl. lia.
  - unfold glb_file. rewrite drop_app_length' by (by rewrite length_le_bytes).
    rewrite take_app_length' by (by rewrite length_le_bytes).
    apply le_value_le_bytes. simpl. lia.
  - rewrite Hlen. unfold glb_file.
    rewrite (app_assoc (le_bytes 4 magic_glTF)).
    rewrite drop_app_length' by (by rewrite length_app, !length_le_bytes).
    rewrite take_app_length' by (by rewrite length_le_bytes).
    apply le_value_le_bytes. simpl. lia.
  - rewrite Hlen. subst js bs.
    pose proof (pad4_aligned x20 (json_dumps gltf)).
    pose proof (pad4_aligned x00 bin_data).
    Z.div_mod_to_equations. lia.
  - intros other Hne. by apply lookup_insert_ne.
Qed.
End ContainerFacts.

Lemma read_glb_layout_witness :
  read_glb (H:=Demo.platform) "in.glb"
    {["in.glb"%string := glb_layout magic_glTF 7 100 0 0 (Demo.bytes_of "{}  ") [x01; x02]]}
  = Ok (JObj [], [x01; x02]).
Proof.
  rewrite (read_glb_layout (H:=Demo.platform) "in.glb" _ 7 100 0 0
             (Demo.bytes_of "{}  ") [x01; x02]).
  - vm_compute. reflexivity.
  - lia.
  - vm_compute. reflexivity.
  - vm_compute. reflexivity.
  - vm_compute. reflexivity.
Defined.

Lemma read_glb_truncated_witness :
  read_glb (H:=Demo.platform) "in.glb" ∅ = Raise FileNotFoundError /\
  read_glb (H:=Demo.platform) "in.glb" {["in.glb"%string := le_bytes 4 magic_glTF]}
    = Raise StructError /\
  read_glb (H:=Demo.platform) "in.glb"
    {["in.glb"%string := le_bytes 4 magic_glTF ++ le_bytes 4 2 ++ le_bytes 4 12]}
    = Raise StructError /\
  read_glb (H:=Demo.platform) "in.glb"
    {["in.glb"%string := glb_json_only 2 24 chunk_JSON (Demo.bytes_of "{}  ")]}
    = Ok (JObj [], []) /\
  read_glb (H:=Demo.platform) "in.glb"
    {["in.glb"%string := glb_json_only 2 40 chunk_JSON (Demo.bytes_of "{}  ")]}
    = Raise StructError.
Proof.
  split; [|split; [|split; [|split] ] ].
  - destruct (read_glb_truncated (H:=Demo.platform) "in.glb" ∅) as (Hmissing & _).
    apply Hmissing. reflexivity.
  - destruct (read_glb_truncated (H:=Demo.platform) "in.glb"
                {["in.glb"%string := le_bytes 4 magic_glTF]}) as (_ & Hshort & _).
    apply (Hshort (le_bytes 4 magic_glTF)).
    + vm_compute. reflexivity.
    + vm_compute. reflexivity.
  - destruct (read_glb_truncated (H:=Demo.platform) "in.glb"
                {["in.glb"%string := le_bytes 4 magic_glTF ++ le_bytes 4 2 ++ le_bytes 4 12]})
      as (_ & _ & Hhdr & _).
    apply (Hhdr (le_bytes 4 magic_glTF ++ le_bytes 4 2 ++ le_bytes 4 12)).
    + vm_compute. reflexivity.
    + vm_compute. split; [discriminate|reflexivity].
    + vm_compute. reflexivity.
  - destruct (read_glb_truncated (H:=Demo.platform) "in.glb"
                {["in.glb"%string := glb_json_only 2 24 chunk_JSON (Demo.bytes_of "{}  ")]})
      as (_ & _ & _ & Hj).
    rewrite (Hj 2 24 chunk_JSON (Demo.bytes_of "{}  ")).
    + vm_compute. reflexivity.
    + vm_compute. reflexivity.
    + lia.
    + vm_compute. reflexivity.
  - destruct (read_glb_truncated (H:=Demo.platform) "in.glb"
                {["in.glb"%string := glb_json_only 2 40 chunk_JSON (Demo.bytes_of "{}  ")]})
      as (_ & _ & _ & Hj).
    rewrite (Hj 2 40 chunk_JSON (Demo.bytes_of "{}  ")).
    + vm_compute. reflexivity.
    + vm_compute. reflexivity.
    + lia.
    + vm_compute. reflexivity.
Defined.

Lemma write_glb_declares_its_size_witness :
  exists contents,
    (write_glb (H:=Demo.platform) "out.glb" triangle_gltf [x01; x02; x03] ∅).1
      !! "out.glb"%string = Some contents /\
    le_value (take 4 (drop 8 contents)) = len contents /\
    len contents mod 4 = 0.
Proof.
  destruct (write_glb_declares_its_size (H:=Demo.platform) "out.glb" triangle_gltf
              [x01; x02; x03] ∅
              (write_glb (H:=Demo.platform) "out.glb" triangle_gltf [x01; x02; x03] ∅).1)
    as (contents & Hfile & _ & _ & Hdecl & Hmod & _).
  - vm_compute. reflexivity.
  - by exists contents.
Defined.

(** ** The payload: appending and reading back *)

Lemma traverse_app {A B} (f : A -> result B) (l1 l2 : list A) :
  traverse f (l1 ++ l2) = (ys ← traverse f l1; zs ← traverse f l2; Ok (ys ++ zs)).
Proof.
  induction l1 as [|x l1 IH]; cbn [traverse app mbind result_bind].
  - by destruct (traverse f l2).
  - destruct (f x); [|reflexivity]. cbn [mbind result_bind]. rewrite IH.
    destruct (traverse f l1); [|reflexivity]. cbn [mbind result_bind].
    by destruct (traverse f l2).
Qed.

Lemma traverse_ok {A B} (f : A -> result B) (g : A -> B) (l : list A) :
  Forall (fun x => f x = Ok (g x)) l -> traverse f l = Ok (map g l).
Proof.
  induction 1 as [|x l Hx _ IH]; [reflexivity|].
  cbn [traverse map mbind result_bind]. by rewrite Hx, IH.
Qed.

Lemma traverse_length {A B} (f : A -> result B) (l : list A) (ys : list B) :
  traverse f l = Ok ys -> length ys = length l.
Proof.
  revert ys. induction l as [|x l IH]; intros ys Ht; cbn [traverse mbind result_bind] in Ht.
  - by injection Ht as <-.
  - destruct (f x); [|discriminate]. cbn [mbind result_bind] in Ht.
    destruct (traverse f l) as [ys'|]; [|discriminate].
    injection Ht as <-. cbn. f_equal. by apply IH.
Qed.

Lemma traverse_Forall2 {A B} (f : A -> result B) (l : list A) (ys : list B) :
  traverse f l = Ok ys -> Forall2 (fun x y => f x = Ok y) l ys.
Proof.
  revert ys. induction l as [|x l IH]; intros ys Ht; cbn [traverse mbind result_bind] in Ht.
  - injection Ht as <-. constructor.
  - destruct (f x) eqn:Ex; [|discriminate]. cbn [mbind result_bind] in Ht.
    destruct (traverse f l) as [ys'|]; [|discriminate].
    injection Ht as <-. constructor; [assumption|]. by apply IH.
Qed.

(** The first item that raises decides the exception. *)
Lemma traverse_raises {A B} (f : A -> result B) (l : list A) (e : PyErr) (x : A) :
  In x l -> f x = Raise e -> (forall y e', f y = Raise e' -> e' = e) ->
  traverse f l = Raise e.
Proof.
  intros Hin Hx Hall. induction l as [|y l IH]; [destruct Hin|].
  cbn [traverse mbind result_bind].
  destruct (f y) eqn:Ey.
  - cbn [mbind result_bind]. destruct Hin as [->|Hin]; [congruence|].
    by rewrite (IH Hin).
  - cbn [mbind result_bind]. f_equal. by apply Hall with y.
Qed.

Lemma len_concat_const {A} (k : Z) (rows : list (list A)) :
  Forall (fun r => len r = k) rows -> len (concat rows) = k * len rows.
Proof.
  induction 1 as [|r rows Hr _ IH]; [unfold len; simpl; lia|].
  cbn [concat]. rewrite len_app, Hr, IH. unfold len. cbn [length]. lia.
Qed.

Lemma pack_array_len (pack1 : pynum -> result (list byte)) (k : Z)
    (data : list pynum) (packed : list byte) :
  (forall a bs, pack1 a = Ok bs -> len bs = k) ->
  pack_array pack1 data = Ok packed -> len packed = k * len data.
Proof.
  intros Hk Hp. unfold pack_array in Hp. cbv [fmap result_fmap] in Hp.
  destruct (traverse pack1 data) as [rows|] eqn:Et; [|discriminate].
  injection Hp as <-.
  pose proof (traverse_Forall2 _ _ _ Et) as H2.
  rewrite len_concat_const with (k := k).
  - unfold len. by rewrite (traverse_length _ _ _ Et).
  - clear Et. induction H2; constructor; eauto.
Qed.

Lemma pack_f_len (a : pynum) (bs : list byte) : pack_f a = Ok bs -> len bs = 4.
Proof.
  unfold pack_f. destruct a as [n|x].
  - destruct (is_infinity _ || f32_overflow _); [discriminate|].
    intros [= <-]. apply len_le_bytes.
  - destruct (f32_overflow x); [discriminate|]. intros [= <-]. apply len_le_bytes.
Qed.

Lemma pack_uint_len (n : nat) (a : pynum) (bs : list byte) :
  pack_uint n a = Ok bs -> len bs = Z.of_nat n.
Proof.
  unfold pack_uint. destruct a as [v|]; [|discriminate].
  destruct ((0 <=? v) && (v <? 2 ^ (8 * Z.of_nat n))); [|discriminate].
  intros [= <-]. apply len_le_bytes.
Qed.






Lemma pack_f_fits (a : pynum) : fits_f32 a -> pack_f a = Ok (f32_bytes (as_double a)).
Proof.
  unfold pack_f, fits_f32, as_double. destruct a as [n|x].
  - by intros [-> ->].
  - by intros ->.
Qed.

Lemma pack_f_refuses (a : pynum) :
  ~ fits_f32 a ->
  pack_f a = Raise (match a with PyFloat _ => OverflowError | PyInt _ => StructError end).
Proof.
  unfold pack_f, fits_f32. destruct a as [n|x]; intros Hbad.
  - destruct (is_infinity (float_of_Z n)); [reflexivity|].
    destruct (f32_overflow (float_of_Z n)); [reflexivity|]. by destruct Hbad.
  - destruct (f32_overflow x); [reflexivity|]. by destruct Hbad.
Qed.

(** What [add_to_buffer] refuses. With ['B'] (['H']) a float, or an int
    outside 0..255 (0..65535), anywhere in the list raises [struct.error].
    With ['f'] the first item that does not fit binary32 decides: a finite
    float beyond the range raises [OverflowError], an int beyond it raises
    [struct.error]. *)
Theorem add_to_buffer_refuses (bin_data : list byte) (data : list pynum) :
  (forall a, In a data -> not_uint 1 a ->
     add_to_buffer bin_data (Nums data) "B" = Raise StructError) /\
  (forall a, In a data -> not_uint 2 a ->
     add_to_buffer bin_data (Nums data) "H" = Raise StructError) /\
  (forall pre a post, data = pre ++ a :: post -> Forall fits_f32 pre -> ~ fits_f32 a ->
     add_to_buffer bin_data (Nums data) "f" =
       Raise (match a with PyFloat _ => OverflowError | PyInt _ => StructError end)).
Proof.
  assert (Huint : forall n a, In a data -> not_uint n a ->
            traverse (pack_uint n) data = Raise StructError).
  { intros n a Hin Hbad. apply traverse_raises with a; [assumption| |].
    - unfold pack_uint. destruct a as [v|]; [|reflexivity]. cbn in Hbad.
      destruct (Z.leb_spec 0 v), (Z.ltb_spec v (2 ^ (8 * Z.of_nat n)));
        try reflexivity. lia.
    - intros y e'. unfold pack_uint. destruct y as [v|]; [|congruence].
      destruct ((0 <=? v) && (v <? 2 ^ (8 * Z.of_nat n))); congruence. }
  split; [|split].
  - intros a Hin Hbad. unfold add_to_buffer. cbn. unfold pack_array.
    by rewrite (Huint 1%nat a Hin Hbad).
  - intros a Hin Hbad. unfold add_to_buffer. cbn. unfold pack_array.
    by rewrite (Huint 2%nat a Hin Hbad).
  - intros pre a post -> Hpre Hbad. unfold add_to_buffer.
    cbn [String.eqb Ascii.eqb Bool.eqb]. unfold pack_array.
    rewrite traverse_app.
    rewrite (traverse_ok pack_f (fun a => f32_bytes (as_double a)) pre)
      by (eapply Forall_impl; [exact Hpre|]; intros b Hb; by apply pack_f_fits).
    cbn [mbind result_bind traverse]. rewrite (pack_f_refuses a Hbad). reflexivity.
Qed.

Lemma add_to_buffer_refuses_witness :
  add_to_buffer [] (Nums [PyInt 3; PyInt 256]) "B" = Raise StructError /\
  add_to_buffer [] (Nums [PyFloat 1; PyInt 2]) "H" = Raise StructError /\
  add_to_buffer [] (Nums [PyFloat 1; PyFloat 1e39]) "f" = Raise OverflowError /\
  add_to_buffer [] (Nums [PyInt (2 ^ 200); PyFloat 1e39]) "f" = Raise StructError.
Proof.
  destruct (add_to_buffer_refuses [] [PyInt 3; PyInt 256]) as (HB & _ & _).
  destruct (add_to_buffer_refuses [] [PyFloat 1; PyInt 2]) as (_ & HH & _).
  destruct (add_to_buffer_refuses [] [PyFloat 1; PyFloat 1e39]) as (_ & _ & Hf).
  destruct (add_to_buffer_refuses [] [PyInt (2 ^ 200); PyFloat 1e39]) as (_ & _ & Hi).
  split; [|split; [|split] ].
  - apply (HB (PyInt 256)); [right; left; reflexivity|]. cbn. lia.
  - apply (HH (PyFloat 1)); [left; reflexivity|]. exact I.
  - apply (Hf [PyFloat 1] (PyFloat 1e39) []); [reflexivity| |].
    + repeat constructor.
    + cbn. vm_compute. discriminate.
  - apply (Hi [] (PyInt (2 ^ 200)) [PyFloat 1e39]); [reflexivity|constructor|].
    cbn. vm_compute. intros [_ Hover]. discriminate Hover.
Defined.

Lemma chunks_concat {A} (n fuel : nat) (rows : list (list A)) :
  (0 < n)%nat -> Forall (fun r => length r = n) rows -> (length rows <= fuel)%nat ->
  chunks fuel n (concat rows) = rows.
Proof.
  intros Hn Hrows. revert fuel.
  induction Hrows as [|r rows Hr _ IH]; intros fuel Hfuel.
  - by destruct fuel.
  - cbn [concat]. destruct fuel as [|fuel]; [cbn in Hfuel; lia|].
    destruct r as [|x r]; [cbn in Hr; lia|].
    change (chunks (S fuel) n ((x :: r) ++ concat rows))
      with (take n ((x :: r) ++ concat rows)
            :: chunks fuel n (drop n ((x :: r) ++ concat rows))).
    rewrite take_app_length', drop_app_length' by (symmetry; assumption).
    f_equal. apply IH. cbn in Hfuel. lia.
Qed.

Lemma py_slice_app_mid {A} (a b : list A) :
  py_slice (a ++ b) (len a) (len a + len b) = b.
Proof.
  unfold py_slice. rewrite len_app.
  pose proof (len_nonneg a). pose proof (len_nonneg b).
  destruct (Z.ltb_spec (len a) 0); [lia|].
  destruct (Z.ltb_spec (len a + len b) 0); [lia|].
  rewrite Z.min_l, Z.min_l by lia.
  unfold len. rewrite Nat2Z.id.
  replace (Z.to_nat (Z.of_nat (length a) + Z.of_nat (length b) - Z.of_nat (length a)))
    with (length b) by lia.
  rewrite drop_app_length. apply firstn_all.
Qed.

(** [get_accessor_data] on a document with one accessor over one buffer
    view. *)
Lemma get_accessor_data_view (offset size ct count k : Z) (type dtype : string)
    (bin_data : list byte) :
  component_types (JInt ct) = Ok dtype -> type_counts (JStr type) = Ok k ->
  get_accessor_data (view_doc offset size ct count type) bin_data (JInt 0) =
    data ← unpack_array (count * k) dtype
             (py_slice bin_data offset (offset + calcsize dtype * (count * k)));
    Ok (rows_of k data).
Proof.
  intros Hct Hty. unfold get_accessor_data, view_doc, obj_accessor, obj_buffer_view.
  repeat (cbn -[component_types type_counts unpack_array py_slice calcsize chunks Z.mul Z.add];
          change (Z.to_nat 0) with 0%nat).
  rewrite Hct. cbn [mbind result_bind]. rewrite Hty. cbn [mbind result_bind].
  rewrite Z.add_0_r.
  destruct (unpack_array _ _ _) as [data|]; [|reflexivity].
  cbn [mbind result_bind]. unfold rows_of. by destruct (k =? 1).
Qed.

Lemma type_counts_pos (type : string) (k : Z) : type_counts (JStr type) = Ok k -> 0 < k.
Proof.
  unfold type_counts. cbn [find fst snd].
  repeat (destruct (String.eqb _ type); [intros [= <-]; lia|]).
  discriminate.
Qed.

Lemma calcsize_pos (dtype : string) : 0 < calcsize dtype.
Proof. unfold calcsize. repeat (destruct (String.eqb dtype _)); lia. Qed.

(** An accessor that asks for more bytes than the payload holds is not
    given a shorter array: the slice is clipped, and [struct.unpack] raises
    [struct.error] on it. *)
Theorem get_accessor_data_past_end (offset size ct count k : Z) (type dtype : string)
    (bin_data : list byte) :
  component_types (JInt ct) = Ok dtype -> type_counts (JStr type) = Ok k ->
  0 <= offset -> 0 < count ->
  len bin_data < offset + calcsize dtype * (count * k) ->
  get_accessor_data (view_doc offset size ct count type) bin_data (JInt 0)
    = Raise StructError.
Proof.
  intros Hct Hty Hoff Hcount Hshort.
  rewrite (get_accessor_data_view _ _ _ _ k _ dtype) by assumption.
  pose proof (type_counts_pos _ _ Hty) as Hk. pose proof (calcsize_pos dtype) as Hc.
  set (need := calcsize dtype * (count * k)) in *.
  assert (Hneed : 0 < need) by (subst need; nia).
  unfold unpack_array.
  destruct (Z.ltb_spec (count * k) 0); [reflexivity|].
  assert (Hlen : len (py_slice bin_data offset (offset + need)) < need).
  { unfold py_slice. pose proof (len_nonneg bin_data).
    destruct (Z.ltb_spec offset 0); [lia|].
    destruct (Z.ltb_spec (offset + need) 0); [lia|].
    unfold len in *. rewrite length_take, length_drop. lia. }
  fold need. destruct (Z.eqb_spec (len (py_slice bin_data offset (offset + need))) need);
    [lia|reflexivity].
Qed.

Lemma get_accessor_data_past_end_witness :
  get_accessor_data (view_doc 0 36 5126 3 "VEC3") (take 35 triangle_bin) (JInt 0)
    = Raise StructError.
Proof.
  apply (get_accessor_data_past_end 0 36 5126 3 3 "VEC3" "f");
    [reflexivity | reflexivity | lia | lia | vm_compute; reflexivity].
Defined.

(** Component types and element types outside the two tables of
    [get_accessor_data] (signed 32-bit ints and doubles, [MAT2] and [MAT3]
    among them) raise [KeyError]. *)
Theorem get_accessor_data_unsupported (offset size ct count : Z) (type : string)
    (bin_data : list byte) :
  (~ In ct [5120; 5121; 5122; 5123; 5125; 5126] ->
     get_accessor_data (view_doc offset size ct count type) bin_data (JInt 0)
       = Raise KeyError) /\
  (In ct [5120; 5121; 5122; 5123; 5125; 5126] ->
   ~ In type ["SCALAR"; "VEC2"; "VEC3"; "VEC4"; "MAT4"]%string ->
     get_accessor_data (view_doc offset size ct count type) bin_data (JInt 0)
       = Raise KeyError).
Proof.
  split.
  - intros Hct. unfold get_accessor_data, view_doc, obj_accessor, obj_buffer_view.
    repeat (cbn -[component_types type_counts unpack_array py_slice calcsize chunks Z.mul Z.add];
          change (Z.to_nat 0) with 0%nat).
    unfold component_types. cbn [find py_eq_int fst snd].
    repeat match goal with
           | |- context [?a =? ct] =>
             destruct (Z.eqb_spec a ct); [exfalso; apply Hct; subst ct; cbn; tauto|]
           end.
    reflexivity.
  - intros Hct Hty. unfold get_accessor_data, view_doc, obj_accessor, obj_buffer_view.
    repeat (cbn -[component_types type_counts unpack_array py_slice calcsize chunks Z.mul Z.add];
          change (Z.to_nat 0) with 0%nat).
    assert (Hd : exists dtype, component_types (JInt ct) = Ok dtype).
    { cbn in Hct. destruct Hct as [<- | [<- | [<- | [<- | [<- | [<- | Hf] ] ] ] ] ];
        [| | | | | |destruct Hf]; eexists; reflexivity. }
    destruct Hd as [dtype ->]. cbn [mbind result_bind].
    unfold type_counts. cbn [find fst snd].
    repeat match goal with
           | |- context [String.eqb ?a type] =>
             destruct (String.eqb_spec a type); [exfalso; apply Hty; subst type; cbn; tauto|]
           end.
    reflexivity.
Qed.

Lemma get_accessor_data_unsupported_witness :
  get_accessor_data (view_doc 0 24 5130 3 "SCALAR") triangle_bin (JInt 0) = Raise KeyError /\
  get_accessor_data (view_doc 0 36 5126 1 "MAT3") triangle_bin (JInt 0) = Raise KeyError.
Proof.
  split.
  - destruct (get_accessor_data_unsupported 0 24 5130 3 "SCALAR" triangle_bin) as [Hct _].
    apply Hct. cbn. intros Hf.
    repeat (destruct Hf as [Hf|Hf]; [discriminate Hf|]). exact Hf.
  - destruct (get_accessor_data_unsupported 0 36 5126 1 "MAT3" triangle_bin) as [_ Hty].
    apply Hty.
    + cbn. tauto.
    + cbn. intros Hf. repeat (destruct Hf as [Hf|Hf]; [discriminate Hf|]). exact Hf.
Defined.

Lemma pack_array_uint (n : nat) (data : list Z) :
  Forall (fun v => 0 <= v < 2 ^ (8 * Z.of_nat n)) data ->
  pack_array (pack_uint n) (map PyInt data) = Ok (concat (map (le_bytes n) data)).
Proof.
  intros Hdata. unfold pack_array.
  rewrite (traverse_ok (pack_uint n)
             (fun a => match a with PyInt v => le_bytes n v | PyFloat _ => [] end)).
  - cbv [fmap result_fmap]. by rewrite List.map_map.
  - apply Forall_map. eapply Forall_impl; [exact Hdata|].
    intros v Hv. cbn beta in Hv. unfold pack_uint.
    destruct (Z.leb_spec 0 v), (Z.ltb_spec v (2 ^ (8 * Z.of_nat n))); try lia.
    reflexivity.
Qed.

(** Appending unsigned integers and reading them back. *)
Lemma add_then_get_uint (n : nat) (dtype type : string) (ct count k : Z)
    (bin_data : list byte) (data : list Z) :
  (0 < n)%nat -> calcsize dtype = Z.of_nat n ->
  (forall bs, unpack1 dtype bs = PyInt (le_value bs)) ->
  (forall l, add_to_buffer bin_data (Nums l) dtype =
             (packed ← pack_array (pack_uint n) l;
              Ok (pad4 x00 bin_data ++ packed, (len (pad4 x00 bin_data), len packed)))) ->
  component_types (JInt ct) = Ok dtype -> type_counts (JStr type) = Ok k ->
  Forall (fun v => 0 <= v < 2 ^ (8 * Z.of_nat n)) data ->
  0 <= count -> len data = count * k ->
  exists bin_data' offset size,
    add_to_buffer bin_data (Nums (map PyInt data)) dtype = Ok (bin_data', (offset, size)) /\
    get_accessor_data (view_doc offset size ct count type) bin_data' (JInt 0)
      = Ok (rows_of k (map PyInt data)).
Proof.
  intros Hn Hsize Hun Hadd Hct Hty Hdata Hcount Hlen.
  rewrite Hadd, pack_array_uint by assumption. cbn [mbind result_bind].
  eexists _, _, _. split; [reflexivity|].
  rewrite (get_accessor_data_view _ _ _ _ k _ dtype) by assumption.
  set (rows := map (le_bytes n) data).
  assert (Hrows : Forall (fun r => length r = n) rows).
  { subst rows. apply Forall_map, Forall_true. intros v. apply length_le_bytes. }
  assert (Hpacked : len (concat rows) = calcsize dtype * (count * k)).
  { rewrite len_concat_const with (k := Z.of_nat n).
    - subst rows. unfold len in *. rewrite length_map. lia.
    - eapply Forall_impl; [exact Hrows|]. intros r Hr. unfold len. by rewrite Hr. }
  rewrite <- Hpacked, py_slice_app_mid.
  unfold unpack_array.
  destruct (Z.ltb_spec (count * k) 0); [pose proof (len_nonneg data); lia|].
  rewrite Hpacked, Z.eqb_refl. cbn [negb mbind result_bind].
  rewrite Hsize, Nat2Z.id, chunks_concat; try assumption.
  - do 2 f_equal. subst rows. rewrite List.map_map.
    apply map_ext_Forall. eapply Forall_impl; [exact Hdata|].
    intros v Hv. cbn beta in *. rewrite Hun. f_equal. by apply le_value_le_bytes.
  - clearbody rows. clear -Hrows Hn.
    induction Hrows as [|r rows Hr _ IH]; [cbn; lia|].
    cbn [concat length]. rewrite length_app. lia.
Qed.

(** Round trip through the payload: the unsigned bytes (16-bit integers)
    that [add_to_buffer] appended with ['B'] (['H']) are what
    [get_accessor_data] reads through an accessor of component type 5121
    (5123) over a buffer view at the offset returned, as a flat list for
    [SCALAR] and as rows for the vector and matrix types. *)
Theorem add_then_get_unsigned (type : string) (count k : Z)
    (bin_data : list byte) (data : list Z) :
  type_counts (JStr type) = Ok k -> 0 <= count -> len data = count * k ->
  (Forall (fun v => 0 <= v < 256) data ->
   exists bin_data' offset size,
     add_to_buffer bin_data (Nums (map PyInt data)) "B" = Ok (bin_data', (offset, size)) /\
     get_accessor_data (view_doc offset size 5121 count type) bin_data' (JInt 0)
       = Ok (rows_of k (map PyInt data))) /\
  (Forall (fun v => 0 <= v < 65536) data ->
   exists bin_data' offset size,
     add_to_buffer bin_data (Nums (map PyInt data)) "H" = Ok (bin_data', (offset, size)) /\
     get_accessor_data (view_doc offset size 5123 count type) bin_data' (JInt 0)
       = Ok (rows_of k (map PyInt data))).
Proof.
  intros Hty Hcount Hlen. split; intros Hdata.
  - apply (add_then_get_uint 1 "B" type 5121 count k); try assumption;
      try reflexivity; lia.
  - apply (add_then_get_uint 2 "H" type 5123 count k); try assumption;
      try reflexivity; lia.
Qed.

Lemma add_then_get_unsigned_witness :
  exists bin_data' offset size,
    add_to_buffer [x01] (Nums (map PyInt [0; 1; 2; 3; 4; 5; 6; 255])) "B"
      = Ok (bin_data', (offset, size)) /\
    get_accessor_data (view_doc offset size 5121 2 "VEC4") bin_data' (JInt 0)
      = Ok (Tuples [[PyInt 0; PyInt 1; PyInt 2; PyInt 3];
                    [PyInt 4; PyInt 5; PyInt 6; PyInt 255]]).
Proof.
  destruct (add_then_get_unsigned "VEC4" 2 4 [x01] [0; 1; 2; 3; 4; 5; 6; 255])
    as [HB _]; [reflexivity|lia|reflexivity|].
  apply HB. repeat constructor; lia.
Defined.

(** ** The skeleton *)

(** Whatever the bounds, a skeleton that is built has the same twenty
    bones, in the same order and with distinct names; each has three
    coordinates, all share the z coordinate, and the root stands at the
    lowest y of the bounds. *)
Theorem skeleton_shape (mesh_bounds : list pynum * list pynum) (bones : list Bone) :
  create_humanoid_skeleton mesh_bounds = Ok bones ->
  map bone_name bones = bone_names /\
  length bones = 20%nat /\
  NoDup (map bone_name bones) /\
  Forall (fun b => length (bone_pos b) = 3%nat) bones /\
  (exists z, Forall (fun b => bone_pos b !! 2%nat = Some z) bones) /\
  (exists root y, bones !! 0%nat = Some root /\
                  py_index (fst mesh_bounds) 1 = Ok y /\
                  bone_pos root !! 1%nat = Some y).
Proof.
  intros Hs. destruct mesh_bounds as [min_pt max_pt].
  unfold create_humanoid_skeleton in Hs.
  cbv [mbind result_bind fmap result_fmap traverse id] in Hs.
  destruct_result Hs.
  apply Ok_inj in Hs. rewrite <- Hs.
  split; [reflexivity|]. split; [reflexivity|]. split.
  { change (NoDup bone_names). apply NoDup_ListNoDup.
    repeat (constructor; [cbn; intuition discriminate|]). constructor. }
  split; [repeat constructor|]. split.
  - eexists. repeat constructor.
  - eexists _, _. cbn [fst]. split; [reflexivity|]. split; [eassumption|reflexivity].
Qed.

Lemma skeleton_shape_witness :
  map bone_name triangle_bones = bone_names /\ length triangle_bones = 20%nat.
Proof.
  destruct (skeleton_shape triangle_bounds triangle_bones) as (Hn & Hl & _).
  - vm_compute. reflexivity.
  - split; assumption.
Defined.

(** On bounds given as floats the builder returns exactly when both corner
    points have at least three coordinates; with fewer it raises
    [IndexError]. *)
Theorem skeleton_needs_three_coordinates (min_pt max_pt : list float) :
  ((3 <= length min_pt)%nat /\ (3 <= length max_pt)%nat ->
   exists bones,
     create_humanoid_skeleton (map PyFloat min_pt, map PyFloat max_pt) = Ok bones) /\
  ((length min_pt < 3)%nat \/ (length max_pt < 3)%nat ->
   create_humanoid_skeleton (map PyFloat min_pt, map PyFloat max_pt) = Raise IndexError).
Proof.
  split.
  - intros [Hmin Hmax].
    destruct min_pt as [|a0 [|a1 [|a2 min_pt] ] ]; try (cbn in Hmin; lia).
    destruct max_pt as [|b0 [|b1 [|b2 max_pt] ] ]; try (cbn in Hmax; lia).
    eexists. reflexivity.
  - intros Hshort.
    destruct min_pt as [|a0 [|a1 [|a2 min_pt] ] ];
      destruct max_pt as [|b0 [|b1 [|b2 max_pt] ] ];
      try reflexivity; cbn in Hshort; lia.
Qed.

Lemma skeleton_needs_three_coordinates_witness :
  (exists bones,
     create_humanoid_skeleton (map PyFloat [0; 0; 0]%float, map PyFloat [1; 2; 1]%float)
       = Ok bones) /\
  create_humanoid_skeleton (map PyFloat [0; 0]%float, map PyFloat [1; 2; 1]%float)
    = Raise IndexError.
Proof.
  destruct (skeleton_needs_three_coordinates [0; 0; 0]%float [1; 2; 1]%float) as [Hok _].
  destruct (skeleton_needs_three_coordinates [0; 0]%float [1; 2; 1]%float) as [_ Herr].
  split.
  - apply Hok. cbn. lia.
  - apply Herr. cbn. lia.
Defined.

(** ** The animation clips *)

Lemma len_flat_map_const {A B} (k : Z) (f : A -> list B) (l : list A) :
  (forall x, len (f x) = k) -> len (flat_map f l) = k * len l.
Proof.
  intros Hk. induction l as [|x l IH]; [unfold len; simpl; lia|].
  cbn [flat_map]. rewrite len_app, Hk, IH. unfold len. cbn [length]. lia.
Qed.

Lemma len_map {A B} (f : A -> B) (l : list A) : len (map f l) = len l.
Proof. unfold len. by rewrite length_map. Qed.

Lemma len_times_of (frames : Z) : 0 <= frames -> len (times_of frames) = frames + 1.
Proof. intros Hf. unfold times_of, len. rewrite length_map, length_seqZ. lia. Qed.

Lemma traverse_Forall {A B} (f : A -> result B) (P : B -> Prop) (l : list A) (ys : list B) :
  (forall x y, f x = Ok y -> P y) -> traverse f l = Ok ys -> Forall P ys.
Proof.
  intros HP Ht. apply traverse_Forall2 in Ht.
  induction Ht; constructor; eauto.
Qed.

Section ClipFacts.
Context `{Platform}.

Lemma len_quats (angle : float -> list float) (times : list float) :
  (forall t, exists rx ry rz, angle t = quat_from_euler rx ry rz) ->
  len (floats (flat_map angle times)) = 4 * len times.
Proof.
  intros Hq. unfold floats. rewrite len_map. apply len_flat_map_const.
  intros t. destruct (Hq t) as (rx & ry & rz & ->). reflexivity.
Qed.

(** What [create_animations] needs of its arguments: a bone of index 1
    (Hips) with a y coordinate, and a mesh height that converts to a float.
    Without them it raises [IndexError], respectively [OverflowError];
    with them it returns. No other bone is looked at. *)
Theorem create_animations_requirements (bones : list Bone) (mesh_height : pynum) :
  ((len bones < 2 -> create_animations bones mesh_height = Raise IndexError) /\
   (forall hips, bones !! 1%nat = Some hips -> len (bone_pos hips) < 2 ->
      create_animations bones mesh_height = Raise IndexError) /\
   (forall hips, bones !! 1%nat = Some hips -> 2 <= len (bone_pos hips) ->
      py_float mesh_height = Raise OverflowError ->
      create_animations bones mesh_height = Raise OverflowError) /\
   (forall hips h, bones !! 1%nat = Some hips -> 2 <= len (bone_pos hips) ->
      py_float mesh_height = Ok h ->
      exists animations, create_animations bones mesh_height = Ok animations)).
Proof.
  assert (Hbones : forall hips, bones !! 1%nat = Some hips -> py_index bones 1 = Ok hips).
  { intros hips Hh. unfold py_index. cbn [Z.ltb Z.compare].
    change (Z.to_nat 1) with 1%nat. by rewrite Hh. }
  assert (Hy : forall hips, 2 <= len (bone_pos hips) ->
                 exists y, py_index (bone_pos hips) 1 = Ok y).
  { intros hips Hl. unfold py_index. cbn [Z.ltb Z.compare].
    change (Z.to_nat 1) with 1%nat.
    destruct (bone_pos hips) as [|x [|y l] ]; try (unfold len in Hl; cbn in Hl; lia).
    by exists y. }
  split; [|split; [|split] ].
  - intros Hshort. unfold create_animations.
    rewrite frame_times_idle, frame_times_walk, frame_times_attack.
    cbn [mbind result_bind].
    assert (Hi : py_index bones 1 = Raise IndexError).
    { unfold py_index. cbn [Z.ltb Z.compare]. change (Z.to_nat 1) with 1%nat.
      destruct bones as [|b0 [|b1 l] ]; try reflexivity.
      unfold len in Hshort. cbn in Hshort. lia. }
    by rewrite Hi.
  - intros hips Hh Hshort. unfold create_animations.
    rewrite frame_times_idle, frame_times_walk, frame_times_attack.
    cbn [mbind result_bind]. rewrite (Hbones hips Hh). cbn [mbind result_bind].
    assert (Hi : py_index (bone_pos hips) 1 = Raise IndexError).
    { unfold py_index. cbn [Z.ltb Z.compare]. change (Z.to_nat 1) with 1%nat.
      destruct (bone_pos hips) as [|x [|y l] ]; try reflexivity.
      unfold len in Hshort. cbn in Hshort. lia. }
    by rewrite Hi.
  - intros hips Hh Hl Hm. unfold create_animations.
    rewrite frame_times_idle, frame_times_walk, frame_times_attack.
    cbn [mbind result_bind]. rewrite (Hbones hips Hh). cbn [mbind result_bind].
    destruct (Hy hips Hl) as [y ->]. cbn [mbind result_bind].
    rewrite Hm. reflexivity.
  - intros hips h Hh Hl Hm. unfold create_animations.
    rewrite frame_times_idle, frame_times_walk, frame_times_attack.
    cbn [mbind result_bind]. rewrite (Hbones hips Hh). cbn [mbind result_bind].
    destruct (Hy hips Hl) as [y ->]. cbn [mbind result_bind].
    rewrite (traverse_ok _ (fun t => [PyInt 0;
                 PyFloat (abs (np_sin (t / 1 * 2 * np_pi * 2)) * 0.02 * h)%float; PyInt 0])).
    + cbv [fmap result_fmap]. cbn [mbind result_bind]. eexists. reflexivity.
    + apply Forall_forall. intros t _. by rewrite Hm.
Qed.

(** The clips [create_animations] returns are Idle, Walk and Attack, with
    one, five and three channels. Every channel has as many values as its
    key frames need (four per key frame for a rotation, three for a
    translation), and animates one of the bones 1, 2, 3, 7, 11, 12, 14,
    17. *)
Theorem create_animations_clips (bones : list Bone) (mesh_height : pynum)
    (animations : list (string * list Channel)) :
  create_animations bones mesh_height = Ok animations ->
  map fst animations = ["Idle"; "Walk"; "Attack"]%string /\
  map (fun a => len (snd a)) animations = [1; 5; 3] /\
  forall name channels ch,
    In (name, channels) animations -> In ch channels ->
    In (ch_path ch) ["rotation"; "translation"]%string /\
    len (ch_values ch) = components_of (ch_path ch) * len (ch_times ch) /\
    In (ch_bone ch) [1; 2; 3; 7; 11; 12; 14; 17].
Proof.
  intros Ha. unfold create_animations in Ha.
  rewrite frame_times_idle, frame_times_walk, frame_times_attack in Ha.
  cbv [mbind result_bind fmap result_fmap] in Ha.
  destruct (py_index bones 1) as [hips|]; [|discriminate].
  destruct (py_index (bone_pos hips) 1) as [base_hip_y|]; [|discriminate].
  destruct (traverse _ (times_of 30)) as [rows|] eqn:Et; [|discriminate].
  apply Ok_inj in Ha. rewrite <- Ha.
  split; [reflexivity|]. split; [reflexivity|].
  assert (Hrows : len (concat rows) = 3 * len (times_of 30)).
  { rewrite len_concat_const with (k := 3).
    - unfold len. by rewrite (traverse_length _ _ _ Et).
    - eapply traverse_Forall; [|exact Et]. intros t row Ht. cbn beta in Ht.
      destruct (py_float mesh_height); [|discriminate].
      cbn [mbind result_bind] in Ht. by injection Ht as <-. }
  assert (Hq : forall (f : float -> float) g times,
             len (floats (flat_map (fun t => quat_from_euler (f t) (g t) 0%float) times))
             = 4 * len times).
  { intros f g times. apply len_quats. intros t. by eexists _, _, _. }
  assert (Hq' : forall (f : float -> float) times,
             len (floats (flat_map (fun t => quat_from_euler 0%float (f t) 0%float) times))
             = 4 * len times).
  { intros f times. apply len_quats. intros t. by eexists _, _, _. }
  intros name channels ch Hin Hch.
  cbn [In] in Hin.
  destruct Hin as [E | [E | [E | Hf] ] ]; [| | |destruct Hf];
    apply pair_equal_spec in E as [_ <-]; cbn [In] in Hch;
    repeat (destruct Hch as [<-|Hch];
      [cbn [ch_path ch_values ch_times ch_bone components_of String.eqb Ascii.eqb Bool.eqb];
       split; [cbn; tauto|]; split; [first [apply Hq | apply Hq' | exact Hrows]|cbn; tauto]|]);
    destruct Hch.
Qed.
End ClipFacts.

Lemma create_animations_requirements_witness :
  create_animations (H:=Demo.platform) [] (PyFloat 1) = Raise IndexError /\
  create_animations (H:=Demo.platform) triangle_bones (PyInt (2 ^ 1024)) = Raise OverflowError /\
  exists animations,
    create_animations (H:=Demo.platform) (take 2 triangle_bones) (PyFloat 1) = Ok animations.
Proof.
  destruct (create_animations_requirements (H:=Demo.platform) [] (PyFloat 1))
    as (Hnone & _).
  destruct (create_animations_requirements (H:=Demo.platform) triangle_bones
              (PyInt (2 ^ 1024))) as (_ & _ & Hover & _).
  destruct (create_animations_requirements (H:=Demo.platform) (take 2 triangle_bones)
              (PyFloat 1)) as (_ & _ & _ & Hok).
  split; [|split].
  - apply Hnone. vm_compute. reflexivity.
  - eapply Hover; [vm_compute; reflexivity|vm_compute; discriminate|vm_compute; reflexivity].
  - eapply Hok; [vm_compute; reflexivity|vm_compute; discriminate|reflexivity].
Defined.

Lemma create_animations_clips_witness :
  map fst triangle_animations = ["Idle"; "Walk"; "Attack"]%string /\
  map (fun a => len (snd a)) triangle_animations = [1; 5; 3].
Proof.
  destruct (create_animations_clips (H:=Demo.platform) triangle_bones (PyFloat 1)
              triangle_animations) as (Hn & Hc & _).
  - vm_compute. reflexivity.
  - split; assumption.
Defined.

(** ** The skin weights: shapes, joints and packing *)

Lemma rev_is_reverse {A} (l : list A) : rev l = reverse l.
Proof. unfold reverse. apply rev_alt. Qed.

Lemma traverse_total {A B} (f : A -> result B) (P : B -> Prop) (l : list A) :
  Forall (fun x => exists y, f x = Ok y /\ P y) l ->
  exists ys, traverse f l = Ok ys /\ Forall P ys /\ length ys = length l.
Proof.
  induction 1 as [|x l (y & Hy & HP) _ (ys & Hys & HPs & Hl)].
  - exists []. by repeat split.
  - exists (y :: ys). cbn [traverse mbind result_bind]. rewrite Hy, Hys.
    repeat split; [by constructor|cbn; by rewrite Hl].
Qed.

Lemma assign_row_spec {A} (k : Z) (src row : list A) :
  0 <= k -> assign_row k src = Ok row ->
  len row = k /\ Forall (fun x => x ∈ src) row.
Proof.
  intros Hk. unfold assign_row.
  destruct (Z.eqb_spec (len src) k) as [Hl|Hl].
  - intros [= <-]. split; [assumption|]. by apply Forall_forall.
  - destruct src as [|x [|y src] ]; try discriminate.
    intros [= <-]. split; [rewrite len_replicate; lia|].
    apply Forall_forall. intros y Hy. apply elem_of_replicate in Hy as [-> _].
    by left.
Qed.

Lemma assign_row_mismatch {A} (k : Z) (x y : A) (l : list A) :
  len (x :: y :: l) <> k ->
  assign_row k (x :: y :: l) = Raise (ValueError "could not broadcast input array").
Proof. intros Hl. unfold assign_row. by destruct (Z.eqb_spec (len (x :: y :: l)) k). Qed.

Lemma length_normalize (ws : list float) : length (normalize ws) = length ws.
Proof. unfold normalize. destruct (PrimFloat.ltb _ _); [apply length_map|reflexivity]. Qed.

Lemma py_slice_last4 {A} (l : list A) :
  py_slice l (-4) (len l) = drop (length l - 4) l.
Proof.
  unfold py_slice. change (-4 <? 0) with true. cbv iota.
  pose proof (len_nonneg l).
  destruct (Z.ltb_spec (len l) 0); [lia|].
  rewrite Z.min_id.
  replace (Z.to_nat (Z.max (-4 + len l) 0)) with (length l - 4)%nat
    by (unfold len; lia).
  apply take_ge. rewrite length_drop. unfold len. lia.
Qed.

Lemma pack_array_floats (ws : list float) :
  Forall (fun w => f32_overflow w = false) ws ->
  pack_array pack_f (map PyFloat ws) = Ok (concat (map f32_bytes ws)).
Proof.
  intros Hws. unfold pack_array.
  rewrite (traverse_ok pack_f
             (fun a => match a with PyFloat w => f32_bytes w | PyInt _ => [] end)).
  - cbv [fmap result_fmap]. by rewrite List.map_map.
  - apply Forall_map. eapply Forall_impl; [exact Hws|].
    intros w Hw. cbn beta in Hw. unfold pack_f. by rewrite Hw.
Qed.

Section SkinFacts.
Context `{Platform}.

Lemma skin_row_shape (bone_positions : list (list float)) (k : Z) (pos : list pynum)
    (js : list Z) (ws : list float) :
  0 <= k -> skin_row bone_positions k pos = Ok (js, ws) ->
  len js = k /\ len ws = k /\
  Forall (fun j => 0 <= j < 256) js /\ Forall (fun w => f32_overflow w = false) ws.
Proof.
  intros Hk Hrow. unfold skin_row in Hrow.
  destruct (traverse py_float pos) as [fs|];
    cbn [mbind result_bind] in Hrow; [|discriminate].
  destruct (match fs with [] => _ | _ => _ end) as [p|];
    cbn [mbind result_bind] in Hrow; [|discriminate].
  cbv zeta in Hrow.
  destruct (traverse _ _) as [tw|];
    cbn [mbind result_bind] in Hrow; [|discriminate].
  destruct (assign_row k (map _ (rev _))) as [js'|] eqn:Ej;
    cbn [mbind result_bind] in Hrow; [|discriminate].
  destruct (assign_row k (map _ (normalize tw))) as [ws'|] eqn:Ew;
    cbn [mbind result_bind] in Hrow; [|discriminate].
  injection Hrow as <- <-.
  destruct (assign_row_spec _ _ _ Hk Ej) as [Hlj Hj].
  destruct (assign_row_spec _ _ _ Hk Ew) as [Hlw Hw].
  repeat split; try assumption.
  - eapply Forall_impl; [exact Hj|]. intros j Hin. cbn beta in Hin.
    apply list_elem_of_In, in_map_iff in Hin as (i & <- & _).
    apply Z.mod_pos_bound. lia.
  - eapply Forall_impl; [exact Hw|]. intros w Hin. cbn beta in Hin.
    apply list_elem_of_In, in_map_iff in Hin as (w0 & <- & _).
    apply f32_overflow_of_f32.
Qed.

(** What [compute_skin_weights] returns can always be written to the
    payload: there are [max_influences] joints and as many weights per
    vertex; the joints are bytes, so packing them with ['B'] does not raise;
    the weights come from a float32 array, so packing them with ['f'] does
    not raise either; the sizes are one and four bytes per item. *)
Theorem skin_weights_pack (positions : list (list pynum)) (bones : list Bone)
    (max_influences : Z) (js : list Z) (ws : list float) (bin_data : list byte) :
  compute_skin_weights positions bones max_influences = Ok (js, ws) ->
  len js = max_influences * len positions /\
  len ws = max_influences * len positions /\
  Forall (fun j => 0 <= j < 256) js /\
  (exists grown,
     add_to_buffer bin_data (Nums (map PyInt js)) "B"
       = Ok (grown, (len (pad4 x00 bin_data), max_influences * len positions))) /\
  (exists grown,
     add_to_buffer bin_data (Nums (map PyFloat ws)) "f"
       = Ok (grown, (len (pad4 x00 bin_data), 4 * (max_influences * len positions)))).
Proof.
  intros Hc. unfold compute_skin_weights in Hc.
  destruct (Z.ltb_spec max_influences 0) as [|Hk]; [discriminate|].
  destruct (traverse _ bones) as [bone_positions|];
    cbn [mbind result_bind] in Hc; [|discriminate].
  destruct (negb _); [discriminate|].
  destruct (traverse _ positions) as [rows|] eqn:Et;
    cbn [mbind result_bind] in Hc; [|discriminate].
  injection Hc as <- <-.
  assert (Hrows : Forall (fun r => len (fst r) = max_influences /\
                                   len (snd r) = max_influences /\
                                   Forall (fun j => 0 <= j < 256) (fst r) /\
                                   Forall (fun w => f32_overflow w = false) (snd r)) rows).
  { eapply traverse_Forall; [|exact Et]. intros pos [js ws] Hrow.
    by apply (skin_row_shape bone_positions max_influences pos). }
  assert (Hn : len rows = len positions).
  { unfold len. by rewrite (traverse_length _ _ _ Et). }
  assert (Hlj : len (concat (map fst rows)) = max_influences * len positions).
  { rewrite len_concat_const with (k := max_influences); [by rewrite len_map, Hn|].
    apply Forall_map. eapply Forall_impl; [exact Hrows|]. by intros r (? & _). }
  assert (Hlw : len (concat (map snd rows)) = max_influences * len positions).
  { rewrite len_concat_const with (k := max_influences); [by rewrite len_map, Hn|].
    apply Forall_map. eapply Forall_impl; [exact Hrows|]. by intros r (_ & ? & _). }
  assert (Hj : Forall (fun j => 0 <= j < 256) (concat (map fst rows))).
  { apply Forall_concat, Forall_map. eapply Forall_impl; [exact Hrows|].
    by intros r (_ & _ & ? & _). }
  assert (Hw : Forall (fun w => f32_overflow w = false) (concat (map snd rows))).
  { apply Forall_concat, Forall_map. eapply Forall_impl; [exact Hrows|].
    by intros r (_ & _ & _ & ?). }
  split; [assumption|]. split; [assumption|]. split; [assumption|]. split.
  - unfold add_to_buffer. cbn [String.eqb Ascii.eqb Bool.eqb].
    rewrite (pack_array_uint 1) by exact Hj. cbn [mbind result_bind].
    eexists. do 3 f_equal.
    rewrite len_concat_const with (k := 1); [rewrite len_map; lia|].
    apply Forall_map, Forall_true. intros j. apply len_le_bytes.
  - unfold add_to_buffer. cbn [String.eqb Ascii.eqb Bool.eqb].
    rewrite pack_array_floats by exact Hw. cbn [mbind result_bind].
    eexists. do 3 f_equal.
    rewrite len_concat_const with (k := 4); [rewrite len_map; lia|].
    apply Forall_map, Forall_true. intros w. apply len_le_bytes.
Qed.

Lemma bone_positions_ok (bones : list Bone) :
  Forall (fun b => float_triple (bone_pos b)) bones ->
  exists bone_positions,
    traverse (fun b => traverse py_float (bone_pos b)) bones = Ok bone_positions /\
    Forall (fun p => len p = 3) bone_positions /\
    length bone_positions = length bones.
Proof.
  intros Hb. apply traverse_total.
  eapply Forall_impl; [exact Hb|]. intros b (x & y & z & ->).
  exists [x; y; z]. by split.
Qed.

Lemma forallb_len3 (bone_positions : list (list float)) :
  Forall (fun p => len p = 3) bone_positions ->
  forallb (fun p => len p =? 3) bone_positions = true.
Proof.
  intros Hb. apply forallb_forall. intros p Hp.
  apply Z.eqb_eq. rewrite Forall_forall in Hb. by apply Hb, list_elem_of_In.
Qed.

(** The indices selected for a vertex when [argsort] permutes: the last
    four of the order, or all of them when there are fewer. *)
Lemma top_indices_spec (inv : list float) :
  argsort_permutes ->
  let top := rev (py_slice (np_argsort inv) (-4) (len (np_argsort inv))) in
  length top = (length inv `min` 4)%nat /\ NoDup top /\
  Forall (fun i => (i < length inv)%nat) top.
Proof.
  intros Hperm top. subst top. rewrite py_slice_last4, rev_is_reverse.
  pose proof (Hperm inv) as Hp.
  assert (Hl : length (np_argsort inv) = length inv).
  { by rewrite Hp, length_seq. }
  split; [|split].
  - rewrite length_reverse, length_drop. lia.
  - rewrite reverse_Permutation. eapply sublist_NoDup; try apply sublist_drop.
    rewrite Hp. apply NoDup_seq.
  - apply Forall_reverse, Forall_drop, Forall_forall. intros i Hi.
    rewrite Hp in Hi. apply elem_of_seq in Hi. lia.
Qed.

Lemma top_weights_ok (inv : list float) (top : list nat) :
  Forall (fun i => (i < length inv)%nat) top ->
  exists tw,
    traverse (fun i => match inv !! i with
                       | Some w => Ok w
                       | None => Raise IndexError
                       end) top = Ok tw /\
    length tw = length top.
Proof.
  intros Htop.
  destruct (traverse_total
              (fun i => match inv !! i with Some w => Ok w | None => Raise IndexError end)
              (fun _ => True) top) as (tw & Ht & _ & Hl).
  - eapply Forall_impl; [exact Htop|]. intros i Hi. cbn beta in Hi.
    destruct (lookup_lt_is_Some_2 inv i Hi) as [w ->]. by exists w.
  - by exists tw.
Qed.

(** With at least four bones (and at most 256, the range of the joints
    array) the solver returns, and the joints of each vertex are four
    different bone indices. *)
Theorem skin_joints_are_bones (positions : list (list pynum)) (bones : list Bone) :
  argsort_permutes ->
  Forall (fun b => float_triple (bone_pos b)) bones ->
  Forall float_triple positions ->
  4 <= len bones <= 256 ->
  exists rows ws,
    compute_skin_weights positions bones 4 = Ok (concat rows, ws) /\
    length rows = length positions /\
    Forall (fun row => length row = 4%nat /\ NoDup row /\
                       Forall (fun j => 0 <= j < len bones) row) rows.
Proof.
  intros Hperm Hbones Hpos Hnb. unfold compute_skin_weights.
  change (4 <? 0) with false. cbv iota.
  destruct (bone_positions_ok bones Hbones) as (bp & -> & Hbp & Hlen).
  cbn [mbind result_bind]. rewrite (forallb_len3 bp Hbp). cbn [negb].
  assert (Hne : exists b bp', bp = b :: bp').
  { destruct bp as [|b bp']; [|by eexists _, _].
    unfold len in Hnb. rewrite <- Hlen in Hnb. cbn in Hnb. lia. }
  destruct (traverse_total (skin_row bp 4)
              (fun r => length (fst r) = 4%nat /\ NoDup (fst r) /\
                        Forall (fun j => 0 <= j < len bones) (fst r)) positions)
    as (rows & -> & Hrows & Hl).
  - eapply Forall_impl; [exact Hpos|]. intros pos (x & y & z & ->).
    unfold skin_row. cbn [traverse py_float mbind result_bind].
    assert (Hm : forall (e : PyErr) (v : list float),
              match bp with [] => Raise e | _ :: _ => Ok v end = Ok v).
    { destruct Hne as (b & bp' & ->). reflexivity. }
    rewrite Hm. cbn [mbind result_bind].
    cbv zeta. set (inv := inv_dist bp [x; y; z]).
    assert (Hinv : length inv = length bones).
    { subst inv. unfold inv_dist, distances. by rewrite !length_map. }
    destruct (top_indices_spec inv Hperm) as (Htl & Htn & Htr).
    set (top := rev (py_slice (np_argsort inv) (-4) (len (np_argsort inv)))) in *.
    change (- (4)) with (-4). fold top.
    destruct (top_weights_ok inv top Htr) as (tw & -> & Htw).
    cbn [mbind result_bind].
    assert (Hfour : length top = 4%nat) by (unfold len in Hnb; lia).
    unfold assign_row, len.
    rewrite !length_map, length_normalize, Htw, Hfour.
    cbn [Z.of_nat Pos.of_succ_nat Pos.succ Z.eqb Pos.eqb mbind result_bind].
    eexists. split; [reflexivity|]. cbn [fst].
    split; [by rewrite length_map|]. split.
    + apply NoDup_fmap_2_strong; [|assumption].
      intros i j Hi Hj Hij. rewrite Forall_forall in Htr.
      apply Htr in Hi, Hj. unfold len in Hnb.
      rewrite !Z.mod_small in Hij by lia. lia.
    + apply Forall_map. eapply Forall_impl; [exact Htr|].
      intros i Hi. cbn beta in *. unfold len in *.
      rewrite Z.mod_small by lia. lia.
  - cbn [mbind result_bind]. exists (map fst rows), (concat (map snd rows)).
    split; [reflexivity|]. split; [by rewrite length_map|].
    by apply Forall_map.
Qed.

Lemma skin_row_few_bones (bone_positions : list (list float)) (x y z : float) :
  argsort_permutes ->
  (length bone_positions = 0 \/ 2 <= length bone_positions < 4)%nat ->
  exists msg,
    skin_row bone_positions 4 [PyFloat x; PyFloat y; PyFloat z] = Raise (ValueError msg).
Proof.
  intros Hperm Hnb. unfold skin_row. cbn [traverse py_float mbind result_bind].
  destruct bone_positions as [|b bp'].
  { eexists. reflexivity. }
  cbn [mbind result_bind]. cbv zeta. set (inv := inv_dist (b :: bp') [x; y; z]).
  assert (Hinv : length inv = length (b :: bp')).
  { subst inv. unfold inv_dist, distances. by rewrite !length_map. }
  destruct (top_indices_spec inv Hperm) as (Htl & Htn & Htr).
  set (top := rev (py_slice (np_argsort inv) (-4) (len (np_argsort inv)))) in *.
  change (- (4)) with (-4). fold top.
  destruct (top_weights_ok inv top Htr) as (tw & -> & Htw).
  cbn [mbind result_bind].
  assert (Hshort : (2 <= length top < 4)%nat).
  { cbn [length] in *. lia. }
  destruct top as [|i [|j top'] ]; try (cbn in Hshort; lia).
  cbn [map]. rewrite assign_row_mismatch.
  - eexists. reflexivity.
  - unfold len. cbn [length] in *. rewrite length_map. lia.
Qed.

(** With no bone, or with two or three, the solver raises [ValueError] at
    the first vertex: an empty array does not broadcast against the vertex,
    and a row of two or three indices does not fit a row of four joints. *)
Theorem skin_needs_four_bones (pos : list pynum) (rest : list (list pynum))
    (bones : list Bone) :
  argsort_permutes ->
  Forall (fun b => float_triple (bone_pos b)) bones ->
  float_triple pos ->
  len bones = 0 \/ 2 <= len bones < 4 ->
  exists msg, compute_skin_weights (pos :: rest) bones 4 = Raise (ValueError msg).
Proof.
  intros Hperm Hbones (x & y & z & ->) Hnb. unfold compute_skin_weights.
  change (4 <? 0) with false. cbv iota.
  destruct (bone_positions_ok bones Hbones) as (bp & -> & Hbp & Hlen).
  cbn [mbind result_bind]. rewrite (forallb_len3 bp Hbp). cbn [negb].
  destruct (skin_row_few_bones bp x y z Hperm) as [msg Hrow].
  { unfold len in Hnb. lia. }
  exists msg. cbn [traverse]. by rewrite Hrow.
Qed.
End SkinFacts.

(** The reference platform's [argsort] is an insertion sort of the
    indices. *)
Lemma insert_sorted_permutes (key : nat -> float) (i : nat) (l : list nat) :
  Demo.insert_sorted key i l ≡ₚ i :: l.
Proof.
  induction l as [|j l IH]; [reflexivity|].
  cbn [Demo.insert_sorted]. destruct (Demo.np_le _ _); [|reflexivity].
  rewrite IH. apply Permutation_swap.
Qed.

Lemma demo_argsort_permutes : argsort_permutes (H:=Demo.platform).
Proof.
  intros a. cbn [np_argsort Demo.platform]. unfold Demo.argsort.
  set (key := fun j => default nan (a !! j)).
  assert (Hfold : forall (l acc : list nat),
            fold_left (fun acc i => Demo.insert_sorted key i acc) l acc ≡ₚ acc ++ l).
  { induction l as [|i l IH]; intros acc; cbn [fold_left].
    - by rewrite app_nil_r.
    - rewrite IH, insert_sorted_permutes.
      change (i :: acc) with ([i] ++ acc).
      rewrite (Permutation_app_comm [i] acc), <- app_assoc. reflexivity. }
  apply Hfold.
Qed.

Lemma skin_weights_pack_witness :
  exists js ws grown,
    compute_skin_weights (H:=Demo.platform) triangle_positions triangle_bones 4 = Ok (js, ws) /\
    len js = 12 /\
    add_to_buffer [] (Nums (map PyFloat ws)) "f" = Ok (grown, (0, 48)).
Proof.
  destruct (compute_skin_weights (H:=Demo.platform) triangle_positions triangle_bones 4)
    as [ [js ws]|] eqn:Ec; [|vm_compute in Ec; discriminate Ec].
  destruct (skin_weights_pack (H:=Demo.platform) triangle_positions triangle_bones 4
              js ws [] Ec) as (Hj & _ & _ & _ & (grown & Hf)).
  exists js, ws, grown. split; [reflexivity|]. split; [exact Hj|exact Hf].
Defined.

Lemma triangle_bones_float : Forall (fun b => float_triple (bone_pos b)) triangle_bones.
Proof.
  let v := eval vm_compute in triangle_bones in change triangle_bones with v.
  repeat (constructor; [by eexists _, _, _|]). constructor.
Qed.

Lemma skin_joints_are_bones_witness :
  exists rows ws,
    compute_skin_weights (H:=Demo.platform) triangle_positions triangle_bones 4
      = Ok (concat rows, ws) /\
    length rows = 3%nat /\
    Forall (fun row => length row = 4%nat /\ NoDup row /\
                       Forall (fun j => 0 <= j < 20) row) rows.
Proof.
  apply (skin_joints_are_bones (H:=Demo.platform) triangle_positions triangle_bones).
  - exact demo_argsort_permutes.
  - exact triangle_bones_float.
  - repeat (constructor; [by eexists _, _, _|]). constructor.
  - vm_compute. split; discriminate.
Defined.

Lemma skin_needs_four_bones_witness :
  exists msg,
    compute_skin_weights (H:=Demo.platform) triangle_positions (take 3 triangle_bones) 4
      = Raise (ValueError msg).
Proof.
  apply (skin_needs_four_bones (H:=Demo.platform)).
  - exact demo_argsort_permutes.
  - apply Forall_take, triangle_bones_float.
  - by eexists _, _, _.
  - right. vm_compute. split; [discriminate|reflexivity].
Defined.

(** ** Locate-Mesh *)

Lemma find_mesh_node_first (start : Z) (nodes : list json) (i : Z) :
  find_mesh_node start nodes = Ok (Some i) ->
  start <= i < start + len nodes /\
  (exists node, nodes !! Z.to_nat (i - start) = Some node /\
                contains_str "mesh" node = Ok true) /\
  (forall (j : nat) node, (j < Z.to_nat (i - start))%nat -> nodes !! j = Some node ->
                          contains_str "mesh" node = Ok false).
Proof.
  revert start. induction nodes as [|node nodes IH]; intros start Hf;
    cbn [find_mesh_node] in Hf; [discriminate|].
  destruct (contains_str "mesh" node) as [c|] eqn:Ec;
    cbn [mbind result_bind] in Hf; [|discriminate].
  unfold len. cbn [length]. destruct c.
  - injection Hf as <-. split; [lia|]. rewrite Z.sub_diag. split.
    + exists node. by split.
    + intros j n Hj. cbn in Hj. lia.
  - destruct (IH _ Hf) as (Hr & (n & Hn & Hm) & Hbefore). unfold len in Hr.
    split; [lia|].
    replace (Z.to_nat (i - start)) with (S (Z.to_nat (i - (start + 1)))) by lia.
    split.
    + exists n. by split.
    + intros [|j] n' Hj Hn'.
      * cbn in Hn'. by injection Hn' as <-.
      * cbn in Hn'. apply (Hbefore j n'); [lia|assumption].
Qed.

(** Locate-Mesh returns the index of the first node that has a ['mesh']
    entry: the node at that index has one, and no node before it has. *)
Theorem locate_mesh_first (gltf : json) (nodes : list json) (mesh_node_idx : Z) :
  py_getitem gltf (JStr "nodes") = Ok (JArr nodes) ->
  locate_mesh gltf = Ok mesh_node_idx ->
  0 <= mesh_node_idx < len nodes /\
  (exists node, nodes !! Z.to_nat mesh_node_idx = Some node /\
                contains_str "mesh" node = Ok true) /\
  (forall (j : nat) node, (j < Z.to_nat mesh_node_idx)%nat -> nodes !! j = Some node ->
                          contains_str "mesh" node = Ok false).
Proof.
  intros Hnodes Hl. unfold locate_mesh in Hl. rewrite Hnodes in Hl.
  cbn [mbind result_bind py_iter] in Hl.
  destruct (find_mesh_node 0 nodes) as [ [i|]|] eqn:Ef;
    cbn [mbind result_bind] in Hl; try discriminate.
  injection Hl as <-.
  destruct (find_mesh_node_first 0 nodes i Ef) as (Hr & Hn & Hb).
  rewrite Z.sub_0_r in *. split; [lia|]. by split.
Qed.

Lemma locate_mesh_first_witness :
  exists node,
    [JObj [("name", JStr "a")]; JObj [("mesh", JInt 0)]; JObj [("mesh", JInt 1)]]%string
      !! Z.to_nat 1 = Some node /\
    contains_str "mesh" node = Ok true.
Proof.
  destruct (locate_mesh_first
              (JObj [("nodes", JArr [JObj [("name", JStr "a")]; JObj [("mesh", JInt 0)];
                                     JObj [("mesh", JInt 1)]])]%string)
              [JObj [("name", JStr "a")]; JObj [("mesh", JInt 0)];
               JObj [("mesh", JInt 1)]]%string 1) as (_ & Hn & _).
  - reflexivity.
  - reflexivity.
  - exact Hn.
Defined.

(** ** The payload through the pipeline *)

#[export] Instance extends_preorder : PreOrder extends.
Proof.
  split.
  - intros b. exists []. by rewrite app_nil_r.
  - intros b1 b2 b3 [a1 ->] [a2 ->]. exists (a1 ++ a2). by rewrite app_assoc.
Qed.

Lemma add_to_buffer_grows bin_data data dtype bin_data' offset size :
  add_to_buffer bin_data data dtype = Ok (bin_data', (offset, size)) ->
  extends bin_data bin_data'.
Proof.
  intros Hadd. unfold add_to_buffer in Hadd.
  destruct (if String.eqb dtype "f" then _ else _) as [packed|];
    cbn [mbind result_bind] in Hadd; [|discriminate].
  injection Hadd as <- _ _. rewrite pad4_spec, <- app_assoc. by eexists.
Qed.

Lemma add_to_buffer_floats_aligned bin_data l bin_data' offset size :
  add_to_buffer bin_data (Nums l) "f" = Ok (bin_data', (offset, size)) ->
  len bin_data' mod 4 = 0.
Proof.
  intros Hadd. unfold add_to_buffer in Hadd. cbn [String.eqb Ascii.eqb Bool.eqb] in Hadd.
  destruct (pack_array pack_f l) as [packed|] eqn:Ep;
    cbn [mbind result_bind] in Hadd; [|discriminate].
  injection Hadd as <- _ _.
  rewrite len_app, (pack_array_len pack_f 4 l packed pack_f_len Ep).
  pose proof (pad4_aligned x00 bin_data). Z.div_mod_to_equations. lia.
Qed.

(** One step of a computation in the exception monad: the first
    computation returned, and the rest goes on with its value. *)
Ltac bind_step H :=
  match type of H with
  | mbind _ ?m = Ok _ =>
    let E := fresh "E" in
    destruct m eqn:E; cbn [mbind result_bind] in H; [|discriminate H]
  end.

Ltac split_pairs :=
  repeat match goal with
         | p : (_ * _)%type |- _ => destruct p
         end.

Lemma add_channel_payload jni st ch st' :
  add_channel jni st ch = Ok st' ->
  extends (cs_bin st) (cs_bin st') /\ len (cs_bin st') mod 4 = 0.
Proof.
  intros Hc. destruct st as [gltf bin_data samplers chans].
  unfold add_channel in Hc.
  repeat (bind_step Hc; split_pairs).
  injection Hc as <-. cbn [cs_bin].
  split.
  - repeat match goal with
           | Hb : add_to_buffer _ _ _ = Ok _ |- _ => apply add_to_buffer_grows in Hb
           end.
    repeat (etransitivity; [eassumption|]). reflexivity.
  - match goal with
    | Hb : add_to_buffer _ (Nums (ch_values ch)) _ = Ok _ |- _ =>
      by apply add_to_buffer_floats_aligned in Hb
    end.
Qed.

Lemma fold_channels_payload jni chs st st' :
  foldM (add_channel jni) chs st = Ok st' ->
  extends (cs_bin st) (cs_bin st') /\
  (len (cs_bin st) mod 4 = 0 -> len (cs_bin st') mod 4 = 0).
Proof.
  revert st. induction chs as [|ch chs IH]; intros st Hf; cbn [foldM] in Hf.
  - injection Hf as <-. by split.
  - bind_step Hf. destruct (add_channel_payload _ _ _ _ E) as [He Ha].
    destruct (IH _ Hf) as [He' Ha'].
    split; [by etransitivity|]. intros _. by apply Ha'.
Qed.

Lemma add_animation_payload jni g b anim g' b' :
  add_animation jni (g, b) anim = Ok (g', b') ->
  extends b b' /\ (len b mod 4 = 0 -> len b' mod 4 = 0).
Proof.
  intros Ha. destruct anim as [name chs]. unfold add_animation in Ha.
  bind_step Ha. bind_step Ha. injection Ha as _ <-.
  apply (fold_channels_payload _ _ _ _ E).
Qed.

Lemma fold_animations_payload jni anims g b g' b' :
  foldM (add_animation jni) anims (g, b) = Ok (g', b') ->
  extends b b' /\ (len b mod 4 = 0 -> len b' mod 4 = 0).
Proof.
  revert g b. induction anims as [|anim anims IH]; intros g b Hf; cbn [foldM] in Hf.
  - injection Hf as <- <-. by split.
  - bind_step Hf. destruct a as [g1 b1].
    destruct (add_animation_payload _ _ _ _ _ _ E) as [He Ha].
    destruct (IH _ _ Hf) as [He' Ha'].
    split; [by etransitivity|]. intros Hal. by apply Ha', Ha.
Qed.

(** ** Entries of the document across an update *)

Lemma dict_get_set_eq k v kvs : dict_get k (dict_set k v kvs) = Some v.
Proof.
  induction kvs as [|[k' v'] kvs IH]; cbn [dict_set dict_get].
  - by rewrite String.eqb_refl.
  - destruct (String.eqb k k') eqn:E; cbn [dict_get]; rewrite ?String.eqb_refl, ?E; auto.
Qed.

Lemma dict_get_set_ne k k' v kvs :
  k' <> k -> dict_get k' (dict_set k v kvs) = dict_get k' kvs.
Proof.
  intros Hne. induction kvs as [|[k0 v0] kvs IH]; cbn [dict_set dict_get].
  - destruct (String.eqb_spec k' k); [contradiction|reflexivity].
  - destruct (String.eqb_spec k k0) as [->|Hk]; cbn [dict_get].
    + destruct (String.eqb_spec k' k0); [contradiction|reflexivity].
    + destruct (String.eqb_spec k' k0); [reflexivity|assumption].
Qed.

Lemma py_getitem_field g k v : py_getitem g (JStr k) = Ok v -> field k g = Some v.
Proof.
  destruct g; cbn [py_getitem as_index field]; try discriminate.
  destruct (dict_get k kvs); [by intros [= ->]|discriminate].
Qed.

Lemma field_py_getitem g k v : field k g = Some v -> py_getitem g (JStr k) = Ok v.
Proof. destruct g; cbn [py_getitem field]; try discriminate. by intros ->. Qed.

Lemma py_setitem_field g k v g' :
  py_setitem g (JStr k) v = Ok g' ->
  field k g' = Some v /\ forall k', k' <> k -> field k' g' = field k' g.
Proof.
  destruct g; cbn [py_setitem as_index]; try discriminate.
  intros [= <-]. cbn [field]. split; [apply dict_get_set_eq|].
  intros k' Hne. by apply dict_get_set_ne.
Qed.

(** An update below the key [k] leaves every other entry as it was. *)
Lemma update_at_field k path f g g' :
  update_at (JStr k :: path) f g = Ok g' ->
  exists v v', field k g = Some v /\ update_at path f v = Ok v' /\
               field k g' = Some v' /\
               forall k', k' <> k -> field k' g' = field k' g.
Proof.
  intros Hu. cbn [update_at] in Hu.
  bind_step Hu. bind_step Hu.
  apply py_getitem_field in E. apply py_setitem_field in Hu as [Hk Hother].
  by eexists _, _.
Qed.

Lemma ensure_list_field k g g' :
  ensure_list k g = Ok g' -> forall k', k' <> k -> field k' g' = field k' g.
Proof.
  intros He. unfold ensure_list in He. bind_step He.
  destruct a; [by injection He as <-|].
  by apply py_setitem_field in He as [_ Hother].
Qed.

Lemma add_root_to_scene_field root g g' :
  add_root_to_scene root g = Ok g' ->
  forall k, k <> "scenes"%string -> field k g' = field k g.
Proof.
  intros Ha k Hk. unfold add_root_to_scene in Ha.
  bind_step Ha. destruct (negb a); [by injection Ha as <-|].
  bind_step Ha. bind_step Ha. destruct (negb _); [by injection Ha as <-|].
  bind_step Ha. bind_step Ha. bind_step Ha.
  apply update_at_field in E2 as (? & ? & _ & _ & _ & Ho2).
  destruct a4.
  - injection Ha as <-. by apply Ho2.
  - apply update_at_field in Ha as (? & ? & _ & _ & _ & Ho). rewrite Ho by assumption.
    by apply Ho2.
Qed.

Lemma set_byte_length (n : Z) (g g' : json) :
  update_at [JStr "buffers"; JInt 0]
    (fun b => py_setitem b (JStr "byteLength") (JInt n)) g = Ok g' ->
  exists kvs rest, field "buffers" g' = Some (JArr (JObj kvs :: rest)) /\
                   dict_get "byteLength" kvs = Some (JInt n).
Proof.
  intros Hu. apply update_at_field in Hu as (v & v' & _ & Hu & Hf & _).
  cbn [update_at] in Hu. bind_step Hu. bind_step Hu.
  destruct v as [|b0|n0|f0|s0|l|kvs0]; cbn [py_getitem as_index] in E; try discriminate.
  destruct l as [|b rest]; [discriminate|].
  cbv in E. injection E as <-.
  destruct b; cbn [py_setitem as_index] in E0; try discriminate.
  injection E0 as <-.
  cbn [py_setitem as_index] in Hu.
  change (0 <? 0) with false in Hu. cbv iota in Hu.
  unfold len in Hu. cbn [length] in Hu.
  destruct ((0 <=? 0) && (0 <? Z.of_nat (S (length rest)))) eqn:Er; [|discriminate].
  injection Hu as <-. change (Z.to_nat 0) with 0%nat in Hf. cbn in Hf.
  eexists _, _. split; [exact Hf|]. apply dict_get_set_eq.
Qed.

Section PayloadFacts.
Context `{Platform}.

Lemma attach_payload gltf bin_data mesh_node_idx primitive num_positions bones
    joints_data weights_data animations gltf' bin_data' :
  attach gltf bin_data mesh_node_idx primitive num_positions bones
         joints_data weights_data animations = Ok (gltf', bin_data') ->
  extends bin_data bin_data' /\ len bin_data' mod 4 = 0 /\
  get_at [JStr "buffers"; JInt 0; JStr "byteLength"] gltf' = Ok (JInt (len bin_data')).
Proof.
  intros Ha. unfold attach in Ha.
  repeat (bind_step Ha; split_pairs).
  injection Ha as <- <-.
  match goal with
  | Hf : foldM (add_animation _) animations _ = Ok _ |- _ =>
    apply fold_animations_payload in Hf as [Hext Hal]
  end.
  match goal with
  | Hw : add_to_buffer _ (Nums (map PyFloat weights_data)) _ = Ok _ |- _ =>
    pose proof (add_to_buffer_floats_aligned _ _ _ _ _ Hw) as Haligned
  end.
  split; [|split].
  - repeat match goal with
           | Hb : add_to_buffer _ _ _ = Ok _ |- _ => apply add_to_buffer_grows in Hb
           end.
    repeat (etransitivity; [eassumption|]). reflexivity.
  - by apply Hal.
  - match goal with
    | Hs : add_root_to_scene _ _ = Ok _ |- _ =>
      pose proof (add_root_to_scene_field _ _ _ Hs "buffers" ltac:(discriminate)) as Hsame
    end.
    match goal with
    | Hu : update_at [JStr "buffers"; JInt 0] _ _ = Ok _ |- _ =>
      apply set_byte_length in Hu as (kvs & rest & Hb & Hl)
    end.
    rewrite <- Hsame in Hb.
    cbn [get_at]. rewrite (field_py_getitem _ _ _ Hb). cbn [mbind result_bind].
    change (py_getitem (JArr (JObj kvs :: rest)) (JInt 0)) with (Ok (JObj kvs)).
    cbn [mbind result_bind py_getitem]. by rewrite Hl.
Qed.

Lemma rig_attach (gltf : json) (bin_data : list byte) (r : json * list byte) :
  rig gltf bin_data = Ok r ->
  exists mesh_node_idx primitive positions min_pt max_pt mesh_height bones
         joints_data weights_data animations,
    create_humanoid_skeleton (min_pt, max_pt) = Ok bones /\
    compute_skin_weights (tuples_of positions) bones 4 = Ok (joints_data, weights_data) /\
    create_animations bones mesh_height = Ok animations /\
    attach gltf bin_data mesh_node_idx primitive (count_of positions) bones
           joints_data weights_data animations = Ok r.
Proof.
  intros Hr. unfold rig in Hr.
  repeat (bind_step Hr; split_pairs).
  by eexists _, _, _, _, _, _, _, _, _, _.
Qed.

Lemma rig_aligned (gltf : json) (bin_data : list byte) (gltf' : json)
    (bin_data' : list byte) :
  rig gltf bin_data = Ok (gltf', bin_data') -> pad4 x00 bin_data' = bin_data'.
Proof.
  intros Hr. apply rig_attach in Hr as (? & ? & ? & ? & ? & ? & ? & ? & ? & ? & _ & _ & _ & Ha).
  apply attach_payload in Ha as (_ & Hal & _).
  rewrite pad4_spec. replace ((- len bin_data') mod 4) with 0
    by (Z.div_mod_to_equations; lia).
  apply app_nil_r.
Qed.

(** The pipeline only adds to the payload: the bytes of the input payload
    are kept at their offsets, so the mesh data stays where its buffer
    views point. The rigged payload has a length that is a multiple of
    four, and this length is what the rigged document declares as the
    [byteLength] of its first buffer. *)
Theorem rig_payload (gltf : json) (bin_data : list byte)
    (gltf' : json) (bin_data' : list byte) :
  rig gltf bin_data = Ok (gltf', bin_data') ->
  (exists added, bin_data' = bin_data ++ added) /\
  len bin_data' mod 4 = 0 /\
  get_at [JStr "buffers"; JInt 0; JStr "byteLength"] gltf' = Ok (JInt (len bin_data')).
Proof.
  intros Hr. apply rig_attach in Hr as (? & ? & ? & ? & ? & ? & ? & ? & ? & ? & _ & _ & _ & Ha).
  by apply attach_payload in Ha.
Qed.

(** What [add_skeleton_to_glb] does to the file system. No file other
    than the output is ever touched. When reading the input or any stage
    before the writing raises, nothing at all is written. When it returns,
    the output file is the container of the rigged document and payload,
    whose BIN chunk is the rigged payload itself, with no padding. *)
Theorem add_skeleton_to_glb_effect (input_path output_path : string) (w w' : World)
    (r : result unit) :
  add_skeleton_to_glb input_path output_path w = (w', r) ->
  (forall other, other <> output_path -> w' !! other = w !! other) /\
  (forall e, read_glb input_path w = Raise e -> w' = w /\ r = Raise e) /\
  (forall gltf bin_data e,
     read_glb input_path w = Ok (gltf, bin_data) -> rig gltf bin_data = Raise e ->
     w' = w /\ r = Raise e) /\
  (r = Ok tt ->
   exists gltf bin_data gltf' bin_data',
     read_glb input_path w = Ok (gltf, bin_data) /\
     rig gltf bin_data = Ok (gltf', bin_data') /\
     w' !! output_path =
       Some (glb_file magic_glTF 2
               (28 + len (pad4 x20 (json_dumps gltf')) + len bin_data')
               (pad4 x20 (json_dumps gltf')) bin_data')).
Proof.
  intros Hrun. unfold add_skeleton_to_glb in Hrun.
  destruct (read_glb input_path w) as [ [gltf bin_data]|e] eqn:Eread.
  2:{ injection Hrun as <- <-. split; [done|]. split; [by intros e0 [= <-]|].
      split; intros; discriminate. }
  destruct (rig gltf bin_data) as [ [gltf' bin_data']|e] eqn:Erig.
  2:{ injection Hrun as <- <-. split; [done|]. split; [intros; discriminate|].
      split; [|intros; discriminate].
      intros g b e0 [= <- <-] Hr. rewrite Erig in Hr. by injection Hr as <-. }
  pose proof (rig_aligned gltf bin_data gltf' bin_data' Erig) as Hpad.
  destruct (Z.lt_ge_cases (12 + 8 + len (pad4 x20 (json_dumps gltf')) + 8
                           + len (pad4 x00 bin_data')) (2 ^ 32)) as [Hlt|Hge].
  - rewrite write_glb_ok in Hrun by exact Hlt. injection Hrun as <- <-.
    split; [intros other Hne; by apply lookup_insert_ne|].
    split; [intros e; discriminate|]. split; [intros g b e [= <- <-]; congruence|].
    intros _. exists gltf, bin_data, gltf', bin_data'.
    split; [reflexivity|]. split; [exact Erig|].
    rewrite lookup_insert_eq, Hpad. do 2 f_equal. lia.
  - rewrite write_glb_fails in Hrun by exact Hge. injection Hrun as <- <-.
    split; [intros other Hne; by apply lookup_insert_ne|].
    split; [intros e; discriminate|]. split; [intros g b e [= <- <-]; congruence|].
    discriminate.
Qed.

(** Decoding what the pipeline wrote: the JSON chunk is the text the
    rigged document was dumped to, and the payload is the rigged payload
    byte for byte (it needed no padding). *)
Theorem rigged_file_decodes (input_path output_path : string) (w w' : World)
    (gltf : json) (bin_data : list byte) (gltf' : json) (bin_data' : list byte) :
  read_glb input_path w = Ok (gltf, bin_data) ->
  rig gltf bin_data = Ok (gltf', bin_data') ->
  add_skeleton_to_glb input_path output_path w = (w', Ok tt) ->
  read_glb output_path w' =
    d ← json_loads (pad4 x20 (json_dumps gltf')); Ok (d, bin_data').
Proof.
  intros Hread Hrig Hrun. unfold add_skeleton_to_glb in Hrun.
  rewrite Hread, Hrig in Hrun.
  pose proof (rig_aligned gltf bin_data gltf' bin_data' Hrig) as Hpad.
  destruct (Z.lt_ge_cases (12 + 8 + len (pad4 x20 (json_dumps gltf')) + 8
                           + len (pad4 x00 bin_data')) (2 ^ 32)) as [Hlt|Hge];
    [|rewrite write_glb_fails in Hrun by exact Hge; discriminate Hrun].
  rewrite write_glb_ok in Hrun by exact Hlt. injection Hrun as <-.
  pose proof (len_nonneg (pad4 x20 (json_dumps gltf'))).
  pose proof (len_nonneg (pad4 x00 bin_data')).
  erewrite read_glb_file; [| | | | |apply lookup_insert_eq];
    try (unfold magic_glTF; lia).
  change (negb (magic_glTF =? magic_glTF)) with false. cbv iota.
  destruct (json_loads (pad4 x20 (json_dumps gltf'))) as [d|e]; [|reflexivity].
  cbn [mbind result_bind].
  destruct (Z.ltb_spec (20 + len (pad4 x20 (json_dumps gltf')))
              (12 + 8 + len (pad4 x20 (json_dumps gltf')) + 8 + len (pad4 x00 bin_data')));
    [|lia].
  by rewrite Hpad.
Qed.
End PayloadFacts.

Lemma rig_triangle : rig (H:=Demo.platform) triangle_gltf triangle_bin = Ok triangle_rigged.
Proof. vm_compute. reflexivity. Qed.

Lemma rig_payload_witness :
  (exists added, triangle_rigged.2 = triangle_bin ++ added) /\
  len triangle_rigged.2 mod 4 = 0 /\
  get_at [JStr "buffers"; JInt 0; JStr "byteLength"] triangle_rigged.1
    = Ok (JInt (len triangle_rigged.2)).
Proof.
  apply (rig_payload (H:=Demo.platform) triangle_gltf triangle_bin).
  rewrite rig_triangle. exact (f_equal Ok (surjective_pairing triangle_rigged)).
Defined.

Lemma add_skeleton_to_glb_effect_witness :
  (add_skeleton_to_glb (H:=Demo.platform) "in.glb" "out.glb" triangle_world).1
    !! "in.glb"%string = Some triangle_file.
Proof.
  destruct (add_skeleton_to_glb_effect (H:=Demo.platform) "in.glb" "out.glb" triangle_world
              (add_skeleton_to_glb (H:=Demo.platform) "in.glb" "out.glb" triangle_world).1
              (add_skeleton_to_glb (H:=Demo.platform) "in.glb" "out.glb" triangle_world).2)
    as (Hother & _).
  - by destruct (add_skeleton_to_glb _ _ _).
  - rewrite Hother by discriminate. reflexivity.
Defined.

Lemma rigged_file_decodes_witness :
  read_glb (H:=Demo.platform) "out.glb"
    (add_skeleton_to_glb (H:=Demo.platform) "in.glb" "out.glb" triangle_world).1
  = d ← @json_loads Demo.platform (pad4 x20 (@json_dumps Demo.platform triangle_rigged.1));
    Ok (d, triangle_rigged.2).
Proof.
  apply (rigged_file_decodes (H:=Demo.platform) "in.glb" "out.glb" triangle_world _
           triangle_gltf triangle_bin).
  - vm_compute. reflexivity.
  - rewrite rig_triangle. exact (f_equal Ok (surjective_pairing triangle_rigged)).
  - vm_compute. reflexivity.
Defined.

(** ** The document through the pipeline *)

Lemma doc_delta_refl g : doc_delta g g 0 [] [] [] [].
Proof. split; rewrite ?app_nil_r; auto with arith. Qed.

Lemma doc_delta_trans g1 g2 g3 n a b s m n' a' b' s' m' :
  doc_delta g1 g2 n a b s m -> doc_delta g2 g3 n' a' b' s' m' ->
  doc_delta g1 g3 (n + n') (a ++ a') (b ++ b') (s ++ s') (m ++ m').
Proof.
  intros [Hn Ha Hb Hs Hm] [Hn' Ha' Hb' Hs' Hm']. split.
  - rewrite Hn', Hn. lia.
  - by rewrite Ha', Ha, app_assoc.
  - by rewrite Hb', Hb, app_assoc.
  - by rewrite Hs', Hs, app_assoc.
  - by rewrite Hm', Hm, app_assoc.
Qed.

Lemma items_same k g g' : field k g' = field k g -> items k g' = items k g.
Proof. unfold items. by intros ->. Qed.

Lemma doc_delta_same g g' :
  (forall k, k ∈ grown_keys -> field k g' = field k g) -> doc_delta g g' 0 [] [] [] [].
Proof.
  intros Hsame. split; rewrite ?app_nil_r, ?Nat.add_0_r;
    [f_equal|..]; apply items_same, Hsame; unfold grown_keys; set_solver.
Qed.

(** An update below a key that is none of the grown lists. *)
Lemma delta_other k path f g g' :
  update_at (JStr k :: path) f g = Ok g' -> k ∉ grown_keys ->
  doc_delta g g' 0 [] [] [] [].
Proof.
  intros Hu Hk. apply update_at_field in Hu as (v & v' & _ & _ & _ & Hother).
  apply doc_delta_same. intros k' Hk'. apply Hother. intros ->. contradiction.
Qed.

Lemma delta_ensure_list k g g' :
  ensure_list k g = Ok g' -> doc_delta g g' 0 [] [] [] [].
Proof.
  intros He.
  assert (Hitems : forall k', items k' g' = items k' g).
  { intros k'. unfold ensure_list in He. bind_step He.
    destruct a; [by injection He as <-|].
    destruct g; cbn [py_setitem as_index] in He; try discriminate.
    injection He as <-. unfold items, field.
    destruct (String.eqb_spec k' k) as [->|Hne].
    - rewrite dict_get_set_eq.
      cbn [contains_str] in E. injection E as E.
      apply bool_decide_eq_false in E.
      destruct (dict_get k kvs) eqn:Ek; [exfalso; apply E; by eexists|reflexivity].
    - by rewrite dict_get_set_ne. }
  split; rewrite ?app_nil_r, ?Nat.add_0_r; by rewrite Hitems.
Qed.

Lemma delta_add_root_to_scene root g g' :
  add_root_to_scene root g = Ok g' -> doc_delta g g' 0 [] [] [] [].
Proof.
  intros Ha. apply doc_delta_same. intros k Hk.
  apply (add_root_to_scene_field _ _ _ Ha). intros ->.
  unfold grown_keys in Hk. set_solver.
Qed.

(** Appending to the list at a key. *)
Lemma append_items k x g g' :
  update_at [JStr k] (py_append x) g = Ok g' ->
  items k g' = items k g ++ [x] /\ forall k', k' <> k -> field k' g' = field k' g.
Proof.
  intros Hu. apply update_at_field in Hu as (v & v' & Hv & Hu & Hv' & Hother).
  split; [|assumption].
  cbn [update_at] in Hu. destruct v; cbn [py_append] in Hu; try discriminate.
  injection Hu as <-. unfold items. by rewrite Hv, Hv'.
Qed.

Lemma append_with_items k e g g' :
  update_at [JStr k] (py_append_with e) g = Ok g' ->
  exists x, e = Ok x /\ items k g' = items k g ++ [x] /\
            forall k', k' <> k -> field k' g' = field k' g.
Proof.
  intros Hu. apply update_at_field in Hu as (v & v' & Hv & Hu & Hv' & Hother).
  cbn [update_at] in Hu. destruct v; cbn [py_append_with] in Hu; try discriminate.
  destruct e as [x|]; cbn [mbind result_bind] in Hu; [|discriminate].
  injection Hu as <-. exists x. split; [reflexivity|]. split; [|assumption].
  unfold items. by rewrite Hv, Hv'.
Qed.

Lemma push_items k x g g' idx :
  push k x g = Ok (g', idx) ->
  items k g' = items k g ++ [x] /\ idx = len (items k g) /\
  forall k', k' <> k -> field k' g' = field k' g.
Proof.
  intros Hp. unfold push in Hp. bind_step Hp. bind_step Hp. bind_step Hp.
  injection Hp as <- <-.
  pose proof E1 as Hu. apply append_items in E1 as [Hi Ho].
  split; [assumption|]. split; [|assumption].
  apply update_at_field in Hu as (v & v' & Hv & Hu & _ & _).
  apply py_getitem_field in E. rewrite Hv in E. injection E as <-.
  cbn [update_at] in Hu. destruct v; cbn [py_append] in Hu; try discriminate.
  cbn [py_len] in E0. injection E0 as <-. unfold items. by rewrite Hv.
Qed.

Lemma delta_push_accessor x g g' idx :
  push "accessors" x g = Ok (g', idx) ->
  doc_delta g g' 0 [x] [] [] [] /\ idx = len (items "accessors" g).
Proof.
  intros Hp. apply push_items in Hp as (Hi & Hidx & Ho). split; [|assumption].
  split; rewrite ?app_nil_r, ?Nat.add_0_r; try assumption;
    first [apply items_same|f_equal; apply items_same]; apply Ho; discriminate.
Qed.

Lemma delta_push_buffer_view x g g' idx :
  push "bufferViews" x g = Ok (g', idx) ->
  doc_delta g g' 0 [] [x] [] [] /\ idx = len (items "bufferViews" g).
Proof.
  intros Hp. apply push_items in Hp as (Hi & Hidx & Ho). split; [|assumption].
  split; rewrite ?app_nil_r, ?Nat.add_0_r; try assumption;
    first [apply items_same|f_equal; apply items_same]; apply Ho; discriminate.
Qed.

Lemma delta_accessor_append_with e g g' :
  update_at [JStr "accessors"] (py_append_with e) g = Ok g' ->
  exists x, e = Ok x /\ doc_delta g g' 0 [x] [] [] [].
Proof.
  intros Hu. apply append_with_items in Hu as (x & He & Hi & Ho).
  exists x. split; [assumption|].
  split; rewrite ?app_nil_r, ?Nat.add_0_r; try assumption;
    first [apply items_same|f_equal; apply items_same]; apply Ho; discriminate.
Qed.

Lemma delta_skin_append_with e g g' :
  update_at [JStr "skins"] (py_append_with e) g = Ok g' ->
  exists x, e = Ok x /\ doc_delta g g' 0 [] [] [x] [].
Proof.
  intros Hu. apply append_with_items in Hu as (x & He & Hi & Ho).
  exists x. split; [assumption|].
  split; rewrite ?app_nil_r, ?Nat.add_0_r; try assumption;
    first [apply items_same|f_equal; apply items_same]; apply Ho; discriminate.
Qed.

Lemma delta_animation_append x g g' :
  update_at [JStr "animations"] (py_append x) g = Ok g' ->
  doc_delta g g' 0 [] [] [] [x].
Proof.
  intros Hu. apply append_items in Hu as (Hi & Ho).
  split; rewrite ?app_nil_r, ?Nat.add_0_r; try assumption;
    first [apply items_same|f_equal; apply items_same]; apply Ho; discriminate.
Qed.

Lemma delta_node_append x g g' :
  update_at [JStr "nodes"] (py_append x) g = Ok g' ->
  doc_delta g g' 1 [] [] [] [].
Proof.
  intros Hu. apply append_items in Hu as (Hi & Ho).
  split; rewrite ?app_nil_r; try (apply items_same, Ho; discriminate).
  rewrite Hi, length_app. reflexivity.
Qed.

(** An update of one node keeps the number of nodes. *)
Lemma delta_nodes_index i path f g g' :
  update_at (JStr "nodes" :: JInt i :: path) f g = Ok g' ->
  doc_delta g g' 0 [] [] [] [].
Proof.
  intros Hu. apply update_at_field in Hu as (v & v' & Hv & Hu & Hv' & Ho).
  split; rewrite ?app_nil_r, ?Nat.add_0_r; try (apply items_same, Ho; discriminate).
  cbn [update_at] in Hu. bind_step Hu. bind_step Hu.
  destruct v; cbn [py_setitem as_index] in Hu; try discriminate.
  destruct ((0 <=? _) && _); [|discriminate].
  injection Hu as <-. unfold items. rewrite Hv, Hv'. apply length_insert.
Qed.

Lemma fold_joint_nodes bones g g' :
  foldM (fun g b => update_at [JStr "nodes"] (py_append (obj_joint_node b)) g) bones g
    = Ok g' ->
  doc_delta g g' (length bones) [] [] [] [] /\
  (bones <> [] -> exists l, field "nodes" g = Some (JArr l)).
Proof.
  revert g. induction bones as [|b bones IH]; intros g Hf; cbn [foldM] in Hf.
  - injection Hf as <-. split; [apply doc_delta_refl|congruence].
  - bind_step Hf. destruct (IH _ Hf) as [Hd _]. split.
    + apply delta_node_append in E.
      apply (doc_delta_trans _ _ _ _ _ _ _ _ _ _ _ _ _ E Hd).
    + intros _. apply update_at_field in E as (v & v' & Hv & Hu & _ & _).
      cbn [update_at] in Hu. destruct v; cbn [py_append] in Hu; try discriminate.
      by eexists.
Qed.

Lemma fold_link_child jni ibs g g' :
  foldM (link_child jni) ibs g = Ok g' -> doc_delta g g' 0 [] [] [] [].
Proof.
  revert g. induction ibs as [|[i b] ibs IH]; intros g Hf; cbn [foldM] in Hf.
  - injection Hf as <-. apply doc_delta_refl.
  - bind_step Hf. apply IH in Hf.
    assert (Hd : doc_delta g a 0 [] [] [] []).
    { unfold link_child in E. destruct (0 <=? bone_parent b).
      - bind_step E. bind_step E. by apply delta_nodes_index in E.
      - injection E as <-. apply doc_delta_refl. }
    apply (doc_delta_trans _ _ _ _ _ _ _ _ _ _ _ _ _ Hd Hf).
Qed.

Lemma add_channel_delta jni st ch st' :
  add_channel jni st ch = Ok st' ->
  exists a1 a2 b1 b2, doc_delta (cs_gltf st) (cs_gltf st') 0 [a1; a2] [b1; b2] [] [].
Proof.
  intros Hc. destruct st as [gltf bin_data samplers chans].
  unfold add_channel in Hc.
  repeat (bind_step Hc; split_pairs).
  injection Hc as <-. cbn [cs_gltf].
  repeat match goal with
         | Hs : push "bufferViews" _ _ = Ok _ |- _ =>
           apply delta_push_buffer_view in Hs as [Hs _]
         | Hs : push "accessors" _ _ = Ok _ |- _ =>
           apply delta_push_accessor in Hs as [Hs _]
         | Hs : update_at [JStr "accessors"] (py_append_with _) _ = Ok _ |- _ =>
           apply delta_accessor_append_with in Hs as (? & _ & Hs)
         end.
  eexists _, _, _, _.
  eapply (doc_delta_trans _ _ _ 0 [] [_] [] [] 0 [_; _] [_] [] []); [eassumption|].
  eapply (doc_delta_trans _ _ _ 0 [_] [] [] [] 0 [_] [_] [] []); [eassumption|].
  eapply (doc_delta_trans _ _ _ 0 [] [_] [] [] 0 [_] [] [] []); eassumption.
Qed.

Lemma fold_channels_delta jni chs st st' :
  foldM (add_channel jni) chs st = Ok st' ->
  exists accessors buffer_views,
    doc_delta (cs_gltf st) (cs_gltf st') 0 accessors buffer_views [] [] /\
    length accessors = (2 * length chs)%nat /\
    length buffer_views = (2 * length chs)%nat.
Proof.
  revert st. induction chs as [|ch chs IH]; intros st Hf; cbn [foldM] in Hf.
  - injection Hf as <-. exists [], []. split; [apply doc_delta_refl|by split].
  - bind_step Hf. destruct (add_channel_delta _ _ _ _ E) as (a1 & a2 & b1 & b2 & Hd).
    destruct (IH _ Hf) as (accs & bvs & Hd' & Hla & Hlb).
    exists ([a1; a2] ++ accs), ([b1; b2] ++ bvs). split.
    + apply (doc_delta_trans _ _ _ _ _ _ _ _ _ _ _ _ _ Hd Hd').
    + cbn [length app]. lia.
Qed.

Lemma add_animation_delta jni g b anim g' b' :
  add_animation jni (g, b) anim = Ok (g', b') ->
  exists accessors buffer_views clip,
    doc_delta g g' 0 accessors buffer_views [] [clip] /\
    length accessors = (2 * length (snd anim))%nat /\
    length buffer_views = (2 * length (snd anim))%nat /\
    field "name" clip = Some (JStr (fst anim)).
Proof.
  intros Ha. destruct anim as [name chs]. unfold add_animation in Ha.
  bind_step Ha. bind_step Ha. injection Ha as <- _.
  destruct (fold_channels_delta _ _ _ _ E) as (accs & bvs & Hd & Hla & Hlb).
  cbn [cs_gltf] in Hd. apply delta_animation_append in E0.
  eexists accs, bvs, _. split; [|split; [|split] ]; try assumption.
  - pose proof (doc_delta_trans _ _ _ _ _ _ _ _ _ _ _ _ _ Hd E0) as Hd'.
    by rewrite !app_nil_r in Hd'.
  - reflexivity.
Qed.

Lemma fold_animations_delta jni anims g b g' b' :
  foldM (add_animation jni) anims (g, b) = Ok (g', b') ->
  exists accessors buffer_views clips,
    doc_delta g g' 0 accessors buffer_views [] clips /\
    length accessors = (2 * length (flat_map snd anims))%nat /\
    length buffer_views = (2 * length (flat_map snd anims))%nat /\
    map (field "name") clips = map (fun anim => Some (JStr (fst anim))) anims.
Proof.
  revert g b. induction anims as [|anim anims IH]; intros g b Hf; cbn [foldM] in Hf.
  - injection Hf as <- <-. exists [], [], [].
    split; [apply doc_delta_refl|by repeat split].
  - bind_step Hf. destruct a as [g1 b1].
    destruct (add_animation_delta _ _ _ _ _ _ E) as (accs & bvs & clip & Hd & Hla & Hlb & Hn).
    destruct (IH _ _ Hf) as (accs' & bvs' & clips & Hd' & Hla' & Hlb' & Hn').
    exists (accs ++ accs'), (bvs ++ bvs'), ([clip] ++ clips).
    split; [|split; [|split] ].
    + apply (doc_delta_trans _ _ _ _ _ _ _ _ _ _ _ _ _ Hd Hd').
    + cbn [flat_map]. rewrite !length_app. lia.
    + cbn [flat_map]. rewrite !length_app. lia.
    + cbn [map app]. by rewrite Hn, Hn'.
Qed.

Lemma extract_positions_primitive gltf bin_data mesh_node_idx primitive positions :
  extract_positions gltf bin_data mesh_node_idx = Ok (primitive, positions) ->
  exists mesh_idx, primitive = [JStr "meshes"; mesh_idx; JStr "primitives"; JInt 0].
Proof.
  intros He. unfold extract_positions in He.
  repeat (bind_step He; split_pairs). injection He as <- _. by eexists.
Qed.

(** The stages that modify the document, for a primitive below
    ['meshes']. *)
Lemma attach_delta gltf bin_data mesh_node_idx path num_positions bones
    joints_data weights_data animations gltf' bin_data' :
  attach gltf bin_data mesh_node_idx (JStr "meshes" :: path) num_positions bones
         joints_data weights_data animations = Ok (gltf', bin_data') ->
  bones <> [] ->
  exists accessors buffer_views skin clips,
    doc_delta gltf gltf' (length bones) accessors buffer_views [skin] clips /\
    length accessors = (3 + 2 * length (flat_map snd animations))%nat /\
    length buffer_views = (3 + 2 * length (flat_map snd animations))%nat /\
    field "name" skin = Some (JStr "Armature") /\
    field "joints" skin =
      Some (JArr (map (fun i => JInt (len (items "nodes" gltf) + i))
                      (seqZ 0 (len bones)))) /\
    map (field "name") clips = map (fun anim => Some (JStr (fst anim))) animations.
Proof.
  intros Ha Hbones. unfold attach in Ha. cbn [app] in Ha.
  repeat (bind_step Ha; split_pairs).
  injection Ha as <- <-.
  (* the index of the first joint node *)
  match goal with
  | Hf : foldM (fun g b => update_at [JStr "nodes"] _ g) bones gltf = Ok _ |- _ =>
    apply fold_joint_nodes in Hf as [Hnodes Hlist];
    destruct (Hlist Hbones) as [nodes Hfield]
  end.
  match goal with
  | Hb : (mbind _ (py_getitem gltf (JStr "nodes"))) = Ok ?base |- _ =>
    assert (Hbase : base = len (items "nodes" gltf))
      by (rewrite (field_py_getitem _ _ _ Hfield) in Hb; cbn in Hb;
          injection Hb as <-; unfold items; by rewrite Hfield)
  end.
  subst.
  (* each stage as a change of the lists *)
  match goal with
  | Hf : foldM (link_child _) _ _ = Ok _ |- _ => apply fold_link_child in Hf
  end.
  match goal with
  | Hf : foldM (add_animation _) _ _ = Ok _ |- _ =>
    apply fold_animations_delta in Hf as (accs & bvs & clips & Hanim & Hla & Hlb & Hnames)
  end.
  repeat match goal with
         | Hs : push "bufferViews" _ _ = Ok _ |- _ =>
           apply delta_push_buffer_view in Hs as [Hs _]
         | Hs : push "accessors" _ _ = Ok _ |- _ =>
           apply delta_push_accessor in Hs as [Hs _]
         | Hs : ensure_list _ _ = Ok _ |- _ => apply delta_ensure_list in Hs
         | Hs : add_root_to_scene _ _ = Ok _ |- _ => apply delta_add_root_to_scene in Hs
         | Hs : update_at (JStr "nodes" :: JInt _ :: _) _ _ = Ok _ |- _ =>
           apply delta_nodes_index in Hs
         | Hs : update_at [JStr "skins"] (py_append_with _) _ = Ok _ |- _ =>
           apply delta_skin_append_with in Hs as (skin & Hskin & Hs)
         | Hs : update_at (JStr _ :: _) _ _ = Ok _ |- _ =>
           apply delta_other in Hs; [|unfold grown_keys; set_solver]
         end.
  (* the skin *)
  match type of Hskin with
  | mbind _ ?m = _ => destruct m as [root|]; cbn [mbind result_bind] in Hskin;
                      [|discriminate Hskin]
  end.
  injection Hskin as <-.
  repeat match goal with
         | H1 : doc_delta ?g ?g1 _ _ _ _ _, H2 : doc_delta ?g1 ?g2 _ _ _ _ _ |- _ =>
           pose proof (doc_delta_trans _ _ _ _ _ _ _ _ _ _ _ _ _ H1 H2); clear H1 H2
         end.
  match goal with
  | Hd : doc_delta gltf _ _ _ _ _ _ |- _ =>
    cbn [app Nat.add] in Hd; rewrite ?app_nil_r, ?Nat.add_0_r in Hd;
    cbn [app] in Hd;
    match type of Hd with
    | doc_delta _ _ _ ?a ?b [?s] ?m => exists a, b, s, m; split; [exact Hd|]
    end
  end.
  split; [cbn [length]; rewrite ?length_app, ?Hla; cbn [length]; lia|].
  split; [cbn [length]; rewrite ?length_app, ?Hlb; cbn [length]; lia|].
  split; [reflexivity|]. split; [|assumption].
  cbn [field dict_get String.eqb Ascii.eqb Bool.eqb]. do 2 f_equal.
  by rewrite List.map_map.
Qed.

Section DocumentFacts.
Context `{Platform}.

(** What the pipeline adds to a document, whatever the document: twenty
    nodes, twenty-one accessors and twenty-one buffer views (one of each
    for the inverse bind matrices, the joints and the weights, and two for
    each of the nine channels), one skin and three animations. The
    accessors, buffer views, skins and animations that were there stay as
    they are, in front of the new ones. The skin is named Armature and its
    joints are the indices of the new nodes, in order; the animations are
    named Idle, Walk and Attack. *)
Theorem rig_document (gltf : json) (bin_data : list byte)
    (gltf' : json) (bin_data' : list byte) :
  rig gltf bin_data = Ok (gltf', bin_data') ->
  length (items "nodes" gltf') = (length (items "nodes" gltf) + 20)%nat /\
  (exists new, items "accessors" gltf' = items "accessors" gltf ++ new /\
               length new = 21%nat) /\
  (exists new, items "bufferViews" gltf' = items "bufferViews" gltf ++ new /\
               length new = 21%nat) /\
  (exists skin, items "skins" gltf' = items "skins" gltf ++ [skin] /\
                field "name" skin = Some (JStr "Armature") /\
                field "joints" skin =
                  Some (JArr (map (fun i => JInt (len (items "nodes" gltf) + i))
                                  (seqZ 0 20)))) /\
  (exists new, items "animations" gltf' = items "animations" gltf ++ new /\
               map (field "name") new =
                 [Some (JStr "Idle"); Some (JStr "Walk"); Some (JStr "Attack")]).
Proof.
  intros Hr. unfold rig in Hr.
  repeat (bind_step Hr; split_pairs).
  match goal with
  | He : extract_positions _ _ _ = Ok _ |- _ =>
    apply extract_positions_primitive in He as [mesh_idx ->]
  end.
  match goal with
  | Hs : create_humanoid_skeleton _ = Ok ?bones |- _ =>
    apply skeleton_parents in Hs;
    assert (Hlen : length bones = 20%nat)
      by (apply (f_equal (@length Z)) in Hs; by rewrite length_map in Hs)
  end.
  match goal with
  | Hc : create_animations _ _ = Ok _ |- _ =>
    apply create_animations_shape in Hc
      as (v1 & v2 & v3 & v4 & v5 & v6 & v7 & v8 & v9 & ->)
  end.
  apply attach_delta in Hr as (accs & bvs & skin & clips & Hd & Hla & Hlb & Hname & Hjoints & Hclips);
    [|intros ->; discriminate Hlen].
  destruct Hd as [Hn Ha Hb Hs Hm]. rewrite Hlen in Hn.
  split; [exact Hn|]. split; [by exists accs|]. split; [by exists bvs|]. split.
  - exists skin. split; [assumption|]. split; [assumption|].
    unfold len in Hjoints at 2. by rewrite Hlen in Hjoints.
  - by exists clips.
Qed.

(** A mesh without vertices is refused: computing the bounds
    raises [ValueError] before any bone is made, and nothing is written. *)
Theorem add_skeleton_empty_mesh (input_path output_path : string) (w : World)
    (gltf : json) (bin_data : list byte) (mesh_node_idx : Z)
    (primitive : list json) (positions : accessor_data) :
  read_glb input_path w = Ok (gltf, bin_data) ->
  locate_mesh gltf = Ok mesh_node_idx ->
  extract_positions gltf bin_data mesh_node_idx = Ok (primitive, positions) ->
  count_of positions = 0 ->
  add_skeleton_to_glb input_path output_path w
    = (w, Raise (ValueError
                   "zero-size array to reduction operation minimum which has no identity")).
Proof.
  intros Hread Hl He Hc. unfold add_skeleton_to_glb. rewrite Hread.
  unfold rig. rewrite Hl. cbn [mbind result_bind].
  rewrite He. cbn [mbind result_bind].
  destruct positions as [ [|x l]|[|row rows] ]; try reflexivity;
    unfold count_of, len in Hc; cbn [length] in Hc; lia.
Qed.
End DocumentFacts.

Lemma rig_document_witness :
  length (items "nodes" triangle_rigged.1) = 21%nat /\
  length (items "accessors" triangle_rigged.1) = 22%nat.
Proof.
  destruct (rig_document (H:=Demo.platform) triangle_gltf triangle_bin
              triangle_rigged.1 triangle_rigged.2) as (Hn & (new & Ha & Hl) & _).
  - rewrite rig_triangle. exact (f_equal Ok (surjective_pairing triangle_rigged)).
  - split; [exact Hn|]. rewrite Ha, length_app, Hl. reflexivity.
Defined.

Lemma add_skeleton_empty_mesh_witness :
  add_skeleton_to_glb (H:=Demo.platform) "empty.glb" "out.glb" no_vertices_world
    = (no_vertices_world,
       Raise (ValueError
                "zero-size array to reduction operation minimum which has no identity")).
Proof.
  apply (add_skeleton_empty_mesh (H:=Demo.platform) "empty.glb" "out.glb" no_vertices_world
           no_vertices_gltf [] 0
           [JStr "meshes"; JInt 0; JStr "primitives"; JInt 0] (Tuples [])).
  - vm_compute. reflexivity.
  - reflexivity.
  - vm_compute. reflexivity.
  - reflexivity.
Defined.

(** C9 (amended). In [compute_skin_weights] the unnormalized weight
    [1 / (d + 0.001)] of a bone is strictly positive whenever the distance
    [d] computed for it, plus 0.001, is finite. When this holds for every
    bone, every weight of the vertex is strictly positive, and whatever
    weights are selected among them (at least one), their sum is strictly
    positive: the normalization branch is taken and every selected weight is
    divided by the sum. Finite coordinates of the vertex are not enough for
    this, since the squares of the differences can overflow. *)
Theorem C9_weights_positive (bone_positions : list (list float)) (pos : list float) :
  (forall (i : nat) d,
     distances bone_positions pos !! i = Some d ->
     is_finite (d + 0.001) = true ->
     inv_dist bone_positions pos !! i = Some (1 / (d + 0.001))%float /\
     PrimFloat.ltb 0 (1 / (d + 0.001)) = true) /\
  (Forall (fun d => is_finite (d + 0.001) = true) (distances bone_positions pos) ->
     Forall (fun w => PrimFloat.ltb 0 w = true) (inv_dist bone_positions pos) /\
     forall top_weights,
       top_weights <> [] ->
       Forall (fun w => w ∈ inv_dist bone_positions pos) top_weights ->
       PrimFloat.ltb 0 (np_sum top_weights) = true /\
       normalize top_weights = map (fun w => w / np_sum top_weights)%float top_weights).
Proof.
  assert (Hone : forall (i : nat) d,
            distances bone_positions pos !! i = Some d ->
            is_finite (d + 0.001) = true ->
            PrimFloat.ltb 0 (1 / (d + 0.001)) = true).
  { intros i d Hd Hfin. unfold distances in Hd. rewrite list_lookup_fmap in Hd.
    destruct (bone_positions !! i) as [b|]; [|discriminate].
    injection Hd as <-. unfold np_norm in *.
    destruct (distance_plus_epsilon _ Hfin) as (m & e & Hy).
    apply ltb_zero_positive. by eapply one_div_positive. }
  split.
  - intros i d Hd Hfin. split; [|by apply (Hone i)].
    unfold inv_dist. by rewrite list_lookup_fmap, Hd.
  - intros Hall.
    assert (Hpos : Forall (fun w => PrimFloat.ltb 0 w = true) (inv_dist bone_positions pos)).
    { unfold inv_dist. apply Forall_map. apply Forall_lookup. intros i d Hd.
      apply (Hone i d Hd). by apply (Forall_lookup_1 _ _ _ _ Hall Hd). }
    split; [exact Hpos|]. intros top_weights Hne Hsel.
    assert (Htop : Forall (fun w => PrimFloat.ltb 0 w = true) top_weights).
    { eapply Forall_impl; [exact Hsel|]. intros w Hw. cbn beta in Hw.
      by apply (proj1 (Forall_forall _ _) Hpos). }
    pose proof (np_sum_positive top_weights Hne Htop) as Hsum.
    split; [assumption|]. unfold normalize. by rewrite Hsum.
Qed.

Lemma C9_weights_positive_witness :
  PrimFloat.ltb 0 (1 / (0.5 + 0.001)) = true /\
  Forall (fun w => PrimFloat.ltb 0 w = true) (inv_dist triangle_bone_positions [0; 0; 0]%float).
Proof.
  destruct (C9_weights_positive triangle_bone_positions [0; 0; 0]%float) as [Hone Hall].
  split.
  - apply (Hone 0%nat 0.5%float); vm_compute; reflexivity.
  - apply Hall. vm_compute. repeat constructor.
Defined.

(** ** Subscripts after an update *)

Lemma py_index_lookup {A} (l : list A) (i : Z) (x : A) :
  0 <= i -> l !! Z.to_nat i = Some x -> py_index l i = Ok x.
Proof.
  intros Hi Hl. unfold py_index.
  destruct (Z.ltb_spec i 0); [lia|]. destruct (Z.ltb_spec i 0); [lia|].
  by rewrite Hl.
Qed.

Lemma get_after_set (c k v c' : json) :
  py_setitem c k v = Ok c' -> py_getitem c' k = Ok v.
Proof.
  destruct c as [| | | | |l|kvs]; cbn [py_setitem]; try discriminate.
  - destruct (as_index k) as [i|] eqn:Ek; [|discriminate].
    set (j := if i <? 0 then i + len l else i).
    destruct (Z.leb_spec 0 j); cbn [andb]; [|discriminate].
    destruct (Z.ltb_spec j (len l)); [|discriminate].
    intros [= <-]. cbn [py_getitem]. rewrite Ek. unfold py_index.
    assert (Hlen : len (<[Z.to_nat j:=v]> l) = len l)
      by (unfold len; by rewrite length_insert).
    rewrite Hlen. fold j. destruct (Z.ltb_spec j 0); [lia|].
    rewrite list_lookup_insert_eq; [reflexivity|]. unfold len in *. lia.
  - destruct k; try discriminate. intros [= <-].
    cbn [py_getitem]. by rewrite dict_get_set_eq.
Qed.

Lemma get_at_app (p q : list json) (c : json) :
  get_at (p ++ q) c = (x ← get_at p c; get_at q x).
Proof.
  revert c. induction p as [|k p IH]; intros c; cbn [app get_at mbind result_bind];
    [reflexivity|].
  destruct (py_getitem c k); cbn [mbind result_bind]; [apply IH|reflexivity].
Qed.

(** An update replaces what the path leads to, and the new value is
    found there. *)
Lemma update_then_get (p : list json) (f : json -> result json) (c c' : json) :
  update_at p f c = Ok c' ->
  exists x x', get_at p c = Ok x /\ f x = Ok x' /\ get_at p c' = Ok x'.
Proof.
  revert c c'. induction p as [|k p IH]; intros c c' Hu; cbn [update_at] in Hu.
  - by exists c, c'.
  - bind_step Hu. bind_step Hu.
    destruct (IH _ _ E0) as (x & x' & Hx & Hf & Hx').
    exists x, x'. cbn [get_at]. rewrite E. cbn [mbind result_bind].
    split; [assumption|]. split; [assumption|].
    rewrite (get_after_set _ _ _ _ Hu). by cbn [mbind result_bind].
Qed.

Lemma set_then_get (p : list json) (k : string) (v c c' : json) :
  update_at p (fun a => py_setitem a (JStr k) v) c = Ok c' ->
  get_at (p ++ [JStr k]) c' = Ok v.
Proof.
  intros Hu. apply update_then_get in Hu as (x & x' & _ & Hset & Hx').
  rewrite get_at_app, Hx'. cbn [mbind result_bind get_at].
  by rewrite (get_after_set _ _ _ _ Hset).
Qed.

Lemma set_other_key (p : list json) (k k0 : string) (v c c' : json) :
  update_at p (fun a => py_setitem a (JStr k) v) c = Ok c' -> k0 <> k ->
  get_at (p ++ [JStr k0]) c' = get_at (p ++ [JStr k0]) c.
Proof.
  intros Hu Hne. apply update_then_get in Hu as (x & x' & Hx & Hset & Hx').
  rewrite !get_at_app, Hx, Hx'. cbn [mbind result_bind get_at]. f_equal.
  destruct x; cbn [py_setitem as_index] in Hset; try discriminate.
  injection Hset as <-. cbn [py_getitem]. by rewrite dict_get_set_ne.
Qed.

Lemma get_at_frame (k : string) (q : list json) (g g' v : json) :
  field k g' = field k g -> get_at (JStr k :: q) g = Ok v -> get_at (JStr k :: q) g' = Ok v.
Proof.
  intros Hsame Hg. cbn [get_at] in *. bind_step Hg.
  apply py_getitem_field in E. rewrite <- Hsame in E.
  rewrite (field_py_getitem _ _ _ E). by cbn [mbind result_bind].
Qed.

(** ** Entries the pipeline leaves alone *)

Lemma keeps_refl ks g : keeps ks g g.
Proof. by intros k _. Qed.

Lemma keeps_trans ks g1 g2 g3 : keeps ks g1 g2 -> keeps ks g2 g3 -> keeps ks g1 g3.
Proof. intros H1 H2 k Hk. by rewrite (H2 k Hk), (H1 k Hk). Qed.

Lemma keeps_update ks k path f g g' :
  update_at (JStr k :: path) f g = Ok g' -> k ∈ ks -> keeps ks g g'.
Proof.
  intros Hu Hk. apply update_at_field in Hu as (v & v' & _ & _ & _ & Hother).
  intros k' Hk'. apply Hother. intros ->. contradiction.
Qed.

Lemma keeps_push ks k x g g' idx :
  push k x g = Ok (g', idx) -> k ∈ ks -> keeps ks g g'.
Proof.
  intros Hp Hk. unfold push in Hp. bind_step Hp. bind_step Hp. bind_step Hp.
  injection Hp as <- _. by apply (keeps_update ks _ _ _ _ _ E1).
Qed.

Lemma keeps_ensure_list ks k g g' :
  ensure_list k g = Ok g' -> k ∈ ks -> keeps ks g g'.
Proof.
  intros He Hk k' Hk'. apply (ensure_list_field _ _ _ He). intros ->. contradiction.
Qed.

Lemma keeps_add_root ks root g g' :
  add_root_to_scene root g = Ok g' -> "scenes"%string ∈ ks -> keeps ks g g'.
Proof.
  intros Ha Hk k' Hk'. apply (add_root_to_scene_field _ _ _ Ha). intros ->. contradiction.
Qed.

(** Membership of a key in a list of keys that is given, by evaluation. *)
Ltac key_in :=
  match goal with
  | |- ?P => apply (@bool_decide_unpack P _); vm_compute; exact I
  end.

Ltac keeps_steps ks :=
  repeat match goal with
         | Hs : push ?k _ ?g = Ok (?g', _) |- _ =>
           lazymatch goal with
           | _ : keeps ks g g' |- _ => fail
           | _ => assert (keeps ks g g')
                    by (apply (keeps_push ks _ _ _ _ _ Hs); key_in)
           end
         | Hs : update_at (JStr ?k :: _) _ ?g = Ok ?g' |- _ =>
           lazymatch goal with
           | _ : keeps ks g g' |- _ => fail
           | _ => assert (keeps ks g g')
                    by (apply (keeps_update ks _ _ _ _ _ Hs); key_in)
           end
         | Hs : ensure_list ?k ?g = Ok ?g' |- _ =>
           lazymatch goal with
           | _ : keeps ks g g' |- _ => fail
           | _ => assert (keeps ks g g')
                    by (apply (keeps_ensure_list ks _ _ _ Hs); key_in)
           end
         | Hs : add_root_to_scene _ ?g = Ok ?g' |- _ =>
           lazymatch goal with
           | _ : keeps ks g g' |- _ => fail
           | _ => assert (keeps ks g g')
                    by (apply (keeps_add_root ks _ _ _ Hs); key_in)
           end
         end.

Ltac keeps_chain :=
  repeat (eapply keeps_trans; [eassumption|]); apply keeps_refl.

Lemma add_channel_keeps ks jni st ch st' :
  add_channel jni st ch = Ok st' ->
  "bufferViews"%string ∈ ks -> "accessors"%string ∈ ks ->
  keeps ks (cs_gltf st) (cs_gltf st').
Proof.
  intros Hc Hb Ha. destruct st as [gltf bin_data samplers chans].
  unfold add_channel in Hc.
  repeat (bind_step Hc; split_pairs).
  injection Hc as <-. cbn [cs_gltf].
  repeat match goal with
         | Hs : push _ _ ?g = Ok (?g', _) |- _ =>
           apply (keeps_push ks) in Hs; [|assumption]
         | Hs : update_at (JStr _ :: _) _ ?g = Ok ?g' |- _ =>
           apply (keeps_update ks) in Hs; [|assumption]
         end.
  keeps_chain.
Qed.

Lemma fold_channels_keeps ks jni chs st st' :
  foldM (add_channel jni) chs st = Ok st' ->
  "bufferViews"%string ∈ ks -> "accessors"%string ∈ ks ->
  keeps ks (cs_gltf st) (cs_gltf st').
Proof.
  intros Hf Hb Ha. revert st Hf.
  induction chs as [|ch chs IH]; intros st Hf; cbn [foldM] in Hf.
  - injection Hf as <-. apply keeps_refl.
  - bind_step Hf. eapply keeps_trans; [by eapply add_channel_keeps|by apply IH].
Qed.

Lemma fold_animations_keeps ks jni anims g b g' b' :
  foldM (add_animation jni) anims (g, b) = Ok (g', b') ->
  "bufferViews"%string ∈ ks -> "accessors"%string ∈ ks -> "animations"%string ∈ ks ->
  keeps ks g g'.
Proof.
  intros Hf Hb Ha Hm. revert g b Hf.
  induction anims as [|[name chs] anims IH]; intros g b Hf; cbn [foldM] in Hf.
  - injection Hf as <- _. apply keeps_refl.
  - bind_step Hf. destruct a as [g1 b1].
    eapply keeps_trans; [|by eapply IH].
    unfold add_animation in E. bind_step E. bind_step E. injection E as <- _.
    eapply keeps_trans.
    + by apply (fold_channels_keeps ks _ _ _ _ E0).
    + by apply (keeps_update ks _ _ _ _ _ E1).
Qed.

(** ** Reading what the pipeline wrote *)

Lemma items_field k g x (i : nat) :
  items k g !! i = Some x -> field k g = Some (JArr (items k g)).
Proof.
  unfold items. destruct (field k g) as [ [| | | | |l|]|]; try discriminate. done.
Qed.

(** [get_accessor_data] looks at one accessor and one buffer view only. *)
Lemma get_accessor_data_at (g : json) (bin_data : list byte) (a bv off size ct count : Z)
    (stride : option Z) (type : string) :
  0 <= a -> items "accessors" g !! Z.to_nat a = Some (obj_accessor bv ct count type) ->
  0 <= bv -> items "bufferViews" g !! Z.to_nat bv = Some (obj_buffer_view off size stride) ->
  get_accessor_data g bin_data (JInt a)
    = get_accessor_data (view_doc off size ct count type) bin_data (JInt 0).
Proof.
  intros Ha Hacc Hbv Hview. unfold get_accessor_data.
  assert (Hidx : forall l i, py_getitem (JArr l) (JInt i) = py_index l i) by reflexivity.
  rewrite (field_py_getitem _ _ _ (items_field _ _ _ _ Hacc)). cbn [mbind result_bind].
  rewrite Hidx, (py_index_lookup _ _ _ Ha Hacc). cbn [mbind result_bind].
  rewrite (field_py_getitem _ _ _ (items_field _ _ _ _ Hview)). cbn [mbind result_bind].
  change (py_getitem (obj_accessor bv ct count type) (JStr "bufferView"))
    with (Ok (JInt bv)).
  cbn [mbind result_bind].
  rewrite Hidx, (py_index_lookup _ _ _ Hbv Hview). cbn [mbind result_bind].
  unfold view_doc, obj_accessor, obj_buffer_view.
  destruct stride;
    repeat (cbn -[component_types type_counts unpack_array py_slice calcsize chunks Z.mul Z.add];
            change (Z.to_nat 0) with 0%nat);
    reflexivity.
Qed.

Lemma py_slice_app_mid3 {A} (a b c : list A) :
  py_slice (a ++ b ++ c) (len a) (len a + len b) = b.
Proof.
  unfold py_slice. rewrite !len_app.
  pose proof (len_nonneg a). pose proof (len_nonneg b). pose proof (len_nonneg c).
  destruct (Z.ltb_spec (len a) 0); [lia|].
  destruct (Z.ltb_spec (len a + len b) 0); [lia|].
  rewrite Z.min_l, Z.min_l by lia.
  replace (Z.to_nat (len a)) with (length a) by (unfold len; lia).
  replace (Z.to_nat (len a + len b - len a)) with (length b) by (unfold len; lia).
  rewrite drop_app_length. by rewrite take_app_length.
Qed.

(** Packing unsigned integers succeeds on values in range only, and gives
    their little-endian bytes. *)
Lemma pack_array_uint_inv (n : nat) (data : list Z) (packed : list byte) :
  pack_array (pack_uint n) (map PyInt data) = Ok packed ->
  Forall (fun v => 0 <= v < 2 ^ (8 * Z.of_nat n)) data /\
  packed = concat (map (le_bytes n) data).
Proof.
  unfold pack_array. revert packed.
  induction data as [|v data IH]; intros packed Hp; cbn [map traverse fmap] in Hp.
  - cbn in Hp. injection Hp as <-. by split.
  - cbn [traverse mbind result_bind pack_uint] in Hp.
    destruct (Z.leb_spec 0 v); cbn [andb] in Hp; [|discriminate].
    destruct (Z.ltb_spec v (2 ^ (8 * Z.of_nat n))); [|discriminate].
    cbn [mbind result_bind] in Hp.
    destruct (traverse (pack_uint n) (map PyInt data)) as [rows|] eqn:Et;
      [|discriminate].
    cbn in Hp. injection Hp as <-.
    destruct (IH (concat rows)) as [Hd Hc]; [reflexivity|].
    split; [constructor; [lia|assumption]|].
    cbn [map concat]. by rewrite Hc.
Qed.

(** Unsigned integers that lie in the payload are read back through a
    view that starts where they start, whatever comes before and after. *)
Lemma get_uint_view (n : nat) (dtype type : string) (ct count k size : Z)
    (before after : list byte) (data : list Z) :
  (0 < n)%nat -> calcsize dtype = Z.of_nat n ->
  (forall bs, unpack1 dtype bs = PyInt (le_value bs)) ->
  component_types (JInt ct) = Ok dtype -> type_counts (JStr type) = Ok k ->
  Forall (fun v => 0 <= v < 2 ^ (8 * Z.of_nat n)) data ->
  0 <= count -> len data = count * k ->
  get_accessor_data (view_doc (len before) size ct count type)
                    (before ++ concat (map (le_bytes n) data) ++ after) (JInt 0)
    = Ok (rows_of k (map PyInt data)).
Proof.
  intros Hn Hsize Hun Hct Hty Hdata Hcount Hlen.
  rewrite (get_accessor_data_view _ _ _ _ k _ dtype) by assumption.
  set (rows := map (le_bytes n) data).
  assert (Hrows : Forall (fun r => length r = n) rows).
  { subst rows. apply Forall_map, Forall_true. intros v. apply length_le_bytes. }
  assert (Hpacked : len (concat rows) = calcsize dtype * (count * k)).
  { rewrite len_concat_const with (k := Z.of_nat n).
    - subst rows. unfold len in *. rewrite length_map. lia.
    - eapply Forall_impl; [exact Hrows|]. intros r Hr. unfold len. by rewrite Hr. }
  rewrite <- Hpacked, py_slice_app_mid3.
  unfold unpack_array.
  destruct (Z.ltb_spec (count * k) 0); [pose proof (len_nonneg data); lia|].
  rewrite Hpacked, Z.eqb_refl. cbn [negb mbind result_bind].
  rewrite Hsize, Nat2Z.id, chunks_concat; try assumption.
  - do 2 f_equal. subst rows. rewrite List.map_map.
    apply map_ext_Forall. eapply Forall_impl; [exact Hdata|].
    intros v Hv. cbn beta in *. rewrite Hun. f_equal. by apply le_value_le_bytes.
  - clearbody rows. clear -Hrows Hn.
    induction Hrows as [|r rows Hr _ IH]; [cbn; lia|].
    cbn [concat length]. rewrite length_app. lia.
Qed.

Section SkinLengths.
Context `{Platform}.

(** The number of joints and of weights [compute_skin_weights] returns. *)
Lemma skin_lengths (positions : list (list pynum)) (bones : list Bone)
    (max_influences : Z) (js : list Z) (ws : list float) :
  compute_skin_weights positions bones max_influences = Ok (js, ws) ->
  len js = max_influences * len positions /\ len ws = max_influences * len positions.
Proof.
  intros Hc. unfold compute_skin_weights in Hc.
  destruct (Z.ltb_spec max_influences 0) as [|Hk]; [discriminate|].
  destruct (traverse _ bones) as [bone_positions|];
    cbn [mbind result_bind] in Hc; [|discriminate].
  destruct (negb _); [discriminate|].
  destruct (traverse _ positions) as [rows|] eqn:Et;
    cbn [mbind result_bind] in Hc; [|discriminate].
  injection Hc as <- <-.
  assert (Hrows : Forall (fun r => len (fst r) = max_influences /\
                                   len (snd r) = max_influences) rows).
  { eapply traverse_Forall; [|exact Et]. intros pos [js ws] Hrow.
    destruct (skin_row_shape bone_positions max_influences pos js ws Hk Hrow)
      as (? & ? & _). by split. }
  assert (Hn : len rows = len positions).
  { unfold len. by rewrite (traverse_length _ _ _ Et). }
  split.
  - rewrite len_concat_const with (k := max_influences); [by rewrite len_map, Hn|].
    apply Forall_map. eapply Forall_impl; [exact Hrows|]. by intros r (? & _).
  - rewrite len_concat_const with (k := max_influences); [by rewrite len_map, Hn|].
    apply Forall_map. eapply Forall_impl; [exact Hrows|]. by intros r (_ & ?).
Qed.

End SkinLengths.

Lemma count_of_tuples (positions : accessor_data) :
  len (tuples_of positions) = count_of positions.
Proof. destruct positions; cbn [tuples_of count_of]; [apply len_map|reflexivity]. Qed.

Lemma pushed_stays k x g g1 gf idx more :
  push k x g = Ok (g1, idx) -> items k gf = items k g1 ++ more ->
  0 <= idx /\ items k gf !! Z.to_nat idx = Some x.
Proof.
  intros Hp Hf. apply push_items in Hp as (Hi & -> & _).
  split; [apply len_nonneg|].
  rewrite Hf, Hi. unfold len. rewrite Nat2Z.id, <- app_assoc. cbn [app].
  by apply list_lookup_middle.
Qed.

(** The index the skin gets: [len(gltf.get('skins', []))], taken before
    the list is made. *)
Lemma skin_index e g g1 g2 n :
  (s ← py_get g "skins" (JArr []); py_len s) = Ok n ->
  ensure_list "skins" g = Ok g1 ->
  update_at [JStr "skins"] (py_append_with e) g1 = Ok g2 ->
  n = len (items "skins" g).
Proof.
  intros Hn He Hu.
  apply update_at_field in Hu as (v & v' & Hv & Hu & _ & _).
  cbn [update_at] in Hu. destruct v as [| | | | |l|]; cbn [py_append_with] in Hu;
    try discriminate.
  unfold ensure_list in He. bind_step He.
  destruct g as [| | | | | |kvs]; cbn [contains_str] in E; try discriminate.
  injection E as <-. unfold items. cbn [field py_get mbind result_bind] in *.
  destruct (dict_get "skins" kvs) as [s|] eqn:Es.
  - rewrite bool_decide_eq_true_2 in He by (by eexists).
    injection He as <-. cbn [field] in Hv. rewrite Es in Hv. injection Hv as ->.
    cbn [default py_len] in Hn. by injection Hn as <-.
  - cbn [default py_len] in Hn. by injection Hn as <-.
Qed.

(** ** What the rigged document refers to *)

Ltac note_delta g g' tac :=
  lazymatch goal with
  | _ : doc_delta g g' _ _ _ _ _ |- _ => fail
  | _ => tac
  end.

Ltac delta_steps :=
  repeat match goal with
         | Hs : push "bufferViews" _ ?g = Ok (?g', _) |- _ =>
           note_delta g g' ltac:(pose proof (proj1 (delta_push_buffer_view _ _ _ _ Hs)))
         | Hs : push "accessors" _ ?g = Ok (?g', _) |- _ =>
           note_delta g g' ltac:(pose proof (proj1 (delta_push_accessor _ _ _ _ Hs)))
         | Hs : ensure_list _ ?g = Ok ?g' |- _ =>
           note_delta g g' ltac:(pose proof (delta_ensure_list _ _ _ Hs))
         | Hs : add_root_to_scene _ ?g = Ok ?g' |- _ =>
           note_delta g g' ltac:(pose proof (delta_add_root_to_scene _ _ _ Hs))
         | Hs : update_at (JStr "nodes" :: JInt _ :: _) _ ?g = Ok ?g' |- _ =>
           note_delta g g' ltac:(pose proof (delta_nodes_index _ _ _ _ _ Hs))
         | Hs : update_at [JStr "skins"] (py_append_with _) ?g = Ok ?g' |- _ =>
           note_delta g g'
             ltac:(let x := fresh "skin" in let Hx := fresh "Hskin" in
                   let Hd := fresh "Hd" in
                   destruct (delta_skin_append_with _ _ _ Hs) as (x & Hx & Hd))
         | Hs : update_at (JStr _ :: _) _ ?g = Ok ?g' |- _ =>
           note_delta g g'
             ltac:(assert (doc_delta g g' 0 [] [] [] [])
                     by (eapply delta_other; [exact Hs|key_in]))
         end.

Ltac delta_between g e H :=
  pose proof (doc_delta_refl g) as H;
  repeat lazymatch type of H with
         | doc_delta g e _ _ _ _ _ => fail
         | doc_delta g ?x _ _ _ _ _ =>
           match goal with
           | H2 : doc_delta x ?y _ _ _ _ _ |- _ =>
             lazymatch y with x => fail | _ => idtac end;
             let H' := fresh in
             pose proof (doc_delta_trans _ _ _ _ _ _ _ _ _ _ _ _ _ H H2) as H';
             clear H; rename H' into H
           end
         end;
  cbn [app Nat.add] in H; rewrite ?app_nil_r, ?Nat.add_0_r in H; cbn [app] in H.

Ltac late_key := key_in.

Lemma attach_references gltf bin_data mesh_node_idx path num_positions bones
    joints_data weights_data animations gltf' bin_data' :
  attach gltf bin_data mesh_node_idx (JStr "meshes" :: path) num_positions bones
         joints_data weights_data animations = Ok (gltf', bin_data') ->
  exists ja wa jbv wbv joff jsize woff wsize jbin0 jbin wbin0 wbin,
    get_at [JStr "nodes"; JInt mesh_node_idx; JStr "skin"] gltf'
      = Ok (JInt (len (items "skins" gltf))) /\
    get_at (JStr "meshes" :: path ++ [JStr "attributes"; JStr "JOINTS_0"]) gltf'
      = Ok (JInt ja) /\
    get_at (JStr "meshes" :: path ++ [JStr "attributes"; JStr "WEIGHTS_0"]) gltf'
      = Ok (JInt wa) /\
    (0 <= ja /\ items "accessors" gltf' !! Z.to_nat ja
                = Some (obj_accessor jbv 5121 num_positions "VEC4")) /\
    (0 <= jbv /\ items "bufferViews" gltf' !! Z.to_nat jbv
                 = Some (obj_buffer_view joff jsize (Some 4))) /\
    (0 <= wa /\ items "accessors" gltf' !! Z.to_nat wa
                = Some (obj_accessor wbv 5126 num_positions "VEC4")) /\
    (0 <= wbv /\ items "bufferViews" gltf' !! Z.to_nat wbv
                 = Some (obj_buffer_view woff wsize (Some 16))) /\
    (add_to_buffer jbin0 (Nums (map PyInt joints_data)) "B" = Ok (jbin, (joff, jsize)) /\
     extends jbin bin_data') /\
    (add_to_buffer wbin0 (Nums (map PyFloat weights_data)) "f" = Ok (wbin, (woff, wsize)) /\
     extends wbin bin_data').
Proof.
  intros Ha. unfold attach in Ha. cbn [app] in Ha.
  repeat (bind_step Ha; split_pairs). injection Ha as -> ->.
  lazymatch goal with
  | Hf : foldM (fun g b => update_at [JStr "nodes"] _ g) bones gltf = Ok _ |- _ =>
    pose proof (proj1 (fold_joint_nodes _ _ _ Hf))
  end.
  lazymatch goal with
  | Hf : foldM (link_child _) _ _ = Ok _ |- _ => pose proof (fold_link_child _ _ _ _ Hf)
  end.
  lazymatch goal with
  | Hf : foldM (add_animation _) _ (?g, ?b) = Ok (?g', ?b') |- _ =>
    destruct (fold_animations_delta _ _ _ _ _ _ Hf) as (accs & bvs & clips & Hanim & _);
    assert (keeps late_keys g g')
      by (apply (fold_animations_keeps late_keys _ _ _ _ _ _ Hf); late_key);
    assert (keeps after_skin_keys g g')
      by (apply (fold_animations_keeps after_skin_keys _ _ _ _ _ _ Hf); late_key);
    destruct (fold_animations_payload _ _ _ _ _ _ Hf) as [Hpay _]
  end.
  delta_steps. keeps_steps late_keys. keeps_steps after_skin_keys.
  lazymatch goal with
  | Hsi : mbind _ (py_get ?gs "skins" _) = Ok ?si,
    Hse : ensure_list "skins" ?gs = Ok ?gs1,
    Hsa : update_at [JStr "skins"] _ ?gs1 = Ok ?gs2,
    Hsk : update_at [JStr "nodes"; JInt mesh_node_idx] _ ?gs2 = Ok ?gk,
    Hjb : add_to_buffer ?jb0 (Nums (map PyInt joints_data)) "B" = Ok (?jb, (?joff, ?jsize)),
    Hjv : push "bufferViews" (obj_buffer_view ?joff ?jsize (Some 4)) ?gk = Ok (?gj1, ?jbv),
    Hja : push "accessors" _ ?gj1 = Ok (?gj2, ?ja),
    Hjs : update_at _ (fun a => py_setitem a (JStr "JOINTS_0") _) ?gj2 = Ok ?gj3,
    Hwb : add_to_buffer ?jb (Nums (map PyFloat weights_data)) "f" = Ok (?wb, (?woff, ?wsize)),
    Hwv : push "bufferViews" (obj_buffer_view ?woff ?wsize (Some 16)) ?gj3 = Ok (?gw1, ?wbv),
    Hwa : push "accessors" _ ?gw1 = Ok (?gw2, ?wa),
    Hws : update_at _ (fun a => py_setitem a (JStr "WEIGHTS_0") _) ?gw2 = Ok ?gw3 |- _ =>
    exists ja, wa, jbv, wbv, joff, jsize, woff, wsize, jb0, jb, jb, wb;
    assert (Kskin : keeps after_skin_keys gk gltf') by keeps_chain;
    assert (Kj : keeps late_keys gj3 gw2) by keeps_chain;
    assert (Kw : keeps late_keys gw3 gltf') by keeps_chain;
    pose proof (set_then_get _ _ _ _ _ Hsk) as Gskin;
    pose proof (set_then_get _ _ _ _ _ Hjs) as Gj;
    pose proof (set_then_get _ _ _ _ _ Hws) as Gw;
    pose proof (set_other_key _ "WEIGHTS_0" "JOINTS_0" _ _ _ Hws ltac:(discriminate)) as Gjw;
    pose proof (skin_index _ _ _ _ _ Hsi Hse Hsa) as Hsi';
    let Hd := fresh "Hd" in delta_between gltf gs Hd;
    pose proof (delta_skins _ _ _ _ _ _ _ Hd) as Dskins;
    let Hd := fresh "Hd" in delta_between gj1 gltf' Hd;
    pose proof (delta_buffer_views _ _ _ _ _ _ _ Hd) as Djv;
    let Hd := fresh "Hd" in delta_between gj2 gltf' Hd;
    pose proof (delta_accessors _ _ _ _ _ _ _ Hd) as Dja;
    let Hd := fresh "Hd" in delta_between gw1 gltf' Hd;
    pose proof (delta_buffer_views _ _ _ _ _ _ _ Hd) as Dwv;
    let Hd := fresh "Hd" in delta_between gw2 gltf' Hd;
    pose proof (delta_accessors _ _ _ _ _ _ _ Hd) as Dwa;
    pose proof (pushed_stays _ _ _ _ _ _ _ Hjv Djv) as Pjv;
    pose proof (pushed_stays _ _ _ _ _ _ _ Hja Dja) as Pja;
    pose proof (pushed_stays _ _ _ _ _ _ _ Hwv Dwv) as Pwv;
    pose proof (pushed_stays _ _ _ _ _ _ _ Hwa Dwa) as Pwa;
    pose proof (add_to_buffer_grows _ _ _ _ _ _ Hwb) as Hgrow
  end.
  cbn [app] in Gskin, Gj, Gw, Gjw.
  rewrite <- !app_assoc in Gj, Gw, Gjw. cbn [app] in Gj, Gw, Gjw.
  rewrite ?app_nil_r in Dskins.
  split; [|split; [|split] ].
  - apply (get_at_frame _ _ _ _ _ (Kskin "nodes"%string ltac:(late_key))).
    rewrite Gskin, Hsi'. by rewrite Dskins.
  - apply (get_at_frame _ _ _ _ _ (Kw "meshes"%string ltac:(late_key))).
    rewrite Gjw.
    apply (get_at_frame _ _ _ _ _ (Kj "meshes"%string ltac:(late_key))). exact Gj.
  - apply (get_at_frame _ _ _ _ _ (Kw "meshes"%string ltac:(late_key))). exact Gw.
  - repeat (split; [assumption|]). split; [split; [eassumption|]|split; [eassumption|] ].
    + by etransitivity.
    + assumption.
Qed.

Lemma add_to_buffer_bytes_shape (b : list byte) (js : list Z) (b' : list byte)
    (offset size : Z) :
  add_to_buffer b (Nums (map PyInt js)) "B" = Ok (b', (offset, size)) ->
  Forall (fun v => 0 <= v < 2 ^ (8 * Z.of_nat 1)) js /\
  b' = pad4 x00 b ++ concat (map (le_bytes 1) js) /\
  offset = len (pad4 x00 b) /\ size = len js.
Proof.
  intros Hadd. unfold add_to_buffer in Hadd. cbn [String.eqb Ascii.eqb Bool.eqb] in Hadd.
  destruct (pack_array (pack_uint 1) (map PyInt js)) as [packed|] eqn:Ep;
    cbn [mbind result_bind] in Hadd; [|discriminate].
  injection Hadd as <- <- <-.
  pose proof (pack_array_len (pack_uint 1) 1 _ _ (pack_uint_len 1) Ep) as Hlen.
  apply pack_array_uint_inv in Ep as [Hrange ->].
  repeat split; try assumption. rewrite Hlen, len_map. lia.
Qed.

Lemma add_to_buffer_floats_size (b : list byte) (l : list pynum) (b' : list byte)
    (offset size : Z) :
  add_to_buffer b (Nums l) "f" = Ok (b', (offset, size)) -> size = 4 * len l.
Proof.
  intros Hadd. unfold add_to_buffer in Hadd. cbn [String.eqb Ascii.eqb Bool.eqb] in Hadd.
  destruct (pack_array pack_f l) as [packed|] eqn:Ep;
    cbn [mbind result_bind] in Hadd; [|discriminate].
  injection Hadd as _ _ <-. by apply (pack_array_len pack_f 4 l packed pack_f_len).
Qed.

Section ReferenceFacts.
Context `{Platform}.

(** The stages of the pipeline, when it returns. *)
Lemma rig_stages (gltf : json) (bin_data : list byte) (r : json * list byte) :
  rig gltf bin_data = Ok r ->
  exists mesh_node_idx mesh_idx positions min_pt max_pt mesh_height bones
         joints_data weights_data animations,
    locate_mesh gltf = Ok mesh_node_idx /\
    extract_positions gltf bin_data mesh_node_idx
      = Ok ([JStr "meshes"; mesh_idx; JStr "primitives"; JInt 0], positions) /\
    bounds positions = Ok (min_pt, max_pt) /\
    create_humanoid_skeleton (min_pt, max_pt) = Ok bones /\
    compute_skin_weights (tuples_of positions) bones 4 = Ok (joints_data, weights_data) /\
    create_animations bones mesh_height = Ok animations /\
    attach gltf bin_data mesh_node_idx [JStr "meshes"; mesh_idx; JStr "primitives"; JInt 0]
           (count_of positions) bones joints_data weights_data animations = Ok r.
Proof.
  intros Hr. unfold rig in Hr.
  repeat (bind_step Hr; split_pairs).
  match goal with
  | He : extract_positions _ _ _ = Ok _ |- _ =>
    destruct (extract_positions_primitive _ _ _ _ _ He) as [mesh_idx ->]
  end.
  by eexists _, _, _, _, _, _, _, _, _, _.
Qed.

(** What the rigged document refers to. The mesh node's [skin] is the index
    of the skin that was appended. The primitive's [JOINTS_0] and
    [WEIGHTS_0] attributes are the indices of two accessors of the rigged
    document, of type [VEC4] with one element per vertex, unsigned bytes
    for the joints and floats for the weights, each over a buffer view of
    the rigged document with four and sixteen bytes per vertex. *)
Theorem rig_references (gltf : json) (bin_data : list byte)
    (gltf' : json) (bin_data' : list byte) :
  rig gltf bin_data = Ok (gltf', bin_data') ->
  exists mesh_node_idx primitive positions ja wa jbv wbv joff woff,
    locate_mesh gltf = Ok mesh_node_idx /\
    extract_positions gltf bin_data mesh_node_idx = Ok (primitive, positions) /\
    get_at [JStr "nodes"; JInt mesh_node_idx; JStr "skin"] gltf'
      = Ok (JInt (len (items "skins" gltf))) /\
    get_at (primitive ++ [JStr "attributes"; JStr "JOINTS_0"]) gltf' = Ok (JInt ja) /\
    get_at (primitive ++ [JStr "attributes"; JStr "WEIGHTS_0"]) gltf' = Ok (JInt wa) /\
    (0 <= ja /\ items "accessors" gltf' !! Z.to_nat ja
                = Some (obj_accessor jbv 5121 (count_of positions) "VEC4")) /\
    (0 <= jbv /\ items "bufferViews" gltf' !! Z.to_nat jbv
                 = Some (obj_buffer_view joff (4 * count_of positions) (Some 4))) /\
    (0 <= wa /\ items "accessors" gltf' !! Z.to_nat wa
                = Some (obj_accessor wbv 5126 (count_of positions) "VEC4")) /\
    (0 <= wbv /\ items "bufferViews" gltf' !! Z.to_nat wbv
                 = Some (obj_buffer_view woff (16 * count_of positions) (Some 16))).
Proof.
  intros Hr.
  apply rig_stages in Hr
    as (mesh_node_idx & mesh_idx & positions & min_pt & max_pt & mesh_height & bones
        & joints_data & weights_data & animations & Hl & He & _ & _ & Hskin & _ & Ha).
  apply attach_references in Ha
    as (ja & wa & jbv & wbv & joff & jsize & woff & wsize & jb0 & jb & wb0 & wb
        & Gskin & Gj & Gw & Pja & Pjv & Pwa & Pwv & [Hjb _] & [Hwb _]).
  destruct (skin_lengths _ _ _ _ _ Hskin) as [Hlj Hlw].
  rewrite count_of_tuples in Hlj, Hlw.
  apply add_to_buffer_bytes_shape in Hjb as (_ & _ & _ & ->).
  apply add_to_buffer_floats_size in Hwb as ->.
  rewrite len_map in Pwv. rewrite Hlj in Pjv. rewrite Hlw in Pwv.
  replace (4 * (4 * count_of positions)) with (16 * count_of positions) in Pwv by lia.
  by exists mesh_node_idx, [JStr "meshes"; mesh_idx; JStr "primitives"; JInt 0],
    positions, ja, wa, jbv, wbv, joff, woff.
Qed.

(** The joints in the rigged payload are the joints that were computed:
    reading the accessor that the primitive's [JOINTS_0] attribute names,
    from the rigged document and payload, gives the joints of
    [compute_skin_weights] back, four per vertex. *)
Theorem rig_joints_read_back (gltf : json) (bin_data : list byte)
    (gltf' : json) (bin_data' : list byte) :
  rig gltf bin_data = Ok (gltf', bin_data') ->
  exists mesh_node_idx primitive positions min_pt max_pt bones joints_data weights_data ja,
    locate_mesh gltf = Ok mesh_node_idx /\
    extract_positions gltf bin_data mesh_node_idx = Ok (primitive, positions) /\
    bounds positions = Ok (min_pt, max_pt) /\
    create_humanoid_skeleton (min_pt, max_pt) = Ok bones /\
    compute_skin_weights (tuples_of positions) bones 4 = Ok (joints_data, weights_data) /\
    get_at (primitive ++ [JStr "attributes"; JStr "JOINTS_0"]) gltf' = Ok (JInt ja) /\
    get_accessor_data gltf' bin_data' (JInt ja) = Ok (rows_of 4 (map PyInt joints_data)).
Proof.
  intros Hr.
  apply rig_stages in Hr
    as (mesh_node_idx & mesh_idx & positions & min_pt & max_pt & mesh_height & bones
        & joints_data & weights_data & animations & Hl & He & Hb & Hs & Hskin & _ & Ha).
  apply attach_references in Ha
    as (ja & wa & jbv & wbv & joff & jsize & woff & wsize & jb0 & jb & wb0 & wb
        & _ & Gj & _ & [Hja Pja] & [Hjbv Pjv] & _ & _ & [Hjb [more ->] ] & _).
  destruct (skin_lengths _ _ _ _ _ Hskin) as [Hlj _].
  rewrite count_of_tuples in Hlj.
  apply add_to_buffer_bytes_shape in Hjb as (Hrange & -> & -> & ->).
  exists mesh_node_idx, [JStr "meshes"; mesh_idx; JStr "primitives"; JInt 0],
    positions, min_pt, max_pt, bones, joints_data, weights_data, ja.
  repeat (split; [assumption|]).
  rewrite (get_accessor_data_at _ _ _ _ _ _ _ _ _ _ Hja Pja Hjbv Pjv).
  rewrite <- app_assoc.
  apply (get_uint_view 1 "B"); try reflexivity; try assumption; try lia.
  destruct positions; cbn [count_of]; apply len_nonneg.
Qed.
End ReferenceFacts.

Lemma rig_references_witness :
  exists ja wa,
    get_at [JStr "nodes"; JInt 0; JStr "skin"] triangle_rigged.1 = Ok (JInt 0) /\
    get_at [JStr "meshes"; JInt 0; JStr "primitives"; JInt 0; JStr "attributes";
            JStr "JOINTS_0"] triangle_rigged.1 = Ok (JInt ja) /\
    get_at [JStr "meshes"; JInt 0; JStr "primitives"; JInt 0; JStr "attributes";
            JStr "WEIGHTS_0"] triangle_rigged.1 = Ok (JInt wa).
Proof.
  destruct (rig_references (H:=Demo.platform) triangle_gltf triangle_bin
              triangle_rigged.1 triangle_rigged.2)
    as (i & primitive & positions & ja & wa & jbv & wbv & joff & woff
        & Hl & He & Gskin & Gj & Gw & _).
  - rewrite rig_triangle. exact (f_equal Ok (surjective_pairing triangle_rigged)).
  - assert (Hi : i = 0) by (vm_compute in Hl; by injection Hl as <-).
    subst i.
    assert (Hp : primitive = [JStr "meshes"; JInt 0; JStr "primitives"; JInt 0])
      by (vm_compute in He; by injection He as <- _).
    subst primitive. exists ja, wa. split; [exact Gskin|]. split; [exact Gj|exact Gw].
Defined.

Lemma rig_joints_read_back_witness :
  exists joints_data ja,
    length joints_data = 12%nat /\
    get_accessor_data triangle_rigged.1 triangle_rigged.2 (JInt ja)
      = Ok (rows_of 4 (map PyInt joints_data)).
Proof.
  destruct (rig_joints_read_back (H:=Demo.platform) triangle_gltf triangle_bin
              triangle_rigged.1 triangle_rigged.2)
    as (i & primitive & positions & min_pt & max_pt & bones & js & ws & ja
        & Hl & He & Hb & Hs & Hskin & Gj & Hread).
  - rewrite rig_triangle. exact (f_equal Ok (surjective_pairing triangle_rigged)).
  - exists js, ja. split; [|exact Hread].
    assert (Hi : i = 0) by (vm_compute in Hl; by injection Hl as <-).
    subst i.
    assert (Hc : count_of positions = 3)
      by (vm_compute in He; by injection He as _ <-).
    destruct (skin_lengths (H:=Demo.platform) _ _ _ _ _ Hskin) as [Hlj _].
    rewrite count_of_tuples, Hc in Hlj. unfold len in Hlj. lia.
Defined.

(** ** The triangle through the pipeline *)

Section TriangleFacts.
Context `{Platform}.

(** C1 (amended). On the single-triangle mesh, whenever the pipeline
    returns (as it does on the reference platform), the skeleton builder
    has made exactly 20 bones from the bounds (0,0,0) and (1,1,0); the
    rigged document has one skin, whose joints are the 20 nodes 1..20 that
    were appended; the primitive's [JOINTS_0] and [WEIGHTS_0] attributes
    name accessors of count 3, one element per vertex; and exactly three
    animations were appended, named Idle, Walk and Attack. *)
Theorem C1_triangle (gltf' : json) (bin_data' : list byte) :
  rig triangle_gltf triangle_bin = Ok (gltf', bin_data') ->
  (exists bones,
     create_humanoid_skeleton triangle_bounds = Ok bones /\ length bones = 20%nat) /\
  (exists skin,
     items "skins" gltf' = [skin] /\
     field "joints" skin = Some (JArr (map JInt (seqZ 1 20))) /\
     length (items "nodes" gltf') = 21%nat) /\
  (exists ja jbv,
     get_at [JStr "meshes"; JInt 0; JStr "primitives"; JInt 0; JStr "attributes";
             JStr "JOINTS_0"] gltf' = Ok (JInt ja) /\
     0 <= ja /\
     items "accessors" gltf' !! Z.to_nat ja = Some (obj_accessor jbv 5121 3 "VEC4")) /\
  (exists wa wbv,
     get_at [JStr "meshes"; JInt 0; JStr "primitives"; JInt 0; JStr "attributes";
             JStr "WEIGHTS_0"] gltf' = Ok (JInt wa) /\
     0 <= wa /\
     items "accessors" gltf' !! Z.to_nat wa = Some (obj_accessor wbv 5126 3 "VEC4")) /\
  (exists clips,
     items "animations" gltf' = clips /\
     map (field "name") clips =
       [Some (JStr "Idle"); Some (JStr "Walk"); Some (JStr "Attack")]).
Proof.
  intros Hr.
  apply rig_stages in Hr
    as (mesh_node_idx & mesh_idx & positions & min_pt & max_pt & mesh_height & bones
        & joints_data & weights_data & animations & Hl & He & Hb & Hs & _ & Hanim & Ha).
  vm_compute in Hl. apply Ok_inj in Hl. subst mesh_node_idx.
  vm_compute in He. apply Ok_inj in He. injection He as <- <-.
  vm_compute in Hb. apply Ok_inj in Hb. injection Hb as <- <-.
  pose proof (f_equal (@length Z) (skeleton_parents _ _ Hs)) as Hlen.
  rewrite length_map in Hlen. cbn [length] in Hlen.
  apply create_animations_shape in Hanim
    as (v1 & v2 & v3 & v4 & v5 & v6 & v7 & v8 & v9 & ->).
  pose proof (attach_references _ _ _ _ _ _ _ _ _ _ _ Ha)
    as (ja & wa & jbv & wbv & joff & jsize & woff & wsize & jb0 & jb & wb0 & wb
        & _ & Gj & Gw & [Hja Pja] & _ & [Hwa Pwa] & _).
  apply attach_delta in Ha
    as (accs & bvs & skin & clips & [Hn _ _ Hsk Hm] & _ & _ & _ & Hjoints & Hclips);
    [|intros ->; discriminate Hlen].
  split; [by exists bones|]. split; [|split; [|split] ].
  - exists skin. split; [exact Hsk|]. split.
    + rewrite Hjoints. unfold len. rewrite Hlen. reflexivity.
    + rewrite Hn, Hlen. reflexivity.
  - by exists ja, jbv.
  - by exists wa, wbv.
  - exists clips. split; [exact Hm|exact Hclips].
Qed.
End TriangleFacts.

Lemma C1_triangle_witness :
  (exists bones,
     create_humanoid_skeleton triangle_bounds = Ok bones /\ length bones = 20%nat) /\
  length (items "nodes" triangle_rigged.1) = 21%nat.
Proof.
  destruct (C1_triangle (H:=Demo.platform) triangle_rigged.1 triangle_rigged.2)
    as (Hbones & (skin & _ & _ & Hnodes) & _).
  - rewrite rig_triangle. exact (f_equal Ok (surjective_pairing triangle_rigged)).
  - split; [exact Hbones|exact Hnodes].
Defined.

(** C1 (as stated) fails: from the bounds of the triangle the skeleton
    builder makes 20 bones, not 19, and the skin that the pipeline appends
    on the reference platform lists 20 joints. *)
Lemma C1_counterexample :
  length <$> create_humanoid_skeleton triangle_bounds = Ok 20%nat /\
  (skin ← get_at [JStr "skins"; JInt 0; JStr "joints"] triangle_rigged.1; py_len skin)
    = Ok 20.
Proof. vm_compute. split; reflexivity. Qed.

(** ** The mesh data after the pipeline *)

(** A slice that lies in a list is the same slice of any extension. *)
Lemma py_slice_extends {A} (b more : list A) (lo hi : Z) :
  0 <= lo -> lo <= hi -> len (py_slice b lo hi) = hi - lo ->
  py_slice (b ++ more) lo hi = py_slice b lo hi.
Proof.
  intros Hlo Hhi Hlen. unfold py_slice in *. rewrite len_app.
  pose proof (len_nonneg b). pose proof (len_nonneg more).
  destruct (Z.ltb_spec lo 0); [lia|]. destruct (Z.ltb_spec hi 0); [lia|].
  unfold len in *. rewrite length_take, length_drop in Hlen.
  destruct (Z.eq_dec hi lo) as [->|Hne].
  - rewrite !Z.sub_diag. reflexivity.
  - assert (hi <= Z.of_nat (length b)) by lia.
    rewrite !Z.min_l by lia.
    rewrite drop_app_le by lia.
    rewrite take_app_le; [reflexivity|]. rewrite length_drop. lia.
Qed.

(** [get_accessor_data] gives the same for a document that has more
    accessors and buffer views at the end, and a payload that has more
    bytes at the end, when the accessor is named by a non-negative index
    and its byte offsets are ints with a non-negative sum. *)
Lemma get_accessor_data_extends (g g' : json) (b more : list byte) (a bv o1 o2 : Z)
    (accessor buffer_view : json) (la lb : list json) (data : accessor_data) :
  items "accessors" g' = items "accessors" g ++ la ->
  items "bufferViews" g' = items "bufferViews" g ++ lb ->
  0 <= a -> items "accessors" g !! Z.to_nat a = Some accessor ->
  py_getitem accessor (JStr "bufferView") = Ok (JInt bv) ->
  0 <= bv -> items "bufferViews" g !! Z.to_nat bv = Some buffer_view ->
  py_get buffer_view "byteOffset" (JInt 0) = Ok (JInt o1) ->
  py_get accessor "byteOffset" (JInt 0) = Ok (JInt o2) ->
  0 <= o1 + o2 ->
  get_accessor_data g b (JInt a) = Ok data ->
  get_accessor_data g' (b ++ more) (JInt a) = Ok data.
Proof.
  intros Ha' Hb' Ha Hacc Hbv Hbv0 Hview Ho1 Ho2 Hoff Hread.
  assert (Hacc' : items "accessors" g' !! Z.to_nat a = Some accessor)
    by (rewrite Ha'; by apply lookup_app_l_Some).
  assert (Hview' : items "bufferViews" g' !! Z.to_nat bv = Some buffer_view)
    by (rewrite Hb'; by apply lookup_app_l_Some).
  assert (Hidx : forall l i, py_getitem (JArr l) (JInt i) = py_index l i) by reflexivity.
  unfold get_accessor_data in *.
  rewrite (field_py_getitem _ _ _ (items_field _ _ _ _ Hacc)) in Hread.
  rewrite (field_py_getitem _ _ _ (items_field _ _ _ _ Hacc')).
  cbn [mbind result_bind] in *.
  rewrite Hidx, (py_index_lookup _ _ _ Ha Hacc) in Hread.
  rewrite Hidx, (py_index_lookup _ _ _ Ha Hacc').
  cbn [mbind result_bind] in *.
  rewrite (field_py_getitem _ _ _ (items_field _ _ _ _ Hview)) in Hread.
  rewrite (field_py_getitem _ _ _ (items_field _ _ _ _ Hview')).
  cbn [mbind result_bind] in *.
  rewrite Hbv in *. cbn [mbind result_bind] in *.
  rewrite Hidx, (py_index_lookup _ _ _ Hbv0 Hview) in Hread.
  rewrite Hidx, (py_index_lookup _ _ _ Hbv0 Hview').
  cbn [mbind result_bind] in *.
  rewrite Ho1 in *. cbn [mbind result_bind] in *.
  rewrite Ho2 in *. cbn [mbind result_bind py_plus as_index option_bind] in *.
  destruct (py_getitem accessor (JStr "componentType")) as [ct|];
    cbn [mbind result_bind] in *; [|discriminate].
  destruct (component_types ct) as [dtype|]; cbn [mbind result_bind] in *; [|discriminate].
  destruct (py_getitem accessor (JStr "type")) as [ty|];
    cbn [mbind result_bind] in *; [|discriminate].
  destruct (type_counts ty) as [count|]; cbn [mbind result_bind] in *; [|discriminate].
  destruct (py_getitem accessor (JStr "count")) as [n|];
    cbn [mbind result_bind] in *; [|discriminate].
  destruct (py_times n count) as [ [total|]|]; cbn [mbind result_bind] in *;
    try discriminate.
  set (size := calcsize dtype * total) in *.
  destruct (unpack_array total dtype (py_slice b (o1 + o2) (o1 + o2 + size)))
    as [items|] eqn:Eu; cbn [mbind result_bind] in Hread; [|discriminate].
  assert (Hslice : py_slice (b ++ more) (o1 + o2) (o1 + o2 + size)
                   = py_slice b (o1 + o2) (o1 + o2 + size)).
  { unfold unpack_array in Eu.
    destruct (Z.ltb_spec total 0); [discriminate|].
    destruct (Z.eqb_spec (len (py_slice b (o1 + o2) (o1 + o2 + size))) (calcsize dtype * total))
      as [Hl|]; [|discriminate].
    pose proof (calcsize_pos dtype).
    apply py_slice_extends; [assumption|subst size; nia|]. fold size in Hl. lia. }
  rewrite Hslice, Eu. cbn [mbind result_bind]. exact Hread.
Qed.

Section MeshDataFacts.
Context `{Platform}.

(** The pipeline keeps the mesh data readable. An accessor of the input
    document, named by a non-negative index and with int byte offsets
    whose sum is not negative, that [get_accessor_data] could read from the
    input, gives the same data when it is read from the rigged document and
    payload: the accessors and buffer views of the input are still in
    front, and the bytes of the input payload too. *)
Theorem rig_keeps_mesh_data (gltf : json) (bin_data : list byte)
    (gltf' : json) (bin_data' : list byte) (a bv o1 o2 : Z)
    (accessor buffer_view : json) (data : accessor_data) :
  rig gltf bin_data = Ok (gltf', bin_data') ->
  0 <= a -> items "accessors" gltf !! Z.to_nat a = Some accessor ->
  py_getitem accessor (JStr "bufferView") = Ok (JInt bv) ->
  0 <= bv -> items "bufferViews" gltf !! Z.to_nat bv = Some buffer_view ->
  py_get buffer_view "byteOffset" (JInt 0) = Ok (JInt o1) ->
  py_get accessor "byteOffset" (JInt 0) = Ok (JInt o2) ->
  0 <= o1 + o2 ->
  get_accessor_data gltf bin_data (JInt a) = Ok data ->
  get_accessor_data gltf' bin_data' (JInt a) = Ok data.
Proof.
  intros Hr Ha Hacc Hbv Hbv0 Hview Ho1 Ho2 Hoff Hread.
  apply rig_stages in Hr
    as (mesh_node_idx & mesh_idx & positions & min_pt & max_pt & mesh_height & bones
        & joints_data & weights_data & animations & _ & _ & _ & Hs & _ & _ & Hatt).
  pose proof (f_equal (@length Z) (skeleton_parents _ _ Hs)) as Hlen.
  rewrite length_map in Hlen. cbn [length] in Hlen.
  destruct (attach_payload _ _ _ _ _ _ _ _ _ _ _ Hatt) as ([more ->] & _).
  apply attach_delta in Hatt
    as (accs & bvs & skin & clips & [_ Hda Hdb _ _] & _);
    [|intros ->; discriminate Hlen].
  by apply (get_accessor_data_extends gltf gltf' bin_data more a bv o1 o2
              accessor buffer_view accs bvs).
Qed.
End MeshDataFacts.

Lemma rig_keeps_mesh_data_witness :
  get_accessor_data triangle_rigged.1 triangle_rigged.2 (JInt 0)
    = get_accessor_data triangle_gltf triangle_bin (JInt 0).
Proof.
  destruct (get_accessor_data triangle_gltf triangle_bin (JInt 0)) as [data|] eqn:Ed;
    [|vm_compute in Ed; discriminate Ed].
  apply (rig_keeps_mesh_data (H:=Demo.platform) triangle_gltf triangle_bin
           triangle_rigged.1 triangle_rigged.2 0 0 0 0
           (JObj [("bufferView", JInt 0); ("componentType", JInt 5126);
                  ("count", JInt 3); ("type", JStr "VEC3");
                  ("min", JArr [JInt 0; JInt 0; JInt 0]);
                  ("max", JArr [JInt 1; JInt 1; JInt 0])]%string)
           (JObj [("buffer", JInt 0); ("byteOffset", JInt 0);
                  ("byteLength", JInt 36)]%string) data).
  - rewrite rig_triangle. exact (f_equal Ok (surjective_pairing triangle_rigged)).
  - lia.
  - reflexivity.
  - reflexivity.
  - lia.
  - reflexivity.
  - reflexivity.
  - reflexivity.
  - lia.
  - exact Ed.
Defined.
